(** * CLIP4Cir-with-SPN: the data pipeline and the ranker, embedded in Rocq

    The development follows [src/data_utils.py] (padding transforms, caption
    composition, dataset adapters) and [src/inference.py] (index builder and
    ranker).  Python values are modelled as the code has them: ints as [Z],
    floats as the rational [Q] they hold, rounded to binary64 (Python floats)
    or binary32 (torch tensors) after each operation, strings as [string],
    lists as [list], dicts as [gmap]; exceptions, [print] and the random
    generator are threaded through a small state-and-error monad. *)

From Stdlib Require Import ZArith QArith Qround Qabs Qpower Lqa Lia Ascii.
From stdpp Require Import base option list strings pretty gmap sorting.

Open Scope Z_scope.

(** ** A small Python runtime *)

Module Py.

(** The exceptions the modelled code can raise.  All of them derive from
    [Exception], so an [except Exception] clause catches every one. *)
Inductive exn : Type :=
| IndexError
| KeyError (key : string)
| FileNotFoundError (path : string)
| UnidentifiedImageError (what : string)
| ValueError (msg : string)
| AssertionError
| ZeroDivisionError
| RuntimeError (msg : string)
| TypeError (msg : string)
| AttributeError (name : string).

(** [repr(s)] of a string: single quotes, or double quotes when the text
    holds a single quote and no double quote; the backslash, the quote in
    use and the control characters are escaped.  Bytes from 128 on (UTF-8
    text) are printed as they are. *)
Definition hex_digit (n : N) : ascii :=
  match n with
  | 0 => "0" | 1 => "1" | 2 => "2" | 3 => "3" | 4 => "4" | 5 => "5" | 6 => "6"
  | 7 => "7" | 8 => "8" | 9 => "9" | 10 => "a" | 11 => "b" | 12 => "c"
  | 13 => "d" | 14 => "e" | _ => "f"
  end%N%char.

Definition repr_char (quote c : ascii) : string :=
  let n := N_of_ascii c in
  if Ascii.eqb c "\"%char then "\\"
  else if Ascii.eqb c quote then String "\"%char (String c "")
  else if (n =? 9)%N then "\t"
  else if (n =? 10)%N then "\n"
  else if (n =? 13)%N then "\r"
  else if (n <? 32)%N || (n =? 127)%N then
    String "\"%char (String "x" (String (hex_digit (n / 16)) (String (hex_digit (n mod 16)) "")))
  else String c "".

Fixpoint has_char (c : ascii) (s : string) : bool :=
  match s with
  | EmptyString => false
  | String c' s' => Ascii.eqb c c' || has_char c s'
  end.

Fixpoint repr_chars (quote : ascii) (s : string) : string :=
  match s with
  | EmptyString => ""
  | String c s' => repr_char quote c +:+ repr_chars quote s'
  end.

Definition double_quote : ascii := ascii_of_N 34.

Definition repr_str (s : string) : string :=
  let quote : ascii :=
    if has_char "'" s && negb (has_char double_quote s) then double_quote
    else "'"%char in
  String quote (repr_chars quote s) +:+ String quote "".

(** [str(e)], as it appears in [f"Exception: {e}"]. *)
Definition str_exn (e : exn) : string :=
  match e with
  | IndexError => "list index out of range"
  | KeyError key => repr_str key
  | FileNotFoundError path =>
      "[Errno 2] No such file or directory: " +:+ repr_str path
  | UnidentifiedImageError what => "cannot identify image file " +:+ repr_str what
  | ValueError msg => msg
  | AssertionError => ""
  | ZeroDivisionError => "division by zero"
  | RuntimeError msg => msg
  | TypeError msg => msg
  | AttributeError name => "'CIRDataset' object has no attribute '" +:+ name +:+ "'"
  end.

Inductive result (A : Type) : Type :=
| Ok (a : A)
| Raise (e : exn).
Arguments Ok {A} a.
Arguments Raise {A} e.

#[global] Instance result_fmap : FMap result := fun A B f m =>
  match m with
  | Ok a => Ok (f a)
  | Raise e => Raise e
  end.
#[global] Instance result_ret : MRet result := fun A a => Ok a.
#[global] Instance result_bind : MBind result := fun A B f m =>
  match m with
  | Ok a => f a
  | Raise e => Raise e
  end.

(** The interpreter state a call can observe or change: what was printed so
    far, and the random generator.  The generator is modelled by its
    answers: [rng] is the sequence of integers it is going to hand to the
    calls of the [random] module, one per call, and [rng_pos] counts the
    calls answered.  How many words of the Mersenne Twister one call
    consumes is not modelled. *)
Record interp : Type := Interp {
  stdout : list string;
  rng : nat -> Z;
  rng_pos : nat
}.

Definition py (A : Type) : Type := interp -> result A * interp.

#[global] Instance py_ret : MRet py := fun A a st => (Ok a, st).
#[global] Instance py_bind : MBind py := fun A B f m st =>
  match m st with
  | (Ok a, st') => f a st'
  | (Raise e, st') => (Raise e, st')
  end.

Definition raise {A : Type} (e : exn) : py A := fun st => (Raise e, st).

Definition lift {A : Type} (r : result A) : py A := fun st => (r, st).

Definition print (line : string) : py unit := fun st =>
  (Ok tt, Interp (stdout st ++ [line]) (rng st) (rng_pos st)).

(** [try: body  except Exception as e: handler(e)] *)
Definition try_except {A : Type} (body : py A) (handler : exn -> py A) : py A :=
  fun st =>
    match body st with
    | (Ok a, st') => (Ok a, st')
    | (Raise e, st') => handler e st'
    end.

(** [assert cond] *)
Definition py_assert (cond : bool) : py unit :=
  if cond then mret tt else raise AssertionError.

(** [random.random()]: the answer reduced to 53 bits and divided by 2^53,
    a value in [0, 1). *)
Definition two53 : Z := 2 ^ 53.

Definition next_random (st : interp) : Q :=
  Qmake (rng st (rng_pos st) mod two53) (Z.to_pos two53).

Definition advance (st : interp) : interp :=
  Interp (stdout st) (rng st) (S (rng_pos st)).

Definition random_random : py Q := fun st => (Ok (next_random st), advance st).

(** [seq[i]] on a list, with Python's negative indices. *)
Definition getitem {A : Type} (seq : list A) (i : Z) : result A :=
  let n := Z.of_nat (length seq) in
  let j := if i <? 0 then i + n else i in
  if (j <? 0) || (n <=? j) then Raise IndexError
  else match seq !! Z.to_nat j with
       | Some x => Ok x
       | None => Raise IndexError
       end.

(** [random.choice(seq)]: [seq[randbelow(len(seq))]].  Any position can
    come out: it is the answer of the generator reduced modulo the length.
    (CPython draws it with [getrandbits] and redraws while the value is out
    of range; the redraws stay inside the one call that [advance] counts.)
    An empty sequence raises [IndexError]. *)
Definition random_choice {A : Type} (seq : list A) : py A := fun st =>
  match seq with
  | [] => (Raise IndexError, st)
  | _ => (getitem seq (rng st (rng_pos st) mod Z.of_nat (length seq)),
          advance st)
  end.

(** [d[key]] on a dict. *)
Definition getkey {V : Type} (d : gmap string V) (key : string) : result V :=
  match d !! key with
  | Some v => Ok v
  | None => Raise (KeyError key)
  end.

(** [self.name] for an attribute that some constructor paths never set. *)
Definition getattr {V : Type} (name : string) (attr : option V) : result V :=
  match attr with
  | Some v => Ok v
  | None => Raise (AttributeError name)
  end.

(** [d[key]] on a JSON record for a key that some records lack. *)
Definition getfield {V : Type} (key : string) (field : option V) : result V :=
  match field with
  | Some v => Ok v
  | None => Raise (KeyError key)
  end.

(** [d[key]] on a dict whose iteration order matters (a loaded JSON object),
    kept as the list of its items. *)
Fixpoint lookup_item {V : Type} (d : list (string * V)) (key : string) : result V :=
  match d with
  | [] => Raise (KeyError key)
  | (k, v) :: d' => if String.eqb k key then Ok v else lookup_item d' key
  end.

(** [os.path.join(a, b)] for POSIX paths. *)
Definition ends_with_slash (a : string) : bool :=
  match String.rev a with
  | String c _ => Ascii.eqb c "/"%char
  | EmptyString => false
  end.

Definition os_path_join (a b : string) : string :=
  match b with
  | String c _ =>
      if Ascii.eqb c "/"%char then b
      else if String.eqb a "" || ends_with_slash a then a +:+ b
      else a +:+ "/" +:+ b
  | EmptyString =>
      if String.eqb a "" || ends_with_slash a then a else a +:+ "/"
  end.

(** [str(PurePosixPath(a) / b)]: the parts of both paths without the empty
    ones and without ["."], under the root of [b] when it has one and the
    root of [a] otherwise; two leading slashes, and only two, are kept. *)
Fixpoint split_slash (s : string) (part : string) : list string :=
  match s with
  | EmptyString => [String.rev part]
  | String c s' =>
      if Ascii.eqb c "/"%char then String.rev part :: split_slash s' ""
      else split_slash s' (String c part)
  end.

Definition path_parts (s : string) : list string :=
  filter (fun part => part <> "" /\ part <> ".") (split_slash s "").

Definition path_root (s : string) : string :=
  match s with
  | String "/" (String "/" (String "/" _)) => "/"
  | String "/" (String "/" _) => "//"
  | String "/" _ => "/"
  | _ => ""
  end.

Definition pathlib_join (a b : string) : string :=
  let root := if String.eqb (path_root b) "" then path_root a else path_root b in
  let parts :=
    if String.eqb (path_root b) "" then path_parts a ++ path_parts b
    else path_parts b in
  if String.eqb root "" && bool_decide (parts = []) then "."
  else root +:+ String.concat "/" parts.

(** [repr] of a list of strings, as an f-string prints it. *)
Definition repr_list (l : list string) : string :=
  "[" +:+ String.concat ", " (map repr_str l) +:+ "]".

(** *** Floats

    A float is the rational it holds.  [round_float] rounds a rational to
    the nearest number of a binary format, ties to the even significand
    (subnormal numbers included): the result of every IEEE operation is the
    rounding of its exact result.  Magnitudes from [exact_from] on are left
    as they are: [inf] has no rational value.  The result is a fraction in
    lowest terms. *)
Definition round_half_even (y : Q) : Z :=
  let f := Qfloor y in
  match (y - inject_Z f ?= 1 # 2)%Q with
  | Lt => f
  | Gt => f + 1
  | Eq => if Z.even f then f else f + 1
  end.

(** The [e] with [2^e <= x < 2^(e+1)], for a positive [x]. *)
Definition binade (x : Q) : Z :=
  if Qle_bool 1 x then Z.log2 (Qfloor x) else - Z.log2_up (Qceiling (/ x)).

Record float_format : Type := {
  fraction_bits : Z;
  emin : Z;
  exact_from : Q
}.

Definition round_float (fmt : float_format) (x : Q) : Q :=
  if Qle_bool (exact_from fmt) (Qabs x) || Qeq_bool x 0 then Qred x
  else
    let e := Z.max (binade (Qabs x)) (emin fmt) in
    let ulp := (2 ^ (e - fraction_bits fmt))%Q in
    Qred (inject_Z (round_half_even (x / ulp)) * ulp).

(** Python floats.  Below 2^52 this is binary64; from 2^52 on, where
    binary64 no longer holds every half of an integer, numbers are kept as
    they are, so that the integer arithmetic on pixel counts stays exact at
    every size.  The sides of a PIL image are C ints and stay far below. *)
Definition binary64 : float_format :=
  {| fraction_bits := 52; emin := -1022; exact_from := 2 ^ 52 |}.

(** The elements of a [torch.float32] tensor. *)
Definition binary32 : float_format :=
  {| fraction_bits := 23; emin := -126; exact_from := 2 ^ 128 |}.

Definition round64 : Q -> Q := round_float binary64.
Definition round32 : Q -> Q := round_float binary32.

(** The grid of binary64 around a number: [round64 x] is a multiple of
    [2 ^ grid64 x]. *)
Definition grid64 (x : Q) : Z := Z.max (binade (Qabs x)) (-1022) - 52.

Definition on_grid (s : Z) (g : Q) : Prop :=
  exists n : Z, (g == inject_Z n * 2 ^ s)%Q.

(** Float comparison [x < y]. *)
Definition Qltb (x y : Q) : bool := Qnum x * QDen y <? Qnum y * QDen x.

(** [int(x)] on a float: truncation toward zero. *)
Definition int (x : Q) : Z := Z.quot (Qnum x) (QDen x).

(** [a / b], true division on Python numbers: the quotient rounded to
    binary64; raises on a zero divisor. *)
Definition truediv (a b : Q) : result Q :=
  if Qeq_bool b 0 then Raise ZeroDivisionError else Ok (round64 (a / b)).

(** [a - b] on Python floats. *)
Definition fsub (a b : Q) : Q := round64 (a - b).

End Py.

Import Py.

(** ** Images and the padding transforms ([SquarePad], [TargetPad]) *)

Module Transforms.

(** A PIL image: its size and its pixel values (one band; a fill value
    applies to every band alike).  [getpixel x y] is read only for
    [0 <= x < size_w] and [0 <= y < size_h]. *)
Record image : Type := Image {
  size_w : Z;
  size_h : Z;
  getpixel : Z -> Z -> Z
}.

(** [torchvision.transforms.functional.pad(image, [left, top, right, bottom],
    fill, 'constant')]: the canvas grows by the four amounts and the old
    content sits at offset [(left, top)]. *)
Definition F_pad (im : image) (padding : Z * Z * Z * Z) (fill : Z) : image :=
  let '(pl, pt, pr, pb) := padding in
  {| size_w := pl + size_w im + pr;
     size_h := pt + size_h im + pb;
     getpixel := fun x y =>
       if (pl <=? x) && (x <? pl + size_w im)
          && (pt <=? y) && (y <? pt + size_h im)
       then getpixel im (x - pl) (y - pt)
       else fill |}.

Record SquarePad : Type := { sp_size : Z }.

Definition SquarePad_call (self : SquarePad) (im : image) : image :=
  let w := size_w im in
  let h := size_h im in
  let max_wh := Z.max w h in
  let hp := int (inject_Z (max_wh - w) / 2)%Q in
  let vp := int (inject_Z (max_wh - h) / 2)%Q in
  F_pad im (hp, vp, hp, vp) 0.

(** [target_ratio] is a Python float: what [__call__] reads is the number
    given to the constructor rounded to binary64 (1.1 is not 11/10). *)
Record TargetPad : Type := { target_ratio : Q; tp_size : Z }.

Definition TargetPad_call (self : TargetPad) (im : image) : result image :=
  let w := size_w im in
  let h := size_h im in
  let target_ratio := round64 (target_ratio self) in
  actual_ratio ← truediv (inject_Z (Z.max w h)) (inject_Z (Z.min w h));
  if Qltb actual_ratio target_ratio then mret im
  else
    scaled_max_wh ← truediv (inject_Z (Z.max w h)) target_ratio;
    hp_float ← truediv (fsub scaled_max_wh (inject_Z w)) 2;
    vp_float ← truediv (fsub scaled_max_wh (inject_Z h)) 2;
    let hp := Z.max (int hp_float) 0 in
    let vp := Z.max (int vp_float) 0 in
    mret (F_pad im (hp, vp, hp, vp) 0).

End Transforms.

(** ** Caption composition ([generate_randomized_fiq_caption]) *)

Module Caption.

(** [c in chars] *)
Fixpoint in_chars (chars : string) (c : ascii) : bool :=
  match chars with
  | EmptyString => false
  | String d chars' => Ascii.eqb c d || in_chars chars' c
  end.

(** [s.lstrip(chars)], [s.rstrip(chars)] and [s.strip(chars)]. *)
Fixpoint lstrip (chars s : string) : string :=
  match s with
  | EmptyString => EmptyString
  | String c s' => if in_chars chars c then lstrip chars s' else s
  end.

Fixpoint rstrip (chars s : string) : string :=
  match s with
  | EmptyString => EmptyString
  | String c s' =>
      match rstrip chars s' with
      | EmptyString => if in_chars chars c then EmptyString else String c EmptyString
      | r => String c r
      end
  end.

Definition strip (chars s : string) : string := rstrip chars (lstrip chars s).

(** The stripped character set of the source, ['.?, ']. *)
Definition punct : string := ".?, ".

(** [generate_randomized_fiq_caption(captions, type=-1)].  The float literals
    0.12, 0.37, 0.62 and 0.88 are written as the decimal fractions they
    denote; 0.25, 0.5 and 0.75 are exact. *)
Definition generate_randomized_fiq_caption (captions : list string) (type : Z)
  : py string :=
  random_num ← random_random;
  let random_num :=
    if type =? 0 then 12 # 100
    else if type =? 1 then 37 # 100
    else if type =? 2 then 62 # 100
    else if type =? 3 then 88 # 100
    else random_num in
  if Qltb random_num (1 # 4) then
    c0 ← lift (getitem captions 0);
    c1 ← lift (getitem captions 1);
    mret (strip punct c0 +:+ " and " +:+ strip punct c1)
  else if Qltb (1 # 4) random_num && Qltb random_num (1 # 2) then
    c1 ← lift (getitem captions 1);
    c0 ← lift (getitem captions 0);
    mret (strip punct c1 +:+ " and " +:+ strip punct c0)
  else if Qltb (1 # 2) random_num && Qltb random_num (3 # 4) then
    c0 ← lift (getitem captions 0);
    mret (strip punct c0)
  else
    c1 ← lift (getitem captions 1);
    mret (strip punct c1).

End Caption.

(** ** The dataset adapters of [data_utils.py] *)

Module Datasets.
Import Transforms Caption.

(** A preprocessed image: channels x rows x columns of floats. *)
Definition tensor : Type := list (list (list Q)).

(** What a [__getitem__] hands back: a tuple of names, tensors, captions and
    ids, or [None]. *)
#[warnings="-register-all"] Inductive value : Type :=
| VNone
| VStr (s : string)
| VInt (n : Z)
| VTensor (t : tensor)
| VList (items : list value)
| VTuple (items : list value).

(** *** The files the adapters read *)

Inductive file : Type :=
| Missing
| Corrupt
| Picture (im : image).

(** A record of [cap.<dress_type>.<split>.json]. *)
Record fiq_triplet : Type := FiqTriplet {
  fiq_candidate : string;
  fiq_target : string;
  fiq_captions : list string;
  fiq_llm_caption : option string
}.

(** A record of [cap.rc2.<split>.json]; [caption] is a string in the base
    manifest and may be a list in an extended one. *)
Record cirr_triplet : Type := CirrTriplet {
  cirr_reference : string;
  cirr_target_hard : option string;
  cirr_caption : string + list string;
  cirr_pairid : Z;
  cirr_members : list string;
  cirr_llm_caption : option string
}.

Record wikiart_entry : Type := WikiartEntry { wikiart_image_path : string }.

(** The disk: image files, and the JSON manifests by path, each already
    parsed to the shape its reader expects.  [base_path] is the module-level
    constant of the same name. *)
Record world : Type := World {
  base_path : string;
  image_files : string -> file;
  fiq_caption_files : string -> option (list fiq_triplet);
  split_files : string -> option (list string);
  cirr_caption_files : string -> option (list cirr_triplet);
  relpath_files : string -> option (list (string * string));
  wikiart_files : string -> option (list wikiart_entry);
  optimized_files : string -> option (list string * list string * gmap string Z)
}.

(** [PIL.Image.open(path)] *)
Definition Image_open (w : world) (path : string) : result image :=
  match image_files w path with
  | Missing => Raise (FileNotFoundError path)
  | Corrupt => Raise (UnidentifiedImageError path)
  | Picture im => Ok im
  end.

(** [with open(path) as f: json.load(f)] *)
Definition json_load {A : Type} (files : string -> option A) (path : string)
  : result A :=
  match files path with
  | Some content => Ok content
  | None => Raise (FileNotFoundError path)
  end.

(** [self.preprocess(PIL.Image.open(path))] *)
Definition load_image (w : world) (preprocess : image -> result tensor)
    (path : string) : py tensor :=
  im ← lift (Image_open w path);
  lift (preprocess im).

Definition in_list (x : string) (l : list string) : bool :=
  bool_decide (x ∈ l).

Definition VStrs (l : list string) : value := VList (VStr <$> l).

(** The interface of [torch.utils.data.Dataset]: [__len__] and
    [__getitem__]. *)
Class Dataset (D : Type) : Type := {
  dataset_len : D -> result Z;
  dataset_getitem : world -> D -> Z -> py value
}.

(** *** [FashionIQDataset] *)

Record FashionIQDataset : Type := {
  fq_mode : string;
  fq_dress_types : list string;
  fq_split : string;
  fq_preprocess : image -> result tensor;
  fq_triplets : list fiq_triplet;
  fq_image_names : list string
}.

Definition mode_error : exn :=
  ValueError "mode should be in ['relative', 'classic']".

(** The constructors build the paths of their manifests with [pathlib] from
    [base_path] (an absolute, normalised path) and names they have checked
    before: the string is the one [os.path.join] gives. *)
Definition FashionIQDataset_init (w : world) (split : string)
    (dress_types : list string) (mode : string)
    (preprocess : image -> result tensor) : py FashionIQDataset :=
  if negb (in_list mode ["relative"; "classic"]) then raise mode_error
  else if negb (in_list split ["test"; "train"; "val"]) then
    raise (ValueError "split should be in ['test', 'train', 'val']")
  else
    _ ← mapM (fun dress_type =>
          if negb (in_list dress_type ["dress"; "shirt"; "toptee"]) then
            raise (ValueError "dress_type should be in ['dress', 'shirt', 'toptee']")
          else mret tt) dress_types;
    triplets ← mapM (fun dress_type =>
          lift (json_load (fiq_caption_files w)
            (os_path_join (os_path_join (os_path_join (base_path w)
               "fashionIQ_dataset") "captions")
               ("cap." +:+ dress_type +:+ "." +:+ split +:+ ".json"))))
          dress_types;
    image_names ← mapM (fun dress_type =>
          lift (json_load (split_files w)
            (os_path_join (os_path_join (os_path_join (base_path w)
               "fashionIQ_dataset") "image_splits")
               ("split." +:+ dress_type +:+ "." +:+ split +:+ ".json"))))
          dress_types;
    _ ← print ("FashionIQ " +:+ split +:+ " - " +:+ repr_list dress_types
               +:+ " dataset in " +:+ mode +:+ " mode initialized");
    mret {| fq_mode := mode; fq_dress_types := dress_types; fq_split := split;
            fq_preprocess := preprocess; fq_triplets := concat triplets;
            fq_image_names := concat image_names |}.

Definition fiq_image_file (w : world) (name : string) : string :=
  pathlib_join (pathlib_join (pathlib_join (base_path w)
    "fashionIQ_dataset") "images") (name +:+ ".jpg").

(** The body of the [try] block of [FashionIQDataset.__getitem__]. *)
Definition FashionIQDataset_getitem_body (w : world) (self : FashionIQDataset)
    (index : Z) : py value :=
  if String.eqb (fq_mode self) "relative" then
    triplet ← lift (getitem (fq_triplets self) index);
    let image_captions := fiq_captions triplet in
    let reference_name := fiq_candidate triplet in
    if String.eqb (fq_split self) "train" then
      reference_image ← load_image w (fq_preprocess self)
                          (fiq_image_file w reference_name);
      let target_name := fiq_target triplet in
      target_image ← load_image w (fq_preprocess self)
                       (fiq_image_file w target_name);
      mret (VTuple [VTensor reference_image; VTensor target_image;
                    VStrs image_captions])
    else if String.eqb (fq_split self) "val" then
      let target_name := fiq_target triplet in
      mret (VTuple [VStr reference_name; VStr target_name; VStrs image_captions])
    else if String.eqb (fq_split self) "test" then
      reference_image ← load_image w (fq_preprocess self)
                          (fiq_image_file w reference_name);
      mret (VTuple [VStr reference_name; VTensor reference_image;
                    VStrs image_captions])
    else mret VNone
  else if String.eqb (fq_mode self) "classic" then
    image_name ← lift (getitem (fq_image_names self) index);
    image ← load_image w (fq_preprocess self) (fiq_image_file w image_name);
    mret (VTuple [VStr image_name; VTensor image])
  else raise mode_error.

(** [except Exception as e: print(f"Exception: {e}")]; the method then
    falls off its end and returns [None]. *)
Definition swallow (e : exn) : py value :=
  _ ← print ("Exception: " +:+ str_exn e);
  mret VNone.

Definition FashionIQDataset_getitem (w : world) (self : FashionIQDataset)
    (index : Z) : py value :=
  try_except (FashionIQDataset_getitem_body w self index) swallow.

Definition FashionIQDataset_len (self : FashionIQDataset) : result Z :=
  if String.eqb (fq_mode self) "relative" then
    Ok (Z.of_nat (length (fq_triplets self)))
  else if String.eqb (fq_mode self) "classic" then
    Ok (Z.of_nat (length (fq_image_names self)))
  else Raise mode_error.

#[global] Instance FashionIQDataset_Dataset : Dataset FashionIQDataset :=
  {| dataset_len := FashionIQDataset_len;
     dataset_getitem := FashionIQDataset_getitem |}.

(** *** [CIRRDataset] *)

Record CIRRDataset : Type := {
  cr_preprocess : image -> result tensor;
  cr_mode : string;
  cr_split : string;
  cr_triplets : list cirr_triplet;
  cr_name_to_relpath : list (string * string)
}.

Definition CIRRDataset_init (w : world) (split mode : string)
    (preprocess : image -> result tensor) : py CIRRDataset :=
  if negb (in_list split ["test1"; "train"; "val"]) then
    raise (ValueError "split should be in ['test1', 'train', 'val']")
  else if negb (in_list mode ["relative"; "classic"]) then raise mode_error
  else
    triplets ← lift (json_load (cirr_caption_files w)
      (os_path_join (os_path_join (os_path_join (os_path_join (base_path w)
         "cirr_dataset") "cirr") "captions") ("cap.rc2." +:+ split +:+ ".json")));
    name_to_relpath ← lift (json_load (relpath_files w)
      (os_path_join (os_path_join (os_path_join (os_path_join (base_path w)
         "cirr_dataset") "cirr") "image_splits") ("split.rc2." +:+ split +:+ ".json")));
    _ ← print ("CIRR " +:+ split +:+ " dataset in " +:+ mode +:+ " mode initialized");
    mret {| cr_preprocess := preprocess; cr_mode := mode; cr_split := split;
            cr_triplets := triplets; cr_name_to_relpath := name_to_relpath |}.

(** [base_path / 'cirr_dataset' / relpath]: the relative paths of the CIRR
    manifests start with ["./"], which [pathlib] drops. *)
Definition cirr_image_file (w : world) (relpath : string) : string :=
  pathlib_join (pathlib_join (base_path w) "cirr_dataset") relpath.

Definition CIRRDataset_getitem_body (w : world) (self : CIRRDataset)
    (index : Z) : py value :=
  if String.eqb (cr_mode self) "relative" then
    triplet ← lift (getitem (cr_triplets self) index);
    let group_members := cirr_members triplet in
    let reference_name := cirr_reference triplet in
    let rel_caption :=
      match cirr_caption triplet with
      | inl s => VStr s
      | inr l => VStrs l
      end in
    if String.eqb (cr_split self) "train" then
      reference_relpath ← lift (lookup_item (cr_name_to_relpath self) reference_name);
      reference_image ← load_image w (cr_preprocess self)
                          (cirr_image_file w reference_relpath);
      target_hard_name ← lift (getfield "target_hard" (cirr_target_hard triplet));
      target_relpath ← lift (lookup_item (cr_name_to_relpath self) target_hard_name);
      target_image ← load_image w (cr_preprocess self)
                       (cirr_image_file w target_relpath);
      mret (VTuple [VTensor reference_image; VTensor target_image; rel_caption])
    else if String.eqb (cr_split self) "val" then
      target_hard_name ← lift (getfield "target_hard" (cirr_target_hard triplet));
      mret (VTuple [VStr reference_name; VStr target_hard_name; rel_caption;
                    VStrs group_members])
    else if String.eqb (cr_split self) "test1" then
      let pair_id := cirr_pairid triplet in
      mret (VTuple [VInt pair_id; VStr reference_name; rel_caption;
                    VStrs group_members])
    else mret VNone
  else if String.eqb (cr_mode self) "classic" then
    image_name ← lift (getitem (fst <$> cr_name_to_relpath self) index);
    relpath ← lift (lookup_item (cr_name_to_relpath self) image_name);
    image ← load_image w (cr_preprocess self) (cirr_image_file w relpath);
    mret (VTuple [VStr image_name; VTensor image])
  else raise mode_error.

Definition CIRRDataset_getitem (w : world) (self : CIRRDataset) (index : Z)
  : py value :=
  try_except (CIRRDataset_getitem_body w self index) swallow.

Definition CIRRDataset_len (self : CIRRDataset) : result Z :=
  if String.eqb (cr_mode self) "relative" then
    Ok (Z.of_nat (length (cr_triplets self)))
  else if String.eqb (cr_mode self) "classic" then
    Ok (Z.of_nat (length (cr_name_to_relpath self)))
  else Raise mode_error.

#[global] Instance CIRRDataset_Dataset : Dataset CIRRDataset :=
  {| dataset_len := CIRRDataset_len;
     dataset_getitem := CIRRDataset_getitem |}.

(** *** [WikiartDataset] *)

Record WikiartDataset : Type := {
  wk_preprocess : image -> result tensor;
  wk_base_path : string;
  wk_dataset : list wikiart_entry
}.

Definition WikiartDataset_init (w : world) (base_path : string)
    (preprocess : image -> result tensor) : py WikiartDataset :=
  dataset ← lift (json_load (wikiart_files w)
                    (os_path_join base_path "landscape.json"));
  _ ← print "Wikiart dataset initialized";
  mret {| wk_preprocess := preprocess; wk_base_path := base_path;
          wk_dataset := dataset |}.

Definition WikiartDataset_getitem_body (w : world) (self : WikiartDataset)
    (index : Z) : py value :=
  entry ← lift (getitem (wk_dataset self) index);
  let image_name := wikiart_image_path entry in
  let image_path := os_path_join (os_path_join (wk_base_path self) "images")
                      image_name in
  image ← load_image w (wk_preprocess self) image_path;
  mret (VTuple [VStr image_name; VTensor image]).

Definition WikiartDataset_getitem (w : world) (self : WikiartDataset)
    (index : Z) : py value :=
  try_except (WikiartDataset_getitem_body w self index) swallow.

Definition WikiartDataset_len (self : WikiartDataset) : result Z :=
  Ok (Z.of_nat (length (wk_dataset self))).

#[global] Instance WikiartDataset_Dataset : Dataset WikiartDataset :=
  {| dataset_len := WikiartDataset_len;
     dataset_getitem := WikiartDataset_getitem |}.

(** *** [CIRDataset] *)

(** A triplet after the constructor has normalised it.  FashionIQ triplets
    have no ["pairid"] and no ["group_members"] key. *)
Record cir_triplet : Type := CirTriplet {
  reference : string;
  reference_name : string;
  target : string;
  target_name : string;
  captions : list string;
  pairid : option Z;
  group_members : option (list string)
}.

(** The attributes of a [CIRDataset] object.  Those that only some paths of
    the constructor assign are optional: reading one that was never assigned
    raises [AttributeError]. *)
Record CIRDataset : Type := {
  data_name : string;
  split : string;
  mode : string;
  preprocess : image -> result tensor;
  data_path : string;
  dress_types : list string;
  triplets : list cir_triplet;
  targetname2id : gmap string Z;
  use_bank : bool;
  val_ret_train : bool;
  fiq_val_type : Z;
  imagename2id : gmap string Z;
  imagenames : list string;
  imagepaths : list string;
  caption_path : option string;
  image_path : option string;
  image_splits_path : option string;
  N : option Z;
  image_names : option (list string);
  val_image_names : option (list string);
  name_to_relpath : option (list (string * string));
  target_id : option Z;
  image_id : option Z
}.

(** What the [data_name] branch of the constructor assigns. *)
Record loaded : Type := {
  ld_caption_path : option string;
  ld_image_path : option string;
  ld_image_splits_path : option string;
  ld_triplets : list cir_triplet;
  ld_N : option Z;
  ld_image_names : option (list string);
  ld_val_image_names : option (list string);
  ld_name_to_relpath : option (list (string * string))
}.

Definition nothing_loaded : loaded :=
  {| ld_caption_path := None; ld_image_path := None;
     ld_image_splits_path := None; ld_triplets := [];
     ld_N := None; ld_image_names := None; ld_val_image_names := None;
     ld_name_to_relpath := None |}.

(** The [data_name == 'fiq'] branch. *)
Definition load_fiq (w : world) (data_path split : string)
    (dress_types : list string) (fiq_val_type : Z) (plus llmcap : bool)
  : py loaded :=
  let caption_path := os_path_join data_path "captions" in
  let image_path := os_path_join data_path "images" in
  base ← mapM (fun dress_type =>
        lift (json_load (fiq_caption_files w)
          (os_path_join caption_path
             ("cap." +:+ dress_type +:+ "." +:+ split +:+ ".json"))))
        dress_types;
  let raw := concat base in
  let N := Z.of_nat (length raw) in
  raw ← (if String.eqb split "train" && plus then
           let llm_extend := if llmcap then "_llm" else "" in
           extend_triplets ← lift (json_load (fiq_caption_files w)
             (os_path_join caption_path
                ("cap.extend_clip" +:+ llm_extend +:+ ".train.json")));
           extend_triplets ←
             (if llmcap then
                mapM (fun triplet =>
                  llm ← lift (getfield "llm_caption" (fiq_llm_caption triplet));
                  mret (FiqTriplet (fiq_candidate triplet) (fiq_target triplet)
                          [llm] (fiq_llm_caption triplet))) extend_triplets
              else mret extend_triplets);
           mret (raw ++ extend_triplets)
         else mret raw);
  let triplets := map (fun triplet =>
        {| reference := os_path_join image_path (fiq_candidate triplet +:+ ".png");
           reference_name := fiq_candidate triplet;
           target := os_path_join image_path (fiq_target triplet +:+ ".png");
           target_name := fiq_target triplet;
           captions := fiq_captions triplet;
           pairid := None;
           group_members := None |}) raw in
  image_names ← mapM (fun dress_type =>
        lift (json_load (split_files w)
          (os_path_join (os_path_join data_path "image_splits")
             ("split." +:+ dress_type +:+ "." +:+ split +:+ ".json"))))
        dress_types;
  let val_image_names :=
    if (fiq_val_type =? 1) && String.eqb split "val" then
      elements (list_to_set (C := gset string)
        (flat_map (fun triplet => [reference_name triplet; target_name triplet])
           triplets))
    else [] in
  mret {| ld_caption_path := Some caption_path;
          ld_image_path := Some image_path;
          ld_image_splits_path := None;
          ld_triplets := triplets;
          ld_N := Some N;
          ld_image_names := Some (concat image_names);
          ld_val_image_names := Some val_image_names;
          ld_name_to_relpath := None |}.

(** The [data_name == 'cirr'] branch. *)
Definition load_cirr (w : world) (data_path split : string)
    (plus llmcap : bool) : py loaded :=
  let caption_path := os_path_join data_path "cirr/captions" in
  let image_splits_path := os_path_join data_path "cirr/image_splits" in
  let image_path := data_path in
  raw ← lift (json_load (cirr_caption_files w)
           (os_path_join caption_path ("cap.rc2." +:+ split +:+ ".json")));
  name_to_relpath ← lift (json_load (relpath_files w)
           (os_path_join image_splits_path ("split.rc2." +:+ split +:+ ".json")));
  let N := Z.of_nat (length raw) in
  raw ← (if String.eqb split "train" && plus then
           let llm_extend := if llmcap then "_llm" else "" in
           extend_triplets ← lift (json_load (cirr_caption_files w)
             (os_path_join caption_path
                ("cap.rc2.train.extend_clip" +:+ llm_extend +:+ ".json")));
           extend_triplets ←
             (if llmcap then
                mapM (fun triplet =>
                  llm ← lift (getfield "llm_caption" (cirr_llm_caption triplet));
                  mret (CirrTriplet (cirr_reference triplet)
                          (cirr_target_hard triplet) (inr [llm])
                          (cirr_pairid triplet) (cirr_members triplet)
                          (cirr_llm_caption triplet))) extend_triplets
              else mret extend_triplets);
           mret (raw ++ extend_triplets)
         else mret raw);
  triplets ← mapM (fun triplet =>
        reference_relpath ← lift (lookup_item name_to_relpath (cirr_reference triplet));
        target ← match cirr_target_hard triplet with
                 | Some target_hard =>
                     relpath ← lift (lookup_item name_to_relpath target_hard);
                     mret (os_path_join image_path relpath)
                 | None => mret ""
                 end;
        mret {| reference := os_path_join image_path reference_relpath;
                reference_name := cirr_reference triplet;
                target := target;
                target_name := default "" (cirr_target_hard triplet);
                captions := match cirr_caption triplet with
                            | inl s => [s]
                            | inr l => l
                            end;
                pairid := Some (cirr_pairid triplet);
                group_members := Some (cirr_members triplet) |}) raw;
  mret {| ld_caption_path := Some caption_path;
          ld_image_path := Some image_path;
          ld_image_splits_path := Some image_splits_path;
          ld_triplets := triplets;
          ld_N := Some N;
          ld_image_names := None;
          ld_val_image_names := None;
          ld_name_to_relpath := Some name_to_relpath |}.

(** The identifier tables built on the train split. *)
Record indexed : Type := {
  ix_targetname2id : gmap string Z;
  ix_target_id : Z;
  ix_imagename2id : gmap string Z;
  ix_image_id : Z;
  ix_imagenames : list string
}.

(** One turn of the loop [for triplet in self.triplets] of the train split. *)
Definition index_triplet (acc : indexed) (triplet : cir_triplet) : indexed :=
  let refer_name := reference_name triplet in
  let target_name := target_name triplet in
  let '(t2id, tid) :=
    match ix_targetname2id acc !! target_name with
    | None => (<[target_name := ix_target_id acc]> (ix_targetname2id acc),
               ix_target_id acc + 1)
    | Some _ => (ix_targetname2id acc, ix_target_id acc)
    end in
  let '(i2id, iid, names) :=
    match ix_imagename2id acc !! refer_name with
    | None => (<[refer_name := ix_image_id acc]> (ix_imagename2id acc),
               ix_image_id acc + 1, ix_imagenames acc ++ [refer_name])
    | Some _ => (ix_imagename2id acc, ix_image_id acc, ix_imagenames acc)
    end in
  let '(i2id, iid, names) :=
    match i2id !! target_name with
    | None => (<[target_name := iid]> i2id, iid + 1, names ++ [target_name])
    | Some _ => (i2id, iid, names)
    end in
  {| ix_targetname2id := t2id; ix_target_id := tid;
     ix_imagename2id := i2id; ix_image_id := iid; ix_imagenames := names |}.

Definition CIRDataset_init (w : world) (data_name split mode : string)
    (preprocess : image -> result tensor) (data_path : string)
    (dress_types : option (list string)) (val_ret_train : bool)
    (fiq_val_type : Z) (plus llmcap : bool) : py CIRDataset :=
  dress_types ←
    match dress_types with
    | None => mret ["dress"; "shirt"; "toptee"]
    | Some dress_types =>
        _ ← mapM (fun dress_type =>
              py_assert (in_list dress_type ["dress"; "shirt"; "toptee"]))
              dress_types;
        mret dress_types
    end;
  ld ← (if String.eqb data_name "fiq" then
           load_fiq w data_path split dress_types fiq_val_type plus llmcap
         else if String.eqb data_name "cirr" then
           load_cirr w data_path split plus llmcap
         else mret nothing_loaded);
  let start := {| ix_targetname2id := ∅; ix_target_id := 0;
                  ix_imagename2id := ∅; ix_image_id := 0;
                  ix_imagenames := [] |} in
  '(ix, imagepaths, ids) ←
    (if String.eqb split "train" then
       let ix := foldl index_triplet start (ld_triplets ld) in
       imagepaths ← mapM (fun image_name =>
             if String.eqb data_name "fiq" then
               image_path ← lift (getattr "image_path" (ld_image_path ld));
               mret (os_path_join image_path (image_name +:+ ".png"))
             else
               image_path ← lift (getattr "image_path" (ld_image_path ld));
               name_to_relpath ← lift (getattr "name_to_relpath" (ld_name_to_relpath ld));
               relpath ← lift (lookup_item name_to_relpath image_name);
               mret (os_path_join image_path relpath))
             (ix_imagenames ix);
       let optimized_images_file := os_path_join data_path "optimized_images.json" in
       let '(ix, imagepaths) :=
         match optimized_files w optimized_images_file with
         | Some (names, paths, name2id) =>
             ({| ix_targetname2id := ix_targetname2id ix;
                 ix_target_id := ix_target_id ix;
                 ix_imagename2id := name2id;
                 ix_image_id := Z.of_nat (length names);
                 ix_imagenames := names |}, paths)
         | None => (ix, imagepaths)
         end in
       _ ← print ("target number: " +:+ pretty (ix_target_id ix));
       _ ← print ("image number " +:+ pretty (ix_image_id ix));
       mret (ix, imagepaths, Some (ix_target_id ix, ix_image_id ix))
     else mret (start, [], None));
  _ ← print ("CIRDataset " +:+ data_name +:+ " " +:+ split +:+ " " +:+ mode
             +:+ " initial successfully");
  mret {| data_name := data_name; split := split; mode := mode;
          preprocess := preprocess; data_path := data_path;
          dress_types := dress_types;
          triplets := ld_triplets ld;
          targetname2id := ix_targetname2id ix;
          use_bank := false;
          val_ret_train := val_ret_train;
          fiq_val_type := fiq_val_type;
          imagename2id := ix_imagename2id ix;
          imagenames := ix_imagenames ix;
          imagepaths := imagepaths;
          caption_path := ld_caption_path ld;
          image_path := ld_image_path ld;
          image_splits_path := ld_image_splits_path ld;
          N := ld_N ld;
          image_names := ld_image_names ld;
          val_image_names := ld_val_image_names ld;
          name_to_relpath := ld_name_to_relpath ld;
          target_id := fst <$> ids;
          image_id := snd <$> ids |}.

(** The caption chosen on the train split. *)
Definition train_caption (self : CIRDataset) (index : Z)
    (captions : list string) : py string :=
  if 1 <? Z.of_nat (length captions) then
    fiq_base ← (if String.eqb (data_name self) "fiq" then
                  n ← lift (getattr "N" (N self));
                  mret (index <? n)
                else mret false);
    if fiq_base : bool then generate_randomized_fiq_caption captions (-1)
    else random_choice captions
  else lift (getitem captions 0).

(** The caption chosen on the validation split when [val_ret_train] is set. *)
Definition val_caption (captions : list string) : py string :=
  if 1 <? Z.of_nat (length captions) then
    generate_randomized_fiq_caption captions 0
  else lift (getitem captions 0).

Definition CIRDataset_getitem (w : world) (self : CIRDataset) (index : Z)
  : py value :=
  if String.eqb (mode self) "relative" then
    triplet ← lift (getitem (triplets self) index);
    let reference_name := reference_name triplet in
    let reference_image_path := reference triplet in
    let captions := captions triplet in
    if String.eqb (split self) "train" then
      target_index ← lift (getkey (targetname2id self) (target_name triplet));
      reference_index_all ← lift (getkey (imagename2id self) reference_name);
      target_index_all ← lift (getkey (imagename2id self) (target_name triplet));
      caption ← train_caption self index captions;
      if use_bank self then
        mret (VTuple [VStr caption; VInt index; VInt target_index;
                      VInt target_index_all; VInt reference_index_all])
      else
        reference_image ← load_image w (preprocess self) reference_image_path;
        let target_image_path := target triplet in
        target_image ← load_image w (preprocess self) target_image_path;
        mret (VTuple [VTensor reference_image; VStr caption; VTensor target_image;
                      VInt index; VInt target_index; VInt reference_index_all;
                      VInt target_index_all])
    else if String.eqb (split self) "val" && val_ret_train self then
      caption ← val_caption captions;
      let reference_image_path := reference triplet in
      reference_image ← load_image w (preprocess self) reference_image_path;
      let target_image_path := target triplet in
      target_image ← load_image w (preprocess self) target_image_path;
      mret (VTuple [VTensor reference_image; VStr caption; VTensor target_image])
    else if String.eqb (split self) "val" then
      let target_name := target_name triplet in
      if String.eqb (data_name self) "fiq" then
        mret (VTuple [VStr reference_name; VStr target_name; VStrs captions])
      else if String.eqb (data_name self) "cirr" then
        caption ← lift (getitem captions 0);
        members ← lift (getfield "group_members" (group_members triplet));
        mret (VTuple [VStr reference_name; VStr target_name; VStr caption;
                      VStrs members])
      else mret VNone
    else if String.eqb (split self) "test1" then
      _ ← py_assert (String.eqb (data_name self) "cirr");
      pair_id ← lift (getfield "pairid" (pairid triplet));
      caption ← lift (getitem captions 0);
      members ← lift (getfield "group_members" (group_members triplet));
      mret (VTuple [VInt pair_id; VStr reference_name; VStr caption;
                    VStrs members])
    else mret VNone
  else if String.eqb (mode self) "classic" then
    if String.eqb (data_name self) "fiq" then
      if fiq_val_type self =? 0 then
        image_names ← lift (getattr "image_names" (image_names self));
        image_name ← lift (getitem image_names index);
        image_dir ← lift (getattr "image_path" (image_path self));
        let image_path := os_path_join image_dir (image_name +:+ ".png") in
        image ← load_image w (preprocess self) image_path;
        mret (VTuple [VStr image_name; VTensor image])
      else if fiq_val_type self =? 1 then
        _ ← py_assert (String.eqb (split self) "val");
        val_image_names ← lift (getattr "val_image_names" (val_image_names self));
        image_name ← lift (getitem val_image_names index);
        image_dir ← lift (getattr "image_path" (image_path self));
        let image_path := os_path_join image_dir (image_name +:+ ".png") in
        image ← load_image w (preprocess self) image_path;
        mret (VTuple [VStr image_name; VTensor image])
      else mret VNone
    else if String.eqb (data_name self) "cirr" then
      name_to_relpath ← lift (getattr "name_to_relpath" (name_to_relpath self));
      image_name ← lift (getitem (fst <$> name_to_relpath) index);
      relpath ← lift (lookup_item name_to_relpath image_name);
      let image_path := cirr_image_file w relpath in
      image ← load_image w (preprocess self) image_path;
      mret (VTuple [VStr image_name; VTensor image])
    else mret VNone
  else mret VNone.

(** [__len__]; where the method falls off its end it returns [None], which
    [len()] rejects. *)
Definition CIRDataset_len (self : CIRDataset) : result Z :=
  let none := Raise (TypeError "'NoneType' object cannot be interpreted as an integer") in
  if String.eqb (mode self) "relative" then
    Ok (Z.of_nat (length (triplets self)))
  else if String.eqb (mode self) "classic" then
    if String.eqb (data_name self) "fiq" then
      if fiq_val_type self =? 0 then
        image_names ← getattr "image_names" (image_names self);
        mret (Z.of_nat (length image_names))
      else
        val_image_names ← getattr "val_image_names" (val_image_names self);
        mret (Z.of_nat (length val_image_names))
    else if String.eqb (data_name self) "cirr" then
      name_to_relpath ← getattr "name_to_relpath" (name_to_relpath self);
      mret (Z.of_nat (length name_to_relpath))
    else none
  else none.

#[global] Instance CIRDataset_Dataset : Dataset CIRDataset :=
  {| dataset_len := CIRDataset_len;
     dataset_getitem := CIRDataset_getitem |}.

End Datasets.

(** ** The index builder and the ranker of [inference.py] *)

Module Inference.
Import Transforms Datasets.

(** A two-dimensional float tensor: its number of columns and its rows.  A
    tensor with no rows still has a column count, as [torch.empty((0, d))]
    has. *)
Record matrix : Type := Matrix {
  ncols : nat;
  mrows : list (list Q)
}.

Definition size_mismatch : exn :=
  RuntimeError "Sizes of tensors must match except in dimension 0".

Definition shape_mismatch : exn :=
  RuntimeError "mat1 and mat2 shapes cannot be multiplied".

(** [torch.empty((0, d))] *)
Definition torch_empty (d : nat) : matrix := Matrix d [].

(** [torch.vstack((a, b))] *)
Definition vstack (a b : matrix) : result matrix :=
  if (ncols a =? ncols b)%nat then Ok (Matrix (ncols a) (mrows a ++ mrows b))
  else Raise size_mismatch.

(** [1 - m] on a float32 tensor: each element is the float32 nearest to
    the exact difference. *)
Definition one_minus (m : matrix) : matrix :=
  Matrix (ncols m) (map (map (fun x => round32 (1 - x))) (mrows m)).

(** The CLIP model as the code uses it: [visual.output_dim], the two
    encoders on batches, and [clip.tokenize]. *)
Record CLIP : Type := {
  output_dim : nat;
  encode_image : list tensor -> matrix;
  encode_text : list (list Z) -> matrix;
  tokenize : list string -> result (list (list Z))
}.

(** A loop [for x in xs: acc = body(acc, x)] in the interpreter monad. *)
Fixpoint for_each {A S : Type} (xs : list A) (body : S -> A -> py S) (acc : S)
  : py S :=
  match xs with
  | [] => mret acc
  | x :: xs' => acc' ← body acc x; for_each xs' body acc'
  end.

Section Library.

(** Library functions the module calls and does not define:
    [torch.nn.functional.normalize(_, dim=-1)] on one row,
    [torch.matmul], [torch.argsort(_, dim=-1)] on one row (called without
    [stable=True]), [utils.collate_fn] on the items of one batch (it yields
    the batch of names and the batch of images the loop unpacks), and the
    module-level [preprocess] that [predictions] reads.

    [matmul a b i j] is the float32 number that [a @ b.T] holds at row [i]
    and column [j]: the product of row [i] of [a] with row [j] of [b] as the
    kernel computes it.  Which products it fuses and in which order it adds
    them is the kernel's business, so the value is left to the library. *)
Variable F_normalize : list Q -> list Q.
Variable matmul : list (list Q) -> list (list Q) -> nat -> nat -> Q.
Variable argsort : list Q -> list Z.
Variable collate_fn : list value -> result (list string * list tensor).
Variable preprocess : image -> result tensor.

(** [a @ b.T]: one row per row of [a], one column per row of [b]; the
    widths must agree. *)
Definition matmul_T (a b : matrix) : result matrix :=
  if (ncols a =? ncols b)%nat then
    Ok (Matrix (length (mrows b))
          (map (fun i => map (fun j => matmul (mrows a) (mrows b) i j)
                           (seq 0 (length (mrows b))))
             (seq 0 (length (mrows a)))))
  else Raise shape_mismatch.

Definition predictions (w : world) (image_query text_query : string)
    (clip_model : CLIP) (combining_function : matrix -> matrix -> matrix)
  : py matrix :=
  _ ← print "Compute CIRR validation predictions for a single query";
  input_img ← lift (Image_open w image_query);
  input_img ← lift (preprocess input_img);
  text_inputs ← lift (tokenize clip_model [text_query]);
  let image_features := encode_image clip_model [input_img] in
  let text_features := encode_text clip_model text_inputs in
  let predicted_features := combining_function image_features text_features in
  mret predicted_features.

(** The part of [get_predictions] after the query embedding is known. *)
Definition rank (predicted_features index_features : matrix)
    (index_names : list string) : result (list (list string)) :=
  let index_features :=
    Matrix (ncols index_features) (map F_normalize (mrows index_features)) in
  product ← matmul_T predicted_features index_features;
  let distances := one_minus product in
  let sorted_indices := map argsort (mrows distances) in
  mapM (mapM (getitem index_names)) sorted_indices.

Definition get_predictions (w : world) (image_query text_query : string)
    (clip_model : CLIP) (index_features : matrix) (index_names : list string)
    (combining_function : matrix -> matrix -> matrix)
  : py (list (list string)) :=
  predicted_features ←
    predictions w image_query text_query clip_model combining_function;
  _ ← print "Compute CIRR validation metrics";
  lift (rank predicted_features index_features index_names).

(** [extract_index_features]: the loader has [batch_size=1] and the default
    sequential sampler, so batch [i] holds the item at index [i] alone. *)
Definition extract_index_features {D : Type} `{Dataset D} (w : world)
    (dataset : D) (clip_model : CLIP) : py (matrix * list string) :=
  let feature_dim := output_dim clip_model in
  n ← lift (dataset_len dataset);
  for_each (seq 0 (Z.to_nat n))
    (fun '(index_features, index_names) i =>
       item ← dataset_getitem w dataset (Z.of_nat i);
       '(names, images) ← lift (collate_fn [item]);
       let batch_features := encode_image clip_model images in
       index_features ← lift (vstack index_features batch_features);
       mret (index_features, index_names ++ names))
    (torch_empty feature_dim, []).

Definition inference (w : world)
    (combining_function : matrix -> matrix -> matrix) (clip_model : CLIP)
    (dataset_preprocess : image -> result tensor)
    (image_query text_query : string) : py (list (list string)) :=
  wikiart_dataset ← WikiartDataset_init w "wikiart-landscape" dataset_preprocess;
  '(index_features, index_names) ←
    extract_index_features w wikiart_dataset clip_model;
  get_predictions w image_query text_query clip_model index_features
    index_names combining_function.

End Library.

(** What [torch.argsort(d, dim=-1)] guarantees when [stable] is left at its
    default: the result lists every position of the row once, and the values
    read in that order do not decrease.  The order among equal values is
    left open. *)
Definition value_at (d : list Q) (i : Z) : Q := nth (Z.to_nat i) d 0%Q.

Definition sorts (argsort : list Q -> list Z) : Prop :=
  forall d : list Q,
    argsort d ≡ₚ (Z.of_nat <$> seq 0 (length d))
    /\ StronglySorted (fun i j => (value_at d i <= value_at d j)%Q) (argsort d).

(** The distance [get_predictions] computes between query row [i] and
    gallery row [j], and the row of distances of query [i]. *)
Definition distance (F_normalize : list Q -> list Q)
    (matmul : list (list Q) -> list (list Q) -> nat -> nat -> Q)
    (queries gallery : list (list Q)) (i j : nat) : Q :=
  round32 (1 - matmul queries (map F_normalize gallery) i j).

Definition distances (F_normalize : list Q -> list Q)
    (matmul : list (list Q) -> list (list Q) -> nat -> nat -> Q)
    (queries gallery : list (list Q)) (i : nat) : list Q :=
  map (distance F_normalize matmul queries gallery i) (seq 0 (length gallery)).

(** A row of names ranks the gallery along the distances [d]: it reads
    [index_names] along a rearrangement of all gallery positions on which
    [d] never decreases. *)
Definition ranked (index_names : list string) (d : list Q) (row : list string)
  : Prop :=
  exists indices : list Z,
    indices ≡ₚ (Z.of_nat <$> seq 0 (length index_names))
    /\ Forall2 (fun i name => index_names !! Z.to_nat i = Some name) indices row
    /\ StronglySorted (fun i j => (value_at d i <= value_at d j)%Q) indices.

End Inference.
(** ** Auxiliary notions for the statements below *)

(** What [TargetPad.__call__] computes for one side [s] when the longer side
    is [M] and the ratio [t]: the amount
    [max(int((scaled_max_wh - s) / 2), 0)]. *)
Definition side_padding (M : Z) (t : Q) (s : Z) : Z :=
  Z.max (int (round64 (fsub (round64 (inject_Z M / t)) (inject_Z s) / 2))) 0.


(** ** Notions used to state properties of the identifier tables *)

Module Tables.

(** [add_new l x]: [l], with [x] appended unless it is there already;
    [first_seen l]: the distinct elements of [l] in the order of their first
    occurrence. *)
Definition add_new (l : list string) (x : string) : list string :=
  if decide (x ∈ l) then l else l ++ [x].

Definition first_seen (l : list string) : list string := foldl add_new [] l.

(** [ids] numbers the entries of [names] by position and holds nothing
    else. *)
Definition dense_index (ids : gmap string Z) (names : list string) : Prop :=
  forall (name : string) (i : Z),
    ids !! name = Some i <-> exists k : nat, i = Z.of_nat k /\ names !! k = Some name.

(** The state of the loop of the train split of [CIRDataset.__init__] after
    the triplets [done]: the image names seen so far in first-seen order,
    numbered by position, and the target names likewise. *)
Definition indexed_after (done : list Datasets.cir_triplet)
    (acc : Datasets.indexed) : Prop :=
  Datasets.ix_imagenames acc
    = first_seen (flat_map (fun t => [Datasets.reference_name t; Datasets.target_name t]) done)
  /\ dense_index (Datasets.ix_imagename2id acc) (Datasets.ix_imagenames acc)
  /\ Datasets.ix_image_id acc = Z.of_nat (length (Datasets.ix_imagenames acc))
  /\ dense_index (Datasets.ix_targetname2id acc)
       (first_seen (map Datasets.target_name done))
  /\ Datasets.ix_target_id acc
     = Z.of_nat (length (first_seen (map Datasets.target_name done))).

End Tables.

(** ** Concrete inputs used by the examples below *)

Module Examples.
Import Transforms Datasets Inference.

Definition square_pad : SquarePad := {| sp_size := 224 |}.

(** A 3x4 image with a non-zero value everywhere. *)
Definition im3x4 : image := Image 3 4 (fun _ _ => 255).

(** A wide 400x100 image, and the default target ratio 1.25. *)
Definition im400x100 : image := Image 400 100 (fun _ _ => 255).
Definition target_pad : TargetPad := {| target_ratio := 5 # 4; tp_size := 224 |}.

(** The ratio 1.1, as it is written in a call. *)
Definition target_pad_1_1 : TargetPad := {| target_ratio := 11 # 10; tp_size := 224 |}.

(** An interpreter whose generator is about to produce [k], with nothing
    printed yet. *)
Definition st_draw (k : Z) : interp := Interp [] (fun _ => k) 0.

Definition two_captions : list string := ["is red."; " has long sleeves?"].

(** A small disk: two pictures of a FashionIQ-style folder, two paintings
    of which the second file is absent, and the Wikiart manifest. *)
Definition gray (v : Z) : image := Image 2 2 (fun _ _ => v).

Definition disk : world :=
  {| base_path := "/repo";
     image_files := fun path =>
       if String.eqb path "data/images/B001.png" then Picture (gray 10)
       else if String.eqb path "data/images/B002.png" then Picture (gray 20)
       else if String.eqb path "wikiart-landscape/images/monet.jpg" then Picture (gray 30)
       else if String.eqb path "wikiart-landscape/images/corot.jpg" then Picture (gray 40)
       else if String.eqb path "wikiart-landscape/images/broken.jpg" then Corrupt
       else Missing;
     fiq_caption_files := fun _ => None;
     split_files := fun _ => None;
     cirr_caption_files := fun _ => None;
     relpath_files := fun _ => None;
     wikiart_files := fun path =>
       if String.eqb path "wikiart-landscape/landscape.json" then
         Some [WikiartEntry "monet.jpg"; WikiartEntry "corot.jpg"]
       else None;
     optimized_files := fun _ => None |}.

(** A stand-in for the preprocessing pipeline: one value per image. *)
Definition to_tensor (im : image) : result tensor :=
  Ok [[[inject_Z (getpixel im 0 0)]]].

Definition st0 : interp := st_draw 0.

(** A FashionIQ validation set in relative mode with [val_ret_train]. *)
Definition val_triplet : cir_triplet :=
  {| reference := "data/images/B001.png"; reference_name := "B001";
     target := "data/images/B002.png"; target_name := "B002";
     captions := two_captions; pairid := None; group_members := None |}.

Definition val_dataset : CIRDataset :=
  {| data_name := "fiq"; split := "val"; mode := "relative";
     preprocess := to_tensor; data_path := "data";
     dress_types := ["dress"]; triplets := [val_triplet];
     targetname2id := ∅; use_bank := false; val_ret_train := true;
     fiq_val_type := 0; imagename2id := ∅; imagenames := []; imagepaths := [];
     caption_path := Some "data/captions"; image_path := Some "data/images";
     image_splits_path := None; N := Some 1;
     image_names := Some ["B001"; "B002"; "B003"];
     val_image_names := Some []; name_to_relpath := None;
     target_id := None; image_id := None |}.

(** The same set in classic mode; the file of its third image is absent. *)
Definition classic_dataset : CIRDataset :=
  {| data_name := "fiq"; split := "val"; mode := "classic";
     preprocess := to_tensor; data_path := "data";
     dress_types := ["dress"]; triplets := [val_triplet];
     targetname2id := ∅; use_bank := false; val_ret_train := false;
     fiq_val_type := 0; imagename2id := ∅; imagenames := []; imagepaths := [];
     caption_path := Some "data/captions"; image_path := Some "data/images";
     image_splits_path := None; N := Some 1;
     image_names := Some ["B001"; "B003"; "B002"];
     val_image_names := Some []; name_to_relpath := None;
     target_id := None; image_id := None |}.

(** The Wikiart gallery of the disk, and one whose second entry is absent. *)
Definition wikiart : WikiartDataset :=
  {| wk_preprocess := to_tensor; wk_base_path := "wikiart-landscape";
     wk_dataset := [WikiartEntry "monet.jpg"; WikiartEntry "corot.jpg"] |}.

Definition wikiart_twice : WikiartDataset :=
  {| wk_preprocess := to_tensor; wk_base_path := "wikiart-landscape";
     wk_dataset := [WikiartEntry "monet.jpg"; WikiartEntry "corot.jpg";
                    WikiartEntry "monet.jpg"] |}.

Definition wikiart_none : WikiartDataset :=
  {| wk_preprocess := to_tensor; wk_base_path := "wikiart-landscape";
     wk_dataset := [] |}.

Definition wikiart_gap : WikiartDataset :=
  {| wk_preprocess := to_tensor; wk_base_path := "wikiart-landscape";
     wk_dataset := [WikiartEntry "monet.jpg"; WikiartEntry "lost.jpg";
                    WikiartEntry "corot.jpg"] |}.

(** A toy encoder with two-dimensional embeddings, and the element-wise
    sum as combining function. *)
Definition toy_clip : CLIP :=
  {| output_dim := 2;
     encode_image := fun images =>
       Matrix 2 (map (fun t => match t with
                               | ((v :: _) :: _) :: _ => [v; 0%Q]
                               | _ => [0%Q; 0%Q]
                               end) images);
     encode_text := fun tokens => Matrix 2 (map (fun _ => [0%Q; 1%Q]) tokens);
     tokenize := fun texts => Ok (map (fun _ => [49406; 49407]) texts) |}.

Definition element_wise_sum (a b : matrix) : matrix :=
  Matrix (ncols a) (zip_with (zip_with Qplus) (mrows a) (mrows b)).

(** The collation of a batch of (name, image) pairs into the batch of names
    and the batch of images; anything else in the batch is rejected. *)
Fixpoint collate_pairs (batch : list value) : result (list string * list tensor) :=
  match batch with
  | [] => Ok ([], [])
  | VTuple [VStr name; VTensor image] :: batch' =>
      '(names, images) ← collate_pairs batch';
      mret (name :: names, image :: images)
  | _ => Raise (TypeError "default_collate: unexpected batch element")
  end.

(** On rows of unit length [F.normalize] changes nothing. *)
Definition normalize_unit (row : list Q) : list Q := row.

(** A [torch.matmul] kernel: every product and every partial sum rounded
    to float32, left to right.  The examples use values on which any other
    order of summation gives the same numbers. *)
Definition dot32 (u v : list Q) : Q :=
  foldl (fun acc p => round32 (acc + round32 (p.1 * p.2))) 0%Q (zip u v).

Definition matmul32 (a b : list (list Q)) (i j : nat) : Q :=
  dot32 (default [] (a !! i)) (default [] (b !! j)).

Definition Qleb_at (d : list Q) (i j : Z) : Prop :=
  Qle_bool (value_at d i) (value_at d j) = true.

#[global] Instance Qleb_at_dec (d : list Q) (i j : Z) : Decision (Qleb_at d i j).
Proof. unfold Qleb_at. apply _. Defined.

(** A sort that meets the contract of [torch.argsort]: a merge sort of the
    positions by value. *)
Definition argsort_first (d : list Q) : list Z :=
  merge_sort (Qleb_at d) (Z.of_nat <$> seq 0 (length d)).

(** An unstable sort.  Where an introsort (the scheme of C++ [std::sort])
    meets a row of equal values, it leaves the positions untouched up to 16
    entries, which it sorts by insertion, and above it exchanges them in its
    partition step: the pivot, taken from the middle, goes to the front and
    the rest is reversed.  [exchanged n] is that order for [n] equal
    values, after one partition step. *)
Definition exchanged (n : nat) : list Z :=
  let positions := Z.of_nat <$> seq 0 n in
  if (n <=? 16)%nat then positions
  else match positions with
       | first :: rest =>
           let mid := (n / 2)%nat in
           default first (positions !! mid) :: rev (<[pred mid := first]> rest)
       | [] => []
       end.

Definition tie_rank (n : nat) (i : Z) : nat :=
  default 0%nat (fst <$> list_find (fun j => j = i) (exchanged n)).

(** Values first; among equal values, the order of [exchanged]. *)
Definition by_exchange (d : list Q) (i j : Z) : Prop :=
  Qltb (value_at d i) (value_at d j)
  || (Qeq_bool (value_at d i) (value_at d j)
      && (tie_rank (length d) i <=? tie_rank (length d) j)%nat) = true.

#[global] Instance by_exchange_dec (d : list Q) (i j : Z) :
  Decision (by_exchange d i j).
Proof. unfold by_exchange. apply _. Defined.

Definition argsort_unstable (d : list Q) : list Z :=
  merge_sort (by_exchange d) (Z.of_nat <$> seq 0 (length d)).

(** A gallery of three unit rows, the first two equal, and a query. *)
Definition gallery : matrix := Matrix 2 [[1; 0]; [1; 0]; [0; 1]]%Q.
Definition gallery_names : list string := ["a"; "b"; "c"].
Definition query : matrix := Matrix 2 [[7 # 8; 1 # 8]]%Q.

(** A gallery that holds the same embedding seventeen times. *)
Definition gallery17 : matrix := Matrix 2 (replicate 17 [1; 0]%Q).
Definition names17 : list string :=
  (fun k : nat => "item" +:+ pretty k) <$> seq 0 17.

End Examples.

(** ** Concrete manifests used by the examples on the constructors *)

Module MoreExamples.
Import Transforms Datasets Inference.

Definition dress_triplets : list fiq_triplet :=
  [FiqTriplet "B001" "B002" Examples.two_captions None;
   FiqTriplet "B002" "B003" ["is shorter"] None;
   FiqTriplet "B001" "B003" ["is blue"; "has no sleeves"] None].

Definition dress_names : list string := ["B001"; "B002"; "B003"].

(** A disk with the FashionIQ manifests of the dress category, under
    [data/] for [CIRDataset] and under [base_path] for [FashionIQDataset]. *)
Definition fashion : world :=
  {| base_path := "/repo";
     image_files := image_files Examples.disk;
     fiq_caption_files := fun path =>
       if String.eqb path "data/captions/cap.dress.train.json" then Some dress_triplets
       else if String.eqb path "/repo/fashionIQ_dataset/captions/cap.dress.val.json"
       then Some dress_triplets
       else None;
     split_files := fun path =>
       if String.eqb path "data/image_splits/split.dress.train.json" then Some dress_names
       else if String.eqb path "/repo/fashionIQ_dataset/image_splits/split.dress.val.json"
       then Some dress_names
       else None;
     cirr_caption_files := fun _ => None;
     relpath_files := fun _ => None;
     wikiart_files := fun _ => None;
     optimized_files := fun _ => None |}.

(** The same disk with an [optimized_images.json] that lists two images. *)
Definition snapshot : list string * list string * gmap string Z :=
  (["B001"; "B002"], ["data/images/B001.png"; "data/images/B002.png"],
   <["B001" := 0]> (<["B002" := 1]> ∅)).

Definition fashion_snapshot : world :=
  {| base_path := base_path fashion;
     image_files := image_files fashion;
     fiq_caption_files := fiq_caption_files fashion;
     split_files := split_files fashion;
     cirr_caption_files := cirr_caption_files fashion;
     relpath_files := relpath_files fashion;
     wikiart_files := wikiart_files fashion;
     optimized_files := fun path =>
       if String.eqb path "data/optimized_images.json" then Some snapshot else None |}.

(** [CIRDataset('fiq', 'train', 'relative', preprocess, 'data', ['dress'])]
    run on a disk, and the object it returns. *)
Definition train_run (w : world) : result CIRDataset * interp :=
  CIRDataset_init w "fiq" "train" "relative" Examples.to_tensor "data"
    (Some ["dress"]) false 0 false false Examples.st0.

Definition train_self (w : world) : CIRDataset :=
  match (train_run w).1 with
  | Ok self => self
  | Raise _ => Examples.val_dataset
  end.

(** A [FashionIQDataset] on the validation split in relative mode. *)
Definition fiq_val : FashionIQDataset :=
  {| fq_mode := "relative"; fq_dress_types := ["dress"]; fq_split := "val";
     fq_preprocess := Examples.to_tensor; fq_triplets := dress_triplets;
     fq_image_names := dress_names |}.

(** A [CIRRDataset] in classic mode. *)
Definition cirr_classic : CIRRDataset :=
  {| cr_preprocess := Examples.to_tensor; cr_mode := "classic"; cr_split := "val";
     cr_triplets := [];
     cr_name_to_relpath := [("dev-1-img0", "./dev/dev-1-img0.png");
                            ("dev-2-img1", "./dev/dev-2-img1.png")] |}.

(** The tensor [Examples.to_tensor] gives for a painting of [Examples.disk]. *)
Definition painting (name : string) : tensor :=
  if String.eqb name "monet.jpg" then [[[30%Q]]] else [[[40%Q]]].

End MoreExamples.

(** * Properties *)

(** ** The runtime: indexing and the monad *)

Section RuntimeFacts.

Lemma getitem_lookup {A : Type} (l : list A) (i : nat) (x : A) :
  l !! i = Some x -> getitem l (Z.of_nat i) = Ok x.
Proof.
  intros Hx. unfold getitem.
  pose proof (lookup_lt_Some _ _ _ Hx) as Hlt.
  destruct (Z.ltb_spec (Z.of_nat i) 0) as [|_]; [lia|].
  destruct (Z.ltb_spec (Z.of_nat i) 0) as [|_]; [lia|].
  destruct (Z.leb_spec (Z.of_nat (length l)) (Z.of_nat i)) as [|_]; [lia|].
  cbn [orb]. rewrite Nat2Z.id, Hx. reflexivity.
Qed.

Lemma getitem_head {A : Type} (x : A) (l : list A) : getitem (x :: l) 0 = Ok x.
Proof. apply (getitem_lookup (x :: l) 0%nat). reflexivity. Qed.

Lemma getitem_second {A : Type} (x y : A) (l : list A) :
  getitem (x :: y :: l) 1 = Ok y.
Proof. apply (getitem_lookup (x :: y :: l) 1%nat). reflexivity. Qed.

Lemma getitem_beyond {A : Type} (l : list A) (i : Z) :
  Z.of_nat (length l) <= i -> getitem l i = Raise IndexError.
Proof.
  intros Hi. unfold getitem.
  destruct (Z.ltb_spec i 0) as [|_]; [lia|].
  destruct (Z.ltb_spec i 0) as [|_]; [lia|].
  destruct (Z.leb_spec (Z.of_nat (length l)) i) as [_|]; [|lia].
  reflexivity.
Qed.

Lemma getitem_within {A : Type} (l : list A) (i : Z) :
  0 <= i < Z.of_nat (length l) -> exists x, getitem l i = Ok x.
Proof.
  intros Hi.
  destruct (lookup_lt_is_Some_2 l (Z.to_nat i)) as [x Hx]; [lia|].
  exists x. rewrite <- (Z2Nat.id i) by lia. apply getitem_lookup, Hx.
Qed.

Lemma bind_py {A B : Type} (m : py A) (f : A -> py B) (st : interp) :
  (m ≫= f) st = match m st with
                | (Ok a, st') => f a st'
                | (Raise e, st') => (Raise e, st')
                end.
Proof. reflexivity. Qed.

Lemma bind_lift_ok {A B : Type} (a : A) (f : A -> py B) (st : interp) :
  (lift (Ok a) ≫= f) st = f a st.
Proof. reflexivity. Qed.

Lemma bind_lift_raise {A B : Type} (e : exn) (f : A -> py B) (st : interp) :
  (lift (Raise e) ≫= f) st = (Raise e, st).
Proof. reflexivity. Qed.

End RuntimeFacts.

(** ** Float helpers *)

Section FloatFacts.

Lemma Qltb_lt (x y : Q) : Qltb x y = true <-> (x < y)%Q.
Proof. unfold Qltb, Qlt. apply Z.ltb_lt. Qed.

Lemma Qltb_ge (x y : Q) : Qltb x y = false <-> (y <= x)%Q.
Proof. unfold Qltb, Qle. rewrite Z.ltb_ge. reflexivity. Qed.

Lemma truediv_ok (a b : Q) : ~ (b == 0)%Q -> truediv a b = Ok (round64 (a / b)).
Proof.
  intros Hb. unfold truediv.
  destruct (Qeq_bool b 0) eqn:E; [|reflexivity].
  apply Qeq_bool_iff in E. contradiction.
Qed.

Lemma int_half (n : Z) : int (inject_Z n / 2)%Q = Z.quot n 2.
Proof. unfold int. simpl. rewrite Z.mul_1_r. reflexivity. Qed.





(** [int] only depends on the value of the float, not on the fraction that
    stands for it. *)
Lemma int_proper (x y : Q) : (x == y)%Q -> int x = int y.
Proof.
  destruct x as [n1 d1], y as [n2 d2]. unfold Qeq, int. cbn [Qnum Qden].
  intros Heq.
  rewrite <- (Z.quot_mul_cancel_r n1 (Z.pos d1) (Z.pos d2)) by lia.
  rewrite Heq.
  rewrite (Z.mul_comm (Z.pos d1) (Z.pos d2)).
  apply Z.quot_mul_cancel_r; lia.
Qed.

End FloatFacts.

(** ** Rounding to binary64 *)

Section RoundingFacts.
Local Open Scope Q_scope.

Lemma pow2_pos (e : Z) : 0 < 2 ^ e.
Proof. apply Qpower_0_lt. reflexivity. Qed.

Lemma pow2_nonzero (e : Z) : ~ 2 ^ e == 0.
Proof. pose proof (pow2_pos e). lra. Qed.

Lemma pow2_Z (n : Z) : (0 <= n)%Z -> 2 ^ n == inject_Z (2 ^ n).
Proof. intros Hn. symmetry. apply (Zpower_Qpower 2 n Hn). Qed.


Lemma pow2_split (a b : Z) : 2 ^ a == 2 ^ (a - b) * 2 ^ b.
Proof.
  rewrite <- Qpower_plus by lra.
  replace (a - b + b)%Z with a by lia. reflexivity.
Qed.

(** [round_half_even] gives an integer nearest to its argument. *)
Lemma floor_bounds (y : Q) : inject_Z (Qfloor y) <= y < inject_Z (Qfloor y) + 1.
Proof.
  split; [apply Qfloor_le|].
  pose proof (Qlt_floor y) as H. rewrite inject_Z_plus in H. exact H.
Qed.

Lemma round_half_even_cases (y : Q) :
  (round_half_even y = Qfloor y /\ y - inject_Z (Qfloor y) <= 1 # 2)
  \/ (round_half_even y = (Qfloor y + 1)%Z /\ 1 # 2 <= y - inject_Z (Qfloor y)).
Proof.
  unfold round_half_even. cbv zeta.
  destruct (Qcompare_spec (y - inject_Z (Qfloor y)) (1 # 2)) as [Heq|Hlt|Hgt].
  - destruct (Z.even (Qfloor y)); [left | right]; split; try reflexivity; lra.
  - left. split; [reflexivity | lra].
  - right. split; [reflexivity | lra].
Qed.

Lemma round_half_even_nearest (y : Q) (n : Z) :
  Qabs (inject_Z (round_half_even y) - y) <= Qabs (inject_Z n - y).
Proof.
  pose proof (floor_bounds y) as [Hlo Hhi].
  assert (Hn : inject_Z n <= inject_Z (Qfloor y)
               \/ inject_Z (Qfloor y) + 1 <= inject_Z n).
  { destruct (Z.le_gt_cases n (Qfloor y)) as [Hle|Hgt].
    - left. rewrite <- Zle_Qle. exact Hle.
    - right. change 1 with (inject_Z 1). rewrite <- inject_Z_plus, <- Zle_Qle. lia. }
  destruct (round_half_even_cases y) as [[-> Hr]|[-> Hr]];
    [|rewrite inject_Z_plus; change (inject_Z 1) with 1];
    apply Qabs_case; intros; apply Qabs_case; intros; lra.
Qed.

Lemma round_half_even_Z (n : Z) : round_half_even (inject_Z n) = n.
Proof.
  destruct (round_half_even_cases (inject_Z n)) as [[-> _]|[_ Hr]].
  - apply Qfloor_Z.
  - rewrite Qfloor_Z in Hr. exfalso. lra.
Qed.

(** The binade of a positive number. *)
Lemma binade_spec (x : Q) : 0 < x -> 2 ^ binade x <= x < 2 ^ (binade x + 1).
Proof.
  intros Hx. unfold binade.
  destruct (Qle_bool 1 x) eqn:E.
  - apply Qle_bool_iff in E.
    pose proof (floor_bounds x) as [Hlo Hhi].
    assert (Hf : (1 <= Qfloor x)%Z).
    { change 1%Z with (Qfloor 1). apply Qfloor_resp_le, E. }
    destruct (Z.log2_spec (Qfloor x)) as [Hl Hu]; [lia|].
    pose proof (Z.log2_nonneg (Qfloor x)) as Hnn.
    rewrite !pow2_Z by lia. split.
    + apply Qle_trans with (inject_Z (Qfloor x)); [|exact Hlo].
      rewrite <- Zle_Qle. exact Hl.
    + apply Qlt_le_trans with (inject_Z (Qfloor x) + 1); [exact Hhi|].
      change 1 with (inject_Z 1). rewrite <- inject_Z_plus, <- Zle_Qle.
      replace (Z.succ (Z.log2 (Qfloor x))) with (Z.log2 (Qfloor x) + 1)%Z in Hu by lia.
      lia.
  - assert (Hlt : x < 1).
    { apply Qnot_le_lt. intros H. apply Qle_bool_iff in H. congruence. }
    set (c := Qceiling (/ x)).
    assert (Hinv : 1 < / x).
    { apply Qlt_shift_inv_l; [exact Hx|]. lra. }
    assert (Hc : / x <= inject_Z c) by apply Qle_ceiling.
    assert (Hc' : inject_Z c - 1 < / x).
    { pose proof (Qceiling_lt (/ x)) as H. fold c in H.
      unfold Z.sub in H. rewrite inject_Z_plus in H. exact H. }
    assert (Hc2 : (1 < c)%Z).
    { rewrite Zlt_Qlt. change (inject_Z 1) with 1. lra. }
    destruct (Z.log2_up_spec c Hc2) as [Hl Hu].
    pose proof (Z.log2_up_nonneg c) as Hnn.
    set (u := Z.log2_up c) in *.
    assert (Hup : (0 < u)%Z) by (apply Z.log2_up_pos; exact Hc2).
    assert (Hxi : x * / x == 1) by (apply Qmult_inv_r; lra).
    split.
    + rewrite Qpower_opp, pow2_Z by lia.
      assert (Hp : 0 < inject_Z (2 ^ u)).
      { rewrite <- pow2_Z by lia. apply pow2_pos. }
      apply Qle_shift_inv_r; [exact Hp|].
      assert (Hle : / x <= inject_Z (2 ^ u)).
      { apply Qle_trans with (inject_Z c); [exact Hc|]. rewrite <- Zle_Qle. exact Hu. }
      assert (x * / x <= x * inject_Z (2 ^ u)) by (apply Qmult_le_l; assumption).
      lra.
    + replace (- u + 1)%Z with (- (u - 1))%Z by lia.
      rewrite Qpower_opp, pow2_Z by lia.
      assert (Hp : 0 < inject_Z (2 ^ (u - 1))).
      { rewrite <- pow2_Z by lia. apply pow2_pos. }
      apply Qlt_shift_inv_l; [exact Hp|].
      assert (Hlt' : inject_Z (2 ^ (u - 1)) < / x).
      { apply Qle_lt_trans with (inject_Z c - 1); [|exact Hc'].
        replace (Z.pred u) with (u - 1)%Z in Hl by lia.
        assert (HZ : (2 ^ (u - 1) <= c + -1)%Z) by lia.
        rewrite Zle_Qle, inject_Z_plus in HZ. exact HZ. }
      assert (x * inject_Z (2 ^ (u - 1)) < x * / x) by (apply Qmult_lt_l; assumption).
      lra.
Qed.


(** *** [round64] *)



Lemma round64_exact (x : Q) : 2 ^ 52 <= Qabs x \/ x == 0 -> round64 x == x.
Proof.
  intros H. unfold round64, round_float. cbn [exact_from binary64].
  destruct (Qle_bool (2 ^ 52) (Qabs x)) eqn:E1; [apply Qred_correct|].
  destruct (Qeq_bool x 0) eqn:E2; [apply Qred_correct|].
  exfalso. destruct H as [H|H].
  - apply Qle_bool_iff in H. congruence.
  - apply Qeq_bool_iff in H. congruence.
Qed.

Lemma round64_zone (x : Q) :
  Qabs x < 2 ^ 52 -> ~ x == 0 ->
  round64 x == inject_Z (round_half_even (x / 2 ^ grid64 x)) * 2 ^ grid64 x.
Proof.
  intros Hlt Hne. unfold round64, round_float. cbn [exact_from binary64].
  destruct (Qle_bool (2 ^ 52) (Qabs x)) eqn:E1.
  { apply Qle_bool_iff in E1. exfalso. lra. }
  destruct (Qeq_bool x 0) eqn:E2.
  { apply Qeq_bool_iff in E2. contradiction. }
  apply Qred_correct.
Qed.

Lemma zone_cases (x : Q) :
  (2 ^ 52 <= Qabs x \/ x == 0) \/ (Qabs x < 2 ^ 52 /\ ~ x == 0).
Proof.
  destruct (Qlt_le_dec (Qabs x) (2 ^ 52)) as [Hlt|Hge]; [|left; left; exact Hge].
  destruct (Qeq_dec x 0) as [Heq|Hne]; [left; right; exact Heq|].
  right. split; assumption.
Qed.

Lemma Qabs_nonzero (x : Q) : ~ x == 0 -> 0 < Qabs x.
Proof.
  intros Hne. apply Qabs_case; intros H; destruct (Qeq_dec x 0); try contradiction; lra.
Qed.

(** In the rounding zone the grid is at least as fine as the halves. *)
Lemma grid64_fine (x : Q) : Qabs x < 2 ^ 52 -> ~ x == 0 -> (grid64 x <= -1)%Z.
Proof.
  intros Hlt Hne. unfold grid64.
  destruct (binade_spec (Qabs x) (Qabs_nonzero x Hne)) as [Hlo _].
  assert (Hb : (binade (Qabs x) < 52)%Z).
  { apply (Qpower_lt_compat_l_inv 2); [|reflexivity]. lra. }
  lia.
Qed.

Lemma on_grid_coarser (s s' : Z) (g : Q) :
  (s <= s')%Z -> on_grid s' g -> on_grid s g.
Proof.
  intros Hs [n Hn]. exists (n * 2 ^ (s' - s))%Z.
  rewrite Hn, inject_Z_mult, <- pow2_Z by lia.
  rewrite (pow2_split s' s). ring.
Qed.

Lemma on_grid_half (s : Z) (n : Z) : (s <= -1)%Z -> on_grid s (inject_Z n / 2).
Proof.
  intros Hs. apply (on_grid_coarser s (-1)); [exact Hs|].
  exists n. reflexivity.
Qed.

Lemma on_grid_Z (s : Z) (n : Z) : (s <= 0)%Z -> on_grid s (inject_Z n).
Proof.
  intros Hs. apply (on_grid_coarser s 0); [exact Hs|].
  exists n. rewrite Qpower_0_r. ring.
Qed.



(** A grid point on one side of [x] stays on that side of [round64 x]. *)
Lemma round64_grid (x b : Q) :
  Qabs x < 2 ^ 52 -> ~ x == 0 -> on_grid (grid64 x) b ->
  (b <= x -> b <= round64 x) /\ (x <= b -> round64 x <= b).
Proof.
  intros Hlt Hne [n Hn]. rewrite (round64_zone x Hlt Hne).
  set (u := 2 ^ grid64 x) in *.
  assert (Hu : 0 < u) by apply pow2_pos.
  set (y := x / u).
  assert (Hy : y * u == x) by (unfold y; field; lra).
  pose proof (floor_bounds y) as [Hlo Hhi].
  split; intros Hb.
  - assert (Hny : inject_Z n <= y).
    { apply (Qmult_le_r _ _ u Hu). lra. }
    assert (Hfl : (n <= Qfloor y)%Z).
    { rewrite <- (Qfloor_Z n). apply Qfloor_resp_le, Hny. }
    assert (Hr : (n <= round_half_even y)%Z).
    { destruct (round_half_even_cases y) as [[-> _]|[-> _]]; lia. }
    rewrite Zle_Qle in Hr.
    assert (inject_Z n * u <= inject_Z (round_half_even y) * u)
      by (apply Qmult_le_r; assumption).
    lra.
  - assert (Hny : y <= inject_Z n).
    { apply (Qmult_le_r _ _ u Hu). lra. }
    assert (Hr : (round_half_even y <= n)%Z).
    { destruct (round_half_even_cases y) as [[-> _]|[-> Hhalf]].
      - rewrite <- (Qfloor_Z n). apply Qfloor_resp_le, Hny.
      - assert (Hlt' : inject_Z (Qfloor y) < inject_Z n) by lra.
        rewrite <- Zlt_Qlt in Hlt'. lia. }
    rewrite Zle_Qle in Hr.
    assert (inject_Z (round_half_even y) * u <= inject_Z n * u)
      by (apply Qmult_le_r; assumption).
    lra.
Qed.


(** Halves and integers are kept, whatever their size. *)
Lemma round64_ge_half (n : Z) (x : Q) :
  inject_Z n / 2 <= x -> inject_Z n / 2 <= round64 x.
Proof.
  intros Hx. destruct (zone_cases x) as [Hout|[Hlt Hne]].
  - rewrite (round64_exact x Hout). exact Hx.
  - apply (round64_grid x _ Hlt Hne); [|exact Hx].
    apply on_grid_half, grid64_fine; assumption.
Qed.

Lemma round64_le_half (n : Z) (x : Q) :
  x <= inject_Z n / 2 -> round64 x <= inject_Z n / 2.
Proof.
  intros Hx. destruct (zone_cases x) as [Hout|[Hlt Hne]].
  - rewrite (round64_exact x Hout). exact Hx.
  - apply (round64_grid x _ Hlt Hne); [|exact Hx].
    apply on_grid_half, grid64_fine; assumption.
Qed.

Lemma round64_ge_Z (n : Z) (x : Q) : inject_Z n <= x -> inject_Z n <= round64 x.
Proof.
  intros Hx.
  pose proof (round64_ge_half (2 * n) x) as H.
  rewrite inject_Z_mult in H. change (inject_Z 2) with 2 in H.
  assert (He : 2 * inject_Z n / 2 == inject_Z n) by field.
  lra.
Qed.

Lemma round64_le_Z (n : Z) (x : Q) : x <= inject_Z n -> round64 x <= inject_Z n.
Proof.
  intros Hx.
  pose proof (round64_le_half (2 * n) x) as H.
  rewrite inject_Z_mult in H. change (inject_Z 2) with 2 in H.
  assert (He : 2 * inject_Z n / 2 == inject_Z n) by field.
  lra.
Qed.



End RoundingFacts.

(** ** [SquarePad] *)

Section SquarePadFacts.
Import Transforms.

Variable self : SquarePad.

Lemma SquarePad_size (im : image) :
  size_w (SquarePad_call self im)
    = size_w im + 2 * Z.quot (Z.max (size_w im) (size_h im) - size_w im) 2
  /\ size_h (SquarePad_call self im)
    = size_h im + 2 * Z.quot (Z.max (size_w im) (size_h im) - size_h im) 2.
Proof.
  unfold SquarePad_call, F_pad. cbn [size_w size_h].
  rewrite !int_half. split; lia.
Qed.

(** The longer side is never padded. *)
Lemma SquarePad_long_side (im : image) :
  Z.max (size_w (SquarePad_call self im)) (size_h (SquarePad_call self im))
  = Z.max (size_w im) (size_h im).
Proof.
  destruct (SquarePad_size im) as [-> ->].
  destruct (Z.max_spec (size_w im) (size_h im)) as [[Hlt ->]|[Hle ->]].
  - rewrite Z.sub_diag. change (Z.quot 0 2) with 0.
    assert (0 <= Z.quot (size_h im - size_w im) 2) by (apply Z.quot_pos; lia).
    pose proof (Z.quot_rem' (size_h im - size_w im) 2).
    pose proof (Z.rem_bound_pos (size_h im - size_w im) 2). lia.
  - rewrite Z.sub_diag. change (Z.quot 0 2) with 0.
    assert (0 <= Z.quot (size_w im - size_h im) 2) by (apply Z.quot_pos; lia).
    pose proof (Z.quot_rem' (size_w im - size_h im) 2).
    pose proof (Z.rem_bound_pos (size_w im - size_h im) 2). lia.
Qed.

(** When the two sides differ by an even number of pixels the result is
    exactly square. *)
Lemma SquarePad_square_even (im : image) :
  Z.even (size_w im - size_h im) = true ->
  size_w (SquarePad_call self im) = Z.max (size_w im) (size_h im)
  /\ size_h (SquarePad_call self im) = Z.max (size_w im) (size_h im).
Proof.
  intros Hev. destruct (SquarePad_size im) as [-> ->].
  apply Z.even_spec in Hev. destruct Hev as [k Hk].
  destruct (Z.max_spec (size_w im) (size_h im)) as [[Hlt ->]|[Hle ->]].
  - rewrite Z.sub_diag. change (Z.quot 0 2) with 0.
    replace (size_h im - size_w im) with ((- k) * 2) by lia.
    rewrite Z.quot_mul by lia. lia.
  - rewrite Z.sub_diag. change (Z.quot 0 2) with 0.
    replace (size_w im - size_h im) with (k * 2) by lia.
    rewrite Z.quot_mul by lia. lia.
Qed.

(** When they differ by an odd number, the shorter side stays one pixel
    short of the longer one. *)
Lemma SquarePad_short_odd (im : image) :
  Z.odd (size_w im - size_h im) = true ->
  Z.min (size_w (SquarePad_call self im)) (size_h (SquarePad_call self im))
  = Z.max (size_w im) (size_h im) - 1.
Proof.
  intros Hodd. destruct (SquarePad_size im) as [-> ->].
  apply Z.odd_spec in Hodd. destruct Hodd as [k Hk].
  destruct (Z.max_spec (size_w im) (size_h im)) as [[Hlt ->]|[Hle ->]].
  - rewrite Z.sub_diag. change (Z.quot 0 2) with 0.
    pose proof (Z.quot_rem' (size_h im - size_w im) 2).
    pose proof (Z.rem_bound_pos (size_h im - size_w im) 2).
    assert (Z.rem (size_h im - size_w im) 2 = 1).
    { assert (0 <= Z.quot (size_h im - size_w im) 2) by (apply Z.quot_pos; lia). lia. }
    lia.
  - rewrite Z.sub_diag. change (Z.quot 0 2) with 0.
    pose proof (Z.quot_rem' (size_w im - size_h im) 2).
    pose proof (Z.rem_bound_pos (size_w im - size_h im) 2).
    assert (Z.rem (size_w im - size_h im) 2 = 1).
    { assert (0 <= Z.quot (size_w im - size_h im) 2) by (apply Z.quot_pos; lia). lia. }
    lia.
Qed.

(** The padding is filled with zeros and the content is kept, shifted. *)
Lemma F_pad_pixels (im : image) (pl pt pr pb fill x y : Z) :
  getpixel (F_pad im (pl, pt, pr, pb) fill) x y
  = if (pl <=? x) && (x <? pl + size_w im) && (pt <=? y) && (y <? pt + size_h im)
    then getpixel im (x - pl) (y - pt) else fill.
Proof. reflexivity. Qed.

End SquarePadFacts.

(** C9 (the code departs from the claim): on a 3x4 image [SquarePad] computes
    a horizontal padding of [int(0.5) = 0] pixels and returns a 3x4 image,
    not the 4x4 square the claim promises. *)
Theorem C9_SquarePad_3x4_stays_3x4 :
  let out := Transforms.SquarePad_call Examples.square_pad Examples.im3x4 in
  Transforms.size_w out = 3 /\ Transforms.size_h out = 4
  /\ Transforms.size_w out <> Z.max 3 4.
Proof. cbn. repeat split. discriminate. Qed.
(** ** [TargetPad] *)

Section TargetPadFacts.
Import Transforms.
Local Open Scope Q_scope.


Lemma inject_Z_pos (z : Z) : (0 < z)%Z -> 0 < inject_Z z.
Proof. intros Hz. unfold Qlt. simpl. lia. Qed.


Lemma truediv_sizes (a b : Z) :
  (0 < b)%Z -> truediv (inject_Z a) (inject_Z b) = Ok (round64 (inject_Z a / inject_Z b)).
Proof.
  intros Hb. apply truediv_ok.
  pose proof (inject_Z_pos b Hb). lra.
Qed.

Lemma truediv_half (x : Q) : truediv x 2 = Ok (round64 (x / 2)).
Proof. apply truediv_ok. discriminate. Qed.






(** The body of [__call__] once the ratio test has failed. *)
Lemma TargetPad_pads (self : TargetPad) (im : image) :
  (0 < size_w im)%Z -> (0 < size_h im)%Z ->
  ~ round64 (target_ratio self) == 0 ->
  Qltb (round64 (inject_Z (Z.max (size_w im) (size_h im))
                 / inject_Z (Z.min (size_w im) (size_h im))))
       (round64 (target_ratio self)) = false ->
  TargetPad_call self im
  = Ok (F_pad im
          (side_padding (Z.max (size_w im) (size_h im)) (round64 (target_ratio self))
             (size_w im),
           side_padding (Z.max (size_w im) (size_h im)) (round64 (target_ratio self))
             (size_h im),
           side_padding (Z.max (size_w im) (size_h im)) (round64 (target_ratio self))
             (size_w im),
           side_padding (Z.max (size_w im) (size_h im)) (round64 (target_ratio self))
             (size_h im)) 0).
Proof.
  intros Hw Hh Ht Htest. unfold TargetPad_call.
  rewrite truediv_sizes by lia. cbn [mbind result_bind]. rewrite Htest.
  rewrite (truediv_ok _ _ Ht). cbn [mbind result_bind].
  rewrite !truediv_half. reflexivity.
Qed.

End TargetPadFacts.



Example TargetPad_400x100 :
  Transforms.size_w <$> Transforms.TargetPad_call Examples.target_pad Examples.im400x100 = Ok 400
  /\ Transforms.size_h <$> Transforms.TargetPad_call Examples.target_pad Examples.im400x100 = Ok 320.
Proof. split; vm_compute; reflexivity. Qed.

(** The ratio 1.1 is the float 2476979795053773 / 2^51, a little above
    11/10.  An 11x8 image is padded to 11x10 (11 / 1.1 rounds to 10.0), a
    ratio a hair below the float; a 33x10 image is padded to 33x28, not to
    33x30 (33 / 1.1 rounds to the float just below 30). *)
Example TargetPad_ratio_1_1 :
  (round64 (11 # 10) == 2476979795053773 # 2251799813685248)%Q
  /\ Transforms.size_w <$> Transforms.TargetPad_call Examples.target_pad_1_1
                             (Transforms.Image 11 8 (fun _ _ => 255)) = Ok 11
  /\ Transforms.size_h <$> Transforms.TargetPad_call Examples.target_pad_1_1
                             (Transforms.Image 11 8 (fun _ _ => 255)) = Ok 10
  /\ Transforms.size_w <$> Transforms.TargetPad_call Examples.target_pad_1_1
                             (Transforms.Image 33 10 (fun _ _ => 255)) = Ok 33
  /\ Transforms.size_h <$> Transforms.TargetPad_call Examples.target_pad_1_1
                             (Transforms.Image 33 10 (fun _ _ => 255)) = Ok 28.
Proof. repeat split; vm_compute; reflexivity. Qed.

(** ** Caption composition *)

Section CaptionFacts.
Import Caption.

Lemma next_random_range (st : interp) :
  (0 <= next_random st < 1)%Q.
Proof.
  unfold next_random, Qle, Qlt. cbn [Qnum Qden].
  pose proof (Z.mod_pos_bound (rng st (rng_pos st)) two53 eq_refl) as Hb.
  change (Z.pos (Z.to_pos two53)) with two53. lia.
Qed.

Lemma append_cons (c : ascii) (s t : string) :
  String c s +:+ t = String c (s +:+ t).
Proof. reflexivity. Qed.

(** [strip] never removes anything else than characters of [chars]. *)
Lemma lstrip_split (chars s : string) :
  exists pre, s = pre +:+ lstrip chars s
    /\ forall c, In c (String.list_ascii_of_string pre) -> in_chars chars c = true.
Proof.
  induction s as [|c s IH]; cbn [lstrip].
  - exists EmptyString. split; [reflexivity|]. intros c [].
  - destruct (in_chars chars c) eqn:E.
    + destruct IH as (pre & Heq & Hall). exists (String c pre). split.
      * rewrite append_cons. f_equal. exact Heq.
      * intros d [<-|Hd]; [exact E | apply Hall, Hd].
    + exists EmptyString. split; [reflexivity|]. intros d [].
Qed.

Lemma rstrip_split (chars s : string) :
  exists post, s = rstrip chars s +:+ post
    /\ forall c, In c (String.list_ascii_of_string post) -> in_chars chars c = true.
Proof.
  induction s as [|c s IH]; cbn [rstrip].
  - exists EmptyString. split; [reflexivity|]. intros c [].
  - destruct IH as (post & Heq & Hall).
    destruct (rstrip chars s) as [|d r] eqn:Er.
    + destruct (in_chars chars c) eqn:E.
      * exists (String c post). split.
        -- change (EmptyString +:+ String c post) with (String c (EmptyString +:+ post)).
           f_equal. exact Heq.
        -- intros x [<-|Hx]; [exact E | apply Hall, Hx].
      * exists post. split; [|exact Hall]. rewrite !append_cons. f_equal. exact Heq.
    + exists post. split; [|exact Hall]. rewrite append_cons. f_equal. exact Heq.
Qed.

(** The stripped text does not start with a character of [chars]... *)
Lemma lstrip_head (chars s : string) (c : ascii) (rest : string) :
  lstrip chars s = String c rest -> in_chars chars c = false.
Proof.
  induction s as [|d s IH]; cbn [lstrip]; [discriminate|].
  destruct (in_chars chars d) eqn:E; [exact IH|].
  intros [= -> _]. exact E.
Qed.

(** ... and does not end with one. *)
Lemma rstrip_last (chars s : string) (c : ascii) (front : string) :
  rstrip chars s = front +:+ String c EmptyString -> in_chars chars c = false.
Proof.
  revert front. induction s as [|d s IH]; intros front; cbn [rstrip].
  - destruct front; discriminate.
  - destruct (rstrip chars s) as [|e r] eqn:Er.
    + destruct (in_chars chars d) eqn:E.
      * destruct front; discriminate.
      * destruct front as [|f front].
        -- intros [= ->]. exact E.
        -- rewrite append_cons. intros [= _ H]. destruct front; discriminate.
    + destruct front as [|f front].
      * intros H. cbv [String.append] in H. discriminate H.
      * rewrite append_cons. intros [= _ H]. apply (IH front). exact H.
Qed.

Example strip_examples :
  strip punct "is red." = "is red"
  /\ strip punct " has long sleeves?" = "has long sleeves"
  /\ strip punct ", . ?" = ""
  /\ strip punct "a.b" = "a.b".
Proof. repeat split. Qed.

(** The caption for two captions, in terms of the draw. *)
Lemma generate_pair (A B : string) (rest : list string) (st : interp) :
  let r := next_random st in
  let out := generate_randomized_fiq_caption (A :: B :: rest) (-1) st in
  snd out = advance st
  /\ ((r < 1 # 4)%Q ->
      fst out = Ok (strip punct A +:+ " and " +:+ strip punct B))
  /\ ((1 # 4 < r)%Q -> (r < 1 # 2)%Q ->
      fst out = Ok (strip punct B +:+ " and " +:+ strip punct A))
  /\ ((1 # 2 < r)%Q -> (r < 3 # 4)%Q -> fst out = Ok (strip punct A))
  /\ ((3 # 4 <= r)%Q \/ (r == 1 # 4)%Q \/ (r == 1 # 2)%Q ->
      fst out = Ok (strip punct B)).
Proof.
  intros r out. subst out.
  unfold generate_randomized_fiq_caption, random_random.
  rewrite bind_py. cbn [Z.eqb]. fold r. clearbody r.
  rewrite !getitem_head, !getitem_second.
  destruct (Qltb r (1 # 4)) eqn:E1;
    destruct (Qltb (1 # 4) r) eqn:E2;
    destruct (Qltb r (1 # 2)) eqn:E3;
    destruct (Qltb (1 # 2) r) eqn:E4;
    destruct (Qltb r (3 # 4)) eqn:E5;
    cbn [andb]; rewrite ?bind_lift_ok;
    rewrite ?Qltb_lt, ?Qltb_ge in *;
    repeat split; intros; try reflexivity; exfalso;
    repeat match goal with H : _ \/ _ |- _ => destruct H end; lra.
Qed.

End CaptionFacts.

Section OverrideFacts.
Import Caption.

(** With a selector 0..3 the draw is replaced by a constant inside the
    matching quartile, so the caption does not depend on the generator. *)
Lemma generate_override (A B : string) (rest : list string) (st : interp) :
  generate_randomized_fiq_caption (A :: B :: rest) 0 st
    = (Ok (strip punct A +:+ " and " +:+ strip punct B), advance st)
  /\ generate_randomized_fiq_caption (A :: B :: rest) 1 st
    = (Ok (strip punct B +:+ " and " +:+ strip punct A), advance st)
  /\ generate_randomized_fiq_caption (A :: B :: rest) 2 st
    = (Ok (strip punct A), advance st)
  /\ generate_randomized_fiq_caption (A :: B :: rest) 3 st
    = (Ok (strip punct B), advance st).
Proof.
  unfold generate_randomized_fiq_caption, random_random.
  rewrite !bind_py. cbn [Z.eqb].
  rewrite !getitem_head, !getitem_second.
  repeat split.
Qed.

(** A single caption: only the third quartile avoids [captions[1]]. *)
Lemma generate_single (A : string) (st : interp) :
  let r := next_random st in
  ((1 # 2 < r)%Q -> (r < 3 # 4)%Q ->
     fst (generate_randomized_fiq_caption [A] (-1) st) = Ok (strip punct A))
  /\ ((r <= 1 # 2)%Q \/ (3 # 4 <= r)%Q ->
     fst (generate_randomized_fiq_caption [A] (-1) st) = Raise IndexError).
Proof.
  intros r.
  unfold generate_randomized_fiq_caption, random_random.
  rewrite bind_py. cbn [Z.eqb]. fold r. clearbody r.
  rewrite !getitem_head.
  rewrite (getitem_beyond [A] 1) by (cbn; lia).
  destruct (Qltb r (1 # 4)) eqn:E1;
    destruct (Qltb (1 # 4) r) eqn:E2;
    destruct (Qltb r (1 # 2)) eqn:E3;
    destruct (Qltb (1 # 2) r) eqn:E4;
    destruct (Qltb r (3 # 4)) eqn:E5;
    cbn [andb]; rewrite ?bind_lift_ok, ?bind_lift_raise;
    rewrite ?Qltb_lt, ?Qltb_ge in *;
    repeat split; intros; try reflexivity; exfalso;
    repeat match goal with H : _ \/ _ |- _ => destruct H end; lra.
Qed.

(** With two captions or more no branch can fail. *)
Lemma generate_total (captions : list string) (type : Z) (st : interp) :
  (2 <= length captions)%nat ->
  exists caption,
    generate_randomized_fiq_caption captions type st = (Ok caption, advance st).
Proof.
  intros Hlen.
  destruct captions as [|A [|B rest]]; cbn in Hlen; try lia.
  unfold generate_randomized_fiq_caption, random_random.
  rewrite bind_py.
  rewrite !getitem_head, !getitem_second.
  match goal with
  | |- context [Qltb ?r (1 # 4)] => generalize r
  end.
  intros r.
  destruct (Qltb r (1 # 4)); [rewrite !bind_lift_ok; eexists; reflexivity|].
  destruct (Qltb (1 # 4) r && Qltb r (1 # 2));
    [rewrite !bind_lift_ok; eexists; reflexivity|].
  destruct (Qltb (1 # 2) r && Qltb r (3 # 4));
    rewrite !bind_lift_ok; eexists; reflexivity.
Qed.

End OverrideFacts.

(** C2 (the code departs from the claim): a draw of exactly 0.25, which
    [random.random()] returns when the generator produces 2^51, fails both
    [random_num < 0.25] and [0.25 < random_num] and falls through to the last
    branch: the caption is "B" alone, not "B and A".  The same happens at
    0.5, where the claim promises "A". *)
Theorem C2_threshold_draws_give_B :
  (next_random (Examples.st_draw (2 ^ 51)) == 1 # 4)%Q
  /\ fst (Caption.generate_randomized_fiq_caption Examples.two_captions (-1)
            (Examples.st_draw (2 ^ 51)))
     = Ok "has long sleeves"
  /\ (next_random (Examples.st_draw (2 ^ 52)) == 1 # 2)%Q
  /\ fst (Caption.generate_randomized_fiq_caption Examples.two_captions (-1)
            (Examples.st_draw (2 ^ 52)))
     = Ok "has long sleeves".
Proof. repeat split; vm_compute; reflexivity. Qed.

(** ** The dataset adapters *)

Section AdapterFacts.
Import Datasets.

(** A handler that prints and returns [None] turns every outcome of the
    body into a normal return. *)
Lemma try_except_swallow (body : py value) (st : interp) :
  match body st with
  | (Ok v, st') => try_except body swallow st = (Ok v, st')
  | (Raise e, st') =>
      try_except body swallow st
      = (Ok VNone, Interp (stdout st' ++ ["Exception: " +:+ str_exn e])
                     (rng st') (rng_pos st'))
  end.
Proof.
  unfold try_except. destruct (body st) as [[v|e] st']; reflexivity.
Qed.

Lemma try_except_returns (body : py value) (st : interp) :
  exists v st', try_except body swallow st = (Ok v, st').
Proof.
  pose proof (try_except_swallow body st) as H.
  destruct (body st) as [[v|e] st']; eauto.
Qed.

(** Fetching a list of indices one after the other goes through when no
    single fetch raises. *)
Lemma mapM_returns {A B : Type} (f : A -> py B) :
  (forall x st, exists y st', f x st = (Ok y, st')) ->
  forall xs st, exists ys st',
    mapM f xs st = (Ok ys, st') /\ length ys = length xs.
Proof.
  intros Hf xs. induction xs as [|x xs IH]; intros st.
  - exists [], st. split; reflexivity.
  - destruct (Hf x st) as (y & st1 & Hy).
    destruct (IH st1) as (ys & st2 & Hys & Hlen).
    exists (y :: ys), st2. split.
    + cbn [mapM]. rewrite bind_py, Hy, bind_py, Hys. reflexivity.
    + cbn. rewrite Hlen. reflexivity.
Qed.

(** A fetch that raises ends the whole traversal. *)
Lemma mapM_raises {A B : Type} (f : A -> py B) (x : A) (xs : list A)
    (e : exn) (st st' : interp) :
  f x st = (Raise e, st') -> mapM f (x :: xs) st = (Raise e, st').
Proof. intros Hx. cbn [mapM]. rewrite bind_py, Hx. reflexivity. Qed.

End AdapterFacts.

(** C6, as the code has it: in [FashionIQDataset], [CIRRDataset] and
    [WikiartDataset] whatever the body of [__getitem__] raises is caught, the
    line "Exception: ..." is printed and [None] is returned for that index;
    a successful body returns its item untouched; so fetching any sequence of
    indices yields one result per index. *)
Theorem C6_guarded_adapters_return :
  (forall (w : Datasets.world) (self : Datasets.FashionIQDataset) (index : Z) (st : interp),
     match Datasets.FashionIQDataset_getitem_body w self index st with
     | (Ok v, st') => Datasets.FashionIQDataset_getitem w self index st = (Ok v, st')
     | (Raise e, st') =>
         Datasets.FashionIQDataset_getitem w self index st
         = (Ok Datasets.VNone,
            Interp (stdout st' ++ ["Exception: " +:+ str_exn e]) (rng st') (rng_pos st'))
     end)
  /\ (forall (w : Datasets.world) (self : Datasets.CIRRDataset) (index : Z) (st : interp),
     match Datasets.CIRRDataset_getitem_body w self index st with
     | (Ok v, st') => Datasets.CIRRDataset_getitem w self index st = (Ok v, st')
     | (Raise e, st') =>
         Datasets.CIRRDataset_getitem w self index st
         = (Ok Datasets.VNone,
            Interp (stdout st' ++ ["Exception: " +:+ str_exn e]) (rng st') (rng_pos st'))
     end)
  /\ (forall (w : Datasets.world) (self : Datasets.WikiartDataset) (index : Z) (st : interp),
     match Datasets.WikiartDataset_getitem_body w self index st with
     | (Ok v, st') => Datasets.WikiartDataset_getitem w self index st = (Ok v, st')
     | (Raise e, st') =>
         Datasets.WikiartDataset_getitem w self index st
         = (Ok Datasets.VNone,
            Interp (stdout st' ++ ["Exception: " +:+ str_exn e]) (rng st') (rng_pos st'))
     end)
  /\ (forall (w : Datasets.world) (self : Datasets.FashionIQDataset) (indices : list Z) (st : interp),
        exists vs st', mapM (Datasets.dataset_getitem w self) indices st = (Ok vs, st')
                       /\ length vs = length indices)
  /\ (forall (w : Datasets.world) (self : Datasets.CIRRDataset) (indices : list Z) (st : interp),
        exists vs st', mapM (Datasets.dataset_getitem w self) indices st = (Ok vs, st')
                       /\ length vs = length indices)
  /\ (forall (w : Datasets.world) (self : Datasets.WikiartDataset) (indices : list Z) (st : interp),
        exists vs st', mapM (Datasets.dataset_getitem w self) indices st = (Ok vs, st')
                       /\ length vs = length indices).
Proof.
  repeat split.
  - intros. apply try_except_swallow.
  - intros. apply try_except_swallow.
  - intros. apply try_except_swallow.
  - intros w self. apply mapM_returns. intros. apply try_except_returns.
  - intros w self. apply mapM_returns. intros. apply try_except_returns.
  - intros w self. apply mapM_returns. intros. apply try_except_returns.
Qed.

(** A gallery with an absent file: the slot of the failed item holds [None]
    and the two other items are fetched. *)
Example wikiart_gap_fetch :
  mapM (Datasets.dataset_getitem Examples.disk Examples.wikiart_gap) [0; 1; 2] Examples.st0
  = (Ok [Datasets.VTuple [Datasets.VStr "monet.jpg"; Datasets.VTensor [[[30%Q]]]];
         Datasets.VNone;
         Datasets.VTuple [Datasets.VStr "corot.jpg"; Datasets.VTensor [[[40%Q]]]]],
     Interp ["Exception: [Errno 2] No such file or directory: 'wikiart-landscape/images/lost.jpg'"]
       (fun _ => 0) 0).
Proof. reflexivity. Qed.

(** C6, as stated, fails on [CIRDataset]: its [__getitem__] has no handler.
    With the file of the second image absent the exception reaches the
    caller, nothing is printed, and a traversal stops there. *)
Lemma C6_CIRDataset_propagates :
  Datasets.CIRDataset_getitem Examples.disk Examples.classic_dataset 1 Examples.st0
    = (Raise (FileNotFoundError "data/images/B003.png"), Examples.st0)
  /\ mapM (Datasets.dataset_getitem Examples.disk Examples.classic_dataset) [0; 1; 2] Examples.st0
    = (Raise (FileNotFoundError "data/images/B003.png"), Examples.st0)
  /\ ~ (exists v st', Datasets.CIRDataset_getitem Examples.disk Examples.classic_dataset 1
                        Examples.st0 = (Ok v, st')).
Proof.
  assert (H : Datasets.CIRDataset_getitem Examples.disk Examples.classic_dataset 1 Examples.st0
              = (Raise (FileNotFoundError "data/images/B003.png"), Examples.st0))
    by reflexivity.
  split; [exact H|]. split; [reflexivity|].
  intros (v & st' & Hv). rewrite H in Hv. discriminate Hv.
Qed.

(** ** Construction-time validation *)

Section ConstructorFacts.
Import Datasets.

Lemma in_list_false (x : string) (l : list string) : x ∉ l -> in_list x l = false.
Proof. intros H. unfold in_list. apply bool_decide_eq_false, H. Qed.

Lemma in_list_true (x : string) (l : list string) : x ∈ l -> in_list x l = true.
Proof. intros H. unfold in_list. apply bool_decide_eq_true, H. Qed.

(** The loop over [dress_types] of [FashionIQDataset.__init__] stops at the
    first unknown category, before anything is read or printed. *)
Lemma dress_type_loop_raises (dress_types : list string) (st : interp) :
  (exists dress_type, dress_type ∈ dress_types
                      /\ dress_type ∉ ["dress"; "shirt"; "toptee"]) ->
  mapM (fun dress_type =>
          if negb (in_list dress_type ["dress"; "shirt"; "toptee"]) then
            raise (ValueError "dress_type should be in ['dress', 'shirt', 'toptee']")
          else mret tt) dress_types st
  = (Raise (ValueError "dress_type should be in ['dress', 'shirt', 'toptee']"), st).
Proof.
  intros (bad & Hin & Hbad).
  induction dress_types as [|d ds IH]; [inversion Hin|].
  cbn [mapM]. rewrite bind_py.
  destruct (in_list d ["dress"; "shirt"; "toptee"]) eqn:Ed; cbn [negb].
  - change ((mret tt : py unit) st) with (Ok tt, st). cbn beta iota.
    rewrite bind_py, IH; [reflexivity|].
    apply elem_of_cons in Hin as [->|Hin]; [|exact Hin].
    rewrite (in_list_false _ _ Hbad) in Ed. discriminate Ed.
  - reflexivity.
Qed.

End ConstructorFacts.

(** [CIRDataset.__init__] checks none of [data_name], [split] and [mode]:
    with a data name other than 'fiq' and 'cirr', a split other than 'train'
    and the default dress types, it reads no file and returns an object
    without triplets. *)
Lemma CIRDataset_init_unchecked (w : Datasets.world)
    (data_name split mode : string)
    (preprocess : Transforms.image -> result Datasets.tensor)
    (data_path : string) (val_ret_train : bool) (fiq_val_type : Z)
    (plus llmcap : bool) (st : interp) :
  data_name <> "fiq" -> data_name <> "cirr" -> split <> "train" ->
  exists self,
    Datasets.CIRDataset_init w data_name split mode preprocess data_path None
      val_ret_train fiq_val_type plus llmcap st
    = (Ok self,
       Interp (stdout st ++ ["CIRDataset " +:+ data_name +:+ " " +:+ split
                             +:+ " " +:+ mode +:+ " initial successfully"])
         (rng st) (rng_pos st))
    /\ Datasets.data_name self = data_name
    /\ Datasets.split self = split
    /\ Datasets.mode self = mode
    /\ Datasets.triplets self = [].
Proof.
  intros Hfiq Hcirr Htrain.
  unfold Datasets.CIRDataset_init.
  apply String.eqb_neq in Hfiq, Hcirr, Htrain.
  rewrite Hfiq, Hcirr, Htrain.
  eexists. split; [reflexivity|]. repeat split.
Qed.

(** C7, as the code has it: [FashionIQDataset] and [CIRRDataset] raise
    [ValueError] in the constructor, before any manifest is read or anything
    is printed, for a mode outside ['relative', 'classic'] or an invalid
    split ([FashionIQDataset] also for an unknown dress type). *)
Theorem C7_constructor_validation :
  (forall w split dress_types mode preprocess st,
     mode ∉ ["relative"; "classic"] ->
     Datasets.FashionIQDataset_init w split dress_types mode preprocess st
     = (Raise Datasets.mode_error, st))
  /\ (forall w split dress_types mode preprocess st,
     mode ∈ ["relative"; "classic"] -> split ∉ ["test"; "train"; "val"] ->
     Datasets.FashionIQDataset_init w split dress_types mode preprocess st
     = (Raise (ValueError "split should be in ['test', 'train', 'val']"), st))
  /\ (forall w split dress_types mode preprocess st,
     mode ∈ ["relative"; "classic"] -> split ∈ ["test"; "train"; "val"] ->
     (exists dress_type, dress_type ∈ dress_types
                         /\ dress_type ∉ ["dress"; "shirt"; "toptee"]) ->
     Datasets.FashionIQDataset_init w split dress_types mode preprocess st
     = (Raise (ValueError "dress_type should be in ['dress', 'shirt', 'toptee']"), st))
  /\ (forall w split mode preprocess st,
     split ∉ ["test1"; "train"; "val"] ->
     Datasets.CIRRDataset_init w split mode preprocess st
     = (Raise (ValueError "split should be in ['test1', 'train', 'val']"), st))
  /\ (forall w split mode preprocess st,
     split ∈ ["test1"; "train"; "val"] -> mode ∉ ["relative"; "classic"] ->
     Datasets.CIRRDataset_init w split mode preprocess st
     = (Raise Datasets.mode_error, st)).
Proof.
  split; [|split; [|split; [|split]]].
  - intros w split dress_types mode preprocess st Hmode.
    unfold Datasets.FashionIQDataset_init.
    rewrite (in_list_false _ _ Hmode). reflexivity.
  - intros w split dress_types mode preprocess st Hmode Hsplit.
    unfold Datasets.FashionIQDataset_init.
    rewrite (in_list_true _ _ Hmode), (in_list_false _ _ Hsplit). reflexivity.
  - intros w split dress_types mode preprocess st Hmode Hsplit Hbad.
    unfold Datasets.FashionIQDataset_init.
    rewrite (in_list_true _ _ Hmode), (in_list_true _ _ Hsplit). cbn [negb].
    rewrite bind_py, (dress_type_loop_raises _ _ Hbad). reflexivity.
  - intros w split mode preprocess st Hsplit.
    unfold Datasets.CIRRDataset_init.
    rewrite (in_list_false _ _ Hsplit). reflexivity.
  - intros w split mode preprocess st Hsplit Hmode.
    unfold Datasets.CIRRDataset_init.
    rewrite (in_list_true _ _ Hsplit), (in_list_false _ _ Hmode). reflexivity.
Qed.

(** The theorem at concrete arguments. *)
Lemma C7_constructor_validation_witness :
  Datasets.FashionIQDataset_init Examples.disk "val" ["dress"] "streaming"
    Examples.to_tensor Examples.st0 = (Raise Datasets.mode_error, Examples.st0)
  /\ Datasets.FashionIQDataset_init Examples.disk "dev" ["dress"] "classic"
       Examples.to_tensor Examples.st0
     = (Raise (ValueError "split should be in ['test', 'train', 'val']"), Examples.st0)
  /\ Datasets.FashionIQDataset_init Examples.disk "val" ["dress"; "hat"] "classic"
       Examples.to_tensor Examples.st0
     = (Raise (ValueError "dress_type should be in ['dress', 'shirt', 'toptee']"),
        Examples.st0)
  /\ Datasets.CIRRDataset_init Examples.disk "test" "classic" Examples.to_tensor Examples.st0
     = (Raise (ValueError "split should be in ['test1', 'train', 'val']"), Examples.st0)
  /\ Datasets.CIRRDataset_init Examples.disk "val" "streaming" Examples.to_tensor Examples.st0
     = (Raise Datasets.mode_error, Examples.st0).
Proof.
  destruct C7_constructor_validation as (H1 & H2 & H3 & H4 & H5).
  split; [|split; [|split; [|split]]].
  - apply H1. apply (bool_decide_unpack _). reflexivity.
  - apply H2; apply (bool_decide_unpack _); reflexivity.
  - apply H3; try (apply (bool_decide_unpack _); reflexivity).
    exists "hat". split; apply (bool_decide_unpack _); reflexivity.
  - apply H4. apply (bool_decide_unpack _). reflexivity.
  - apply H5; apply (bool_decide_unpack _); reflexivity.
Defined.

(** C7, as stated, fails on [CIRDataset]: an unknown data name, split and
    mode pass the constructor.  The failure only shows when the object is
    used: [len()] is rejected and [__getitem__] returns [None]. *)
Lemma C7_CIRDataset_accepts_unknown_names :
  exists self st',
    Datasets.CIRDataset_init Examples.disk "imagenet" "dev" "streaming"
      Examples.to_tensor "data" None false 0 false false Examples.st0
    = (Ok self, st')
    /\ Datasets.CIRDataset_len self
       = Raise (TypeError "'NoneType' object cannot be interpreted as an integer")
    /\ Datasets.CIRDataset_getitem Examples.disk self 0 st' = (Ok Datasets.VNone, st').
Proof. eexists _, _. split; [vm_compute; reflexivity|]. split; reflexivity. Qed.

(** ** Caption selection inside [CIRDataset.__getitem__] *)

Section CallSiteFacts.
Import Caption Datasets.

Lemma long_enough (A B : string) (rest : list string) :
  (1 <? Z.of_nat (length (A :: B :: rest))) = true.
Proof. apply Z.ltb_lt. cbn [length]. lia. Qed.

Lemma random_choice_returns {A : Type} (x : A) (xs : list A) (st : interp) :
  exists y, random_choice (x :: xs) st = (Ok y, advance st).
Proof.
  unfold random_choice.
  destruct (getitem_within (x :: xs)
              (rng st (rng_pos st) mod Z.of_nat (length (x :: xs)))) as [y Hy].
  - apply Z.mod_pos_bound. cbn [length]. lia.
  - exists y. rewrite Hy. reflexivity.
Qed.

(** The validation branch calls the caption function with selector 0 and
    only when there are two captions or more. *)
Lemma val_caption_pair (A B : string) (rest : list string) (st : interp) :
  val_caption (A :: B :: rest) st
  = (Ok (strip punct A +:+ " and " +:+ strip punct B), advance st).
Proof.
  unfold val_caption. rewrite long_enough.
  apply (generate_override A B rest st).
Qed.

Lemma val_caption_single (A : string) (st : interp) :
  val_caption [A] st = (Ok A, st).
Proof. reflexivity. Qed.

Lemma train_caption_single (self : CIRDataset) (index : Z) (A : string)
    (st : interp) :
  train_caption self index [A] st = (Ok A, st).
Proof. reflexivity. Qed.

Lemma train_caption_returns (self : CIRDataset) (index : Z)
    (captions : list string) (st : interp) :
  captions <> [] ->
  (data_name self = "fiq" -> N self <> None) ->
  exists caption st', train_caption self index captions st = (Ok caption, st').
Proof.
  intros Hne HN.
  destruct captions as [|A [|B rest]]; [congruence| |].
  - exists A, st. reflexivity.
  - unfold train_caption. rewrite long_enough, bind_py.
    destruct (String.eqb (data_name self) "fiq") eqn:Efiq.
    + apply String.eqb_eq in Efiq. specialize (HN Efiq).
      destruct (N self) as [n|] eqn:En; [|congruence].
      cbn [getattr]. rewrite bind_lift_ok.
      change ((mret (index <? n) : py bool) st) with (Ok (index <? n), st).
      cbn beta iota.
      destruct (index <? n).
      * destruct (generate_total (A :: B :: rest) (-1) st) as [c Hc];
          [cbn [length]; lia|].
        exists c, (advance st). exact Hc.
      * destruct (random_choice_returns A (B :: rest) st) as [c Hc].
        exists c, (advance st). exact Hc.
    + change ((mret false : py bool) st) with (Ok false, st). cbn beta iota.
      destruct (random_choice_returns A (B :: rest) st) as [c Hc].
      exists c, (advance st). exact Hc.
Qed.

End CallSiteFacts.

(** C5: with selector 0, 1, 2, 3 the caption function returns
    "A and B", "B and A", "A", "B" (each fragment stripped), whatever the
    generator is about to produce; and the validation path of
    [CIRDataset.__getitem__] ([split == 'val'] with [val_ret_train]) composes
    the caption with selector 0. *)
Theorem C5_selector_override :
  (forall (A B : string) (rest : list string) (st : interp),
     fst (Caption.generate_randomized_fiq_caption (A :: B :: rest) 0 st)
       = Ok (Caption.strip Caption.punct A +:+ " and " +:+ Caption.strip Caption.punct B)
     /\ fst (Caption.generate_randomized_fiq_caption (A :: B :: rest) 1 st)
       = Ok (Caption.strip Caption.punct B +:+ " and " +:+ Caption.strip Caption.punct A)
     /\ fst (Caption.generate_randomized_fiq_caption (A :: B :: rest) 2 st)
       = Ok (Caption.strip Caption.punct A)
     /\ fst (Caption.generate_randomized_fiq_caption (A :: B :: rest) 3 st)
       = Ok (Caption.strip Caption.punct B))
  /\ (forall (w : Datasets.world) (self : Datasets.CIRDataset) (index : Z)
        (triplet : Datasets.cir_triplet) (A B : string) (rest : list string)
        (st : interp),
     Datasets.mode self = "relative" ->
     Datasets.split self = "val" ->
     Datasets.val_ret_train self = true ->
     getitem (Datasets.triplets self) index = Ok triplet ->
     Datasets.captions triplet = A :: B :: rest ->
     Datasets.CIRDataset_getitem w self index st
     = (reference_image ← Datasets.load_image w (Datasets.preprocess self)
                            (Datasets.reference triplet);
        target_image ← Datasets.load_image w (Datasets.preprocess self)
                         (Datasets.target triplet);
        mret (Datasets.VTuple
                [Datasets.VTensor reference_image;
                 Datasets.VStr (Caption.strip Caption.punct A +:+ " and "
                                +:+ Caption.strip Caption.punct B);
                 Datasets.VTensor target_image])) (advance st)).
Proof.
  split.
  - intros A B rest st.
    destruct (generate_override A B rest st) as (H0 & H1 & H2 & H3).
    rewrite H0, H1, H2, H3. repeat split.
  - intros w self index triplet A B rest st Hmode Hsplit Hret Htriplet Hcaps.
    unfold Datasets.CIRDataset_getitem.
    rewrite Hmode, Hsplit, Hret, Htriplet. cbn [String.eqb Ascii.eqb Bool.eqb andb].
    rewrite bind_lift_ok, Hcaps, bind_py, val_caption_pair. reflexivity.
Qed.

(** The theorem on the example validation set. *)
Lemma C5_selector_override_witness :
  Datasets.CIRDataset_getitem Examples.disk Examples.val_dataset 0 Examples.st0
  = (Ok (Datasets.VTuple [Datasets.VTensor [[[10%Q]]];
                          Datasets.VStr "is red and has long sleeves";
                          Datasets.VTensor [[[20%Q]]]]),
     advance Examples.st0).
Proof.
  rewrite (proj2 C5_selector_override Examples.disk Examples.val_dataset 0
             Examples.val_triplet "is red." " has long sleeves?" []
             Examples.st0 eq_refl eq_refl eq_refl eq_refl eq_refl).
  reflexivity.
Defined.

(** C10: on a single caption [generate_randomized_fiq_caption] returns only
    for a draw in the third quartile and raises [IndexError] for every
    other draw; on two captions or more it returns for every draw and every
    selector; and both call sites in [CIRDataset.__getitem__] call it only
    under [len(captions) > 1]: a single caption is used as it is, without a
    draw, and a non-empty caption list never makes the selection fail. *)
Theorem C10_caption_needs_two :
  (forall (A : string) (st : interp),
     ((1 # 2 < next_random st)%Q -> (next_random st < 3 # 4)%Q ->
        fst (Caption.generate_randomized_fiq_caption [A] (-1) st)
        = Ok (Caption.strip Caption.punct A))
     /\ ((next_random st <= 1 # 2)%Q \/ (3 # 4 <= next_random st)%Q ->
        fst (Caption.generate_randomized_fiq_caption [A] (-1) st)
        = Raise IndexError))
  /\ (forall (captions : list string) (type : Z) (st : interp),
     (2 <= length captions)%nat ->
     exists caption,
       Caption.generate_randomized_fiq_caption captions type st
       = (Ok caption, advance st))
  /\ (forall (self : Datasets.CIRDataset) (index : Z) (A : string) (st : interp),
     Datasets.train_caption self index [A] st = (Ok A, st)
     /\ Datasets.val_caption [A] st = (Ok A, st))
  /\ (forall (self : Datasets.CIRDataset) (index : Z) (captions : list string)
        (st : interp),
     captions <> [] ->
     (Datasets.data_name self = "fiq" -> Datasets.N self <> None) ->
     (exists caption st',
        Datasets.train_caption self index captions st = (Ok caption, st'))
     /\ (exists caption st',
        Datasets.val_caption captions st = (Ok caption, st'))).
Proof.
  split; [|split; [|split]].
  - intros A st. apply (generate_single A st).
  - apply generate_total.
  - intros self index A st. split; reflexivity.
  - intros self index captions st Hne HN. split.
    + apply train_caption_returns; assumption.
    + destruct captions as [|A [|B rest]]; [congruence| |].
      * exists A, st. reflexivity.
      * eexists _, _. apply val_caption_pair.
Qed.

(** The theorem on concrete draws and on the example validation set. *)
Lemma C10_caption_needs_two_witness :
  fst (Caption.generate_randomized_fiq_caption ["is red."] (-1)
         (Examples.st_draw (5 * 2 ^ 50)))
    = Ok "is red"
  /\ fst (Caption.generate_randomized_fiq_caption ["is red."] (-1)
            (Examples.st_draw 0))
    = Raise IndexError
  /\ (exists caption,
        Caption.generate_randomized_fiq_caption Examples.two_captions (-1)
          (Examples.st_draw 0)
        = (Ok caption, advance (Examples.st_draw 0)))
  /\ (exists caption st',
        Datasets.train_caption Examples.val_dataset 0 Examples.two_captions
          Examples.st0 = (Ok caption, st'))
  /\ (exists caption st',
        Datasets.val_caption Examples.two_captions Examples.st0 = (Ok caption, st')).
Proof.
  destruct C10_caption_needs_two as (H1 & H2 & H3 & H4).
  split; [|split; [|split]].
  - apply (proj1 (H1 "is red." (Examples.st_draw (5 * 2 ^ 50)))); reflexivity.
  - apply (proj2 (H1 "is red." (Examples.st_draw 0))).
    left. unfold Qle. vm_compute. discriminate.
  - apply H2. cbn. lia.
  - apply (H4 Examples.val_dataset 0 Examples.two_captions Examples.st0).
    + discriminate.
    + intros _. discriminate.
Defined.

(** ** The index builder *)

Section IndexFacts.
Import Datasets Inference.

Context {D : Type} `{Dataset D}.
Variable collate_fn : list value -> result (list string * list tensor).
Variable w : world.
Variable dataset : D.
Variable clip_model : CLIP.

(** A batch of one (name, image) pair collates to the one name and the one
    image; the encoder maps a batch of one image to one row of
    [output_dim] columns. *)
Hypothesis collate_one : forall name image,
  collate_fn [VTuple [VStr name; VTensor image]] = Ok ([name], [image]).
Hypothesis encode_one : forall image,
  exists row, encode_image clip_model [image] = Matrix (output_dim clip_model) [row].

Lemma singleton_rows (items : list (string * tensor)) (i : nat)
    (name : string) (image : tensor) :
  items !! i = Some (name, image) ->
  exists row,
    flat_map (fun item => mrows (encode_image clip_model [item.2])) items !! i = Some row
    /\ encode_image clip_model [image] = Matrix (output_dim clip_model) [row].
Proof.
  revert i. induction items as [|[n0 im0] items IH]; intros i Hi; [discriminate|].
  destruct (encode_one im0) as [row0 Hrow0].
  cbn [flat_map snd]. rewrite Hrow0. cbn [mrows app].
  destruct i as [|i].
  - injection Hi as <- <-. exists row0. split; [reflexivity | exact Hrow0].
  - apply (IH i Hi).
Qed.

Lemma singleton_rows_length (items : list (string * tensor)) :
  length (flat_map (fun item => mrows (encode_image clip_model [item.2])) items)
  = length items.
Proof.
  induction items as [|[n0 im0] items IH]; [reflexivity|].
  destruct (encode_one im0) as [row0 Hrow0].
  cbn [flat_map snd]. rewrite Hrow0. cbn [mrows app length]. rewrite IH. reflexivity.
Qed.

(** The loop of [extract_index_features], started at index [k] with the
    rows and names gathered so far. *)
Lemma index_loop (items : list (string * tensor)) :
  forall (k : nat) (feats : matrix) (names : list string) (st : interp),
  ncols feats = output_dim clip_model ->
  (forall i name image st1, items !! i = Some (name, image) ->
     exists st2, dataset_getitem w dataset (Z.of_nat (k + i)) st1
                 = (Ok (VTuple [VStr name; VTensor image]), st2)) ->
  exists st',
    for_each (seq k (length items))
      (fun '(index_features, index_names) i =>
         item ← dataset_getitem w dataset (Z.of_nat i);
         '(names, images) ← lift (collate_fn [item]);
         let batch_features := encode_image clip_model images in
         index_features ← lift (vstack index_features batch_features);
         mret (index_features, index_names ++ names))
      (feats, names) st
    = (Ok (Matrix (ncols feats)
             (mrows feats
              ++ flat_map (fun item => mrows (encode_image clip_model [item.2])) items),
           names ++ map fst items), st').
Proof.
  induction items as [|[name image] items IH]; intros k feats names st Hcols Hget.
  - exists st. cbn. rewrite !app_nil_r. destruct feats; reflexivity.
  - destruct (Hget 0%nat name image st eq_refl) as [st1 Hitem].
    rewrite Nat.add_0_r in Hitem.
    destruct (encode_one image) as [row Hrow].
    cbn [length seq for_each]. rewrite bind_py. cbn beta iota.
    rewrite bind_py, Hitem, collate_one, bind_lift_ok. cbn beta iota zeta.
    unfold vstack. rewrite Hrow. cbn [ncols mrows].
    rewrite Hcols, Nat.eqb_refl, bind_lift_ok.
    change ((mret (Matrix (output_dim clip_model) (mrows feats ++ [row]), names ++ [name])
               : py (matrix * list string)) st1)
      with (Ok (Matrix (output_dim clip_model) (mrows feats ++ [row]), names ++ [name]), st1).
    cbn beta iota.
    destruct (IH (S k) (Matrix (output_dim clip_model) (mrows feats ++ [row]))
                (names ++ [name]) st1 eq_refl) as [st' Hloop].
    { intros i n im st2 Hi.
      replace (S k + i)%nat with (k + S i)%nat by lia.
      apply (Hget (S i)). exact Hi. }
    exists st'. etransitivity; [exact Hloop|].
    cbn [ncols mrows flat_map snd map fst].
    rewrite Hrow. cbn [mrows]. rewrite <- !app_assoc. reflexivity.
Qed.

End IndexFacts.

(** C3: when the loader's collation and the encoder treat a batch of one item
    as described above, and the classic-mode dataset has [N] items that all
    load, [extract_index_features] returns [N] names and [N] rows; the names
    are the items' names in dataset order, repeated names included, and row
    [i] is the encoding of the image of item [i]. *)
Theorem C3_index_alignment {D : Type} `{Datasets.Dataset D}
    (collate_fn : list Datasets.value -> result (list string * list Datasets.tensor))
    (w : Datasets.world) (dataset : D) (clip_model : Inference.CLIP)
    (items : list (string * Datasets.tensor)) (st : interp) :
  (forall name image,
     collate_fn [Datasets.VTuple [Datasets.VStr name; Datasets.VTensor image]]
     = Ok ([name], [image])) ->
  (forall image, exists row,
     Inference.encode_image clip_model [image]
     = Inference.Matrix (Inference.output_dim clip_model) [row]) ->
  Datasets.dataset_len dataset = Ok (Z.of_nat (length items)) ->
  (forall i name image st1, items !! i = Some (name, image) ->
     exists st2, Datasets.dataset_getitem w dataset (Z.of_nat i) st1
                 = (Ok (Datasets.VTuple [Datasets.VStr name; Datasets.VTensor image]), st2)) ->
  exists index_features index_names st',
    Inference.extract_index_features collate_fn w dataset clip_model st
    = (Ok (index_features, index_names), st')
    /\ index_names = map fst items
    /\ length index_names = length items
    /\ length (Inference.mrows index_features) = length items
    /\ Inference.ncols index_features = Inference.output_dim clip_model
    /\ forall i name image, items !! i = Some (name, image) ->
         index_names !! i = Some name
         /\ exists row, Inference.mrows index_features !! i = Some row
                        /\ Inference.encode_image clip_model [image]
                           = Inference.Matrix (Inference.output_dim clip_model) [row].
Proof.
  intros Hcollate Hencode Hlen Hget.
  destruct (index_loop collate_fn w dataset clip_model Hcollate Hencode items 0%nat
              (Inference.torch_empty (Inference.output_dim clip_model)) [] st eq_refl)
    as [st' Hloop].
  { intros i name image st1 Hi. apply (Hget i name image st1 Hi). }
  eexists _, _, st'. split.
  - unfold Inference.extract_index_features.
    rewrite bind_py, Hlen. cbn [lift]. rewrite Nat2Z.id. exact Hloop.
  - cbn [app Inference.torch_empty Inference.mrows Inference.ncols].
    split; [reflexivity|]. split; [apply length_map|].
    split; [apply singleton_rows_length, Hencode|].
    split; [reflexivity|].
    intros i name image Hi. split.
    + rewrite list_lookup_fmap, Hi. reflexivity.
    + apply (singleton_rows clip_model Hencode items i name image Hi).
Qed.

(** The theorem on the Wikiart gallery of the example disk. *)
Lemma C3_index_alignment_witness :
  exists index_features index_names st',
    Inference.extract_index_features Examples.collate_pairs Examples.disk
      Examples.wikiart Examples.toy_clip Examples.st0
    = (Ok (index_features, index_names), st')
    /\ index_names = ["monet.jpg"; "corot.jpg"]
    /\ length index_names = 2%nat
    /\ length (Inference.mrows index_features) = 2%nat
    /\ Inference.ncols index_features = 2%nat.
Proof.
  destruct (C3_index_alignment Examples.collate_pairs Examples.disk Examples.wikiart
              Examples.toy_clip
              [("monet.jpg", [[[30%Q]]]); ("corot.jpg", [[[40%Q]]])] Examples.st0)
    as (feats & names & st' & Hrun & Hnames & Hlen & Hrows & Hcols & _).
  - intros name image. reflexivity.
  - intros image. eexists. reflexivity.
  - reflexivity.
  - intros [|[|i]] name image st1 Hi; [| |discriminate Hi];
      injection Hi as <- <-; eexists; reflexivity.
  - exists feats, names, st'. repeat split; assumption.
Defined.

(** A manifest that lists a painting twice yields it twice, in place. *)
Example repeated_entry_is_kept :
  fst (Inference.extract_index_features Examples.collate_pairs Examples.disk
         Examples.wikiart_twice Examples.toy_clip Examples.st0)
  = Ok (Inference.Matrix 2 [[30; 0]; [40; 0]; [30; 0]]%Q,
        ["monet.jpg"; "corot.jpg"; "monet.jpg"]).
Proof. vm_compute. reflexivity. Qed.

(** ** The ranker *)

Section RankFacts.
Import Datasets Inference.

Variable F_normalize : list Q -> list Q.
Variable matmul : list (list Q) -> list (list Q) -> nat -> nat -> Q.
Variable argsort : list Q -> list Z.
Hypothesis argsort_sorts : sorts argsort.

Lemma sorts_in_range (d : list Q) (i : Z) :
  i ∈ argsort d -> 0 <= i < Z.of_nat (length d).
Proof.
  intros Hi. destruct (argsort_sorts d) as [Hperm _].
  rewrite Hperm in Hi. apply list_elem_of_fmap in Hi as (k & -> & Hk).
  apply elem_of_seq in Hk. lia.
Qed.

Lemma sorts_length (d : list Q) : length (argsort d) = length d.
Proof.
  destruct (argsort_sorts d) as [Hperm _].
  rewrite Hperm, length_fmap, length_seq. reflexivity.
Qed.

(** [np.array(index_names)[indices]] for indices that are all in range. *)
Lemma names_at_indices (index_names : list string) (indices : list Z) :
  Forall (fun i => 0 <= i < Z.of_nat (length index_names)) indices ->
  exists row,
    mapM (getitem index_names) indices = Ok row
    /\ Forall2 (fun i name => index_names !! Z.to_nat i = Some name) indices row.
Proof.
  induction 1 as [|i indices Hi _ (row & Hrow & Hall)].
  - exists []. split; [reflexivity | constructor].
  - destruct (lookup_lt_is_Some_2 index_names (Z.to_nat i)) as [name Hname]; [lia|].
    exists (name :: row). split.
    + cbn [mapM]. rewrite <- (Z2Nat.id i) at 1 by lia.
      rewrite (getitem_lookup _ _ _ Hname). cbn [mbind result_bind].
      rewrite Hrow. reflexivity.
    + constructor; assumption.
Qed.

Lemma distances_length (queries gallery : list (list Q)) (i : nat) :
  length (distances F_normalize matmul queries gallery i) = length gallery.
Proof. unfold distances. rewrite length_map, length_seq. reflexivity. Qed.

(** Row [i] of [1 - queries @ normalize(gallery).T] is the row of distances
    of query [i]. *)
Lemma distance_row (queries gallery : list (list Q)) (i : nat) :
  map (fun x => round32 (1 - x))
    (map (fun j => matmul queries (map F_normalize gallery) i j)
       (seq 0 (length (map F_normalize gallery))))
  = distances F_normalize matmul queries gallery i.
Proof. unfold distances, distance. rewrite length_map, map_map. reflexivity. Qed.

(** The rows of sorted indices that [rank] reads the names along. *)
Lemma rank_unfold (predicted_features index_features : matrix)
    (index_names : list string) :
  ncols predicted_features = ncols index_features ->
  rank F_normalize matmul argsort predicted_features index_features index_names
  = mapM (mapM (getitem index_names))
      (map (fun i => argsort (distances F_normalize matmul (mrows predicted_features)
                                (mrows index_features) i))
         (seq 0 (length (mrows predicted_features)))).
Proof.
  intros Hcols. unfold rank, matmul_T. cbn [ncols mrows].
  rewrite Hcols, Nat.eqb_refl. cbn [mbind result_bind one_minus mrows].
  f_equal. rewrite !map_map. apply map_ext. intros i.
  rewrite distance_row. reflexivity.
Qed.

Lemma rank_rows (index_names : list string) (queries gallery : list (list Q))
    (rows : list nat) :
  length index_names = length gallery ->
  exists out,
    mapM (mapM (getitem index_names))
      (map (fun i => argsort (distances F_normalize matmul queries gallery i)) rows)
    = Ok out
    /\ Forall2 (ranked index_names)
         (map (distances F_normalize matmul queries gallery) rows) out.
Proof.
  intros Hlen. induction rows as [|i rows (out & Hout & Hall)].
  - exists []. split; [reflexivity | constructor].
  - cbn [map].
    set (d := distances F_normalize matmul queries gallery i).
    assert (Hd : length d = length index_names).
    { unfold d. rewrite distances_length. symmetry. exact Hlen. }
    destruct (names_at_indices index_names (argsort d)) as (row & Hrow & Hnames).
    { apply Forall_forall. intros k Hk. rewrite <- Hd.
      apply sorts_in_range, Hk. }
    exists (row :: out). split.
    + cbn [mapM]. rewrite Hrow. cbn [mbind result_bind].
      rewrite Hout. reflexivity.
    + constructor; [|exact Hall].
      exists (argsort d). destruct (argsort_sorts d) as [Hperm Hsorted].
      rewrite Hd in Hperm. repeat split; assumption.
Qed.

Lemma rank_sorted (predicted_features index_features : matrix)
    (index_names : list string) :
  ncols predicted_features = ncols index_features ->
  length index_names = length (mrows index_features) ->
  exists out,
    rank F_normalize matmul argsort predicted_features index_features index_names
    = Ok out
    /\ Forall2 (ranked index_names)
         (map (distances F_normalize matmul (mrows predicted_features)
                 (mrows index_features))
            (seq 0 (length (mrows predicted_features)))) out.
Proof.
  intros Hcols Hlen. rewrite (rank_unfold _ _ _ Hcols).
  apply rank_rows, Hlen.
Qed.

(** Against a gallery without rows every distance row is empty, and so is
    every ranking. *)
Lemma rank_empty_gallery (predicted_features : matrix) (d : nat)
    (index_names : list string) :
  ncols predicted_features = d ->
  rank F_normalize matmul argsort predicted_features (torch_empty d) index_names
  = Ok (map (fun _ => []) (mrows predicted_features)).
Proof.
  intros Hcols. rewrite rank_unfold by exact Hcols.
  unfold torch_empty, distances. cbn [mrows length seq map].
  assert (Hnil : argsort [] = []).
  { apply length_zero_iff_nil. apply (sorts_length []). }
  rewrite Hnil.
  generalize 0%nat.
  induction (mrows predicted_features) as [|q qs IH]; intros start; [reflexivity|].
  cbn [length seq map mapM mbind result_bind mret result_ret].
  rewrite IH. reflexivity.
Qed.

End RankFacts.

(** Names read along a rearrangement of all positions are a rearrangement
    of the names. *)
Lemma names_along_permutation (index_names row : list string) (indices : list Z) :
  indices ≡ₚ (Z.of_nat <$> seq 0 (length index_names)) ->
  Forall2 (fun i name => index_names !! Z.to_nat i = Some name) indices row ->
  row ≡ₚ index_names.
Proof.
  intros Hperm Hrow.
  assert (Hmap : row = (fun i => default "" (index_names !! Z.to_nat i)) <$> indices).
  { clear Hperm. induction Hrow as [|i name indices row Hi _ IH]; [reflexivity|].
    cbn [fmap list_fmap]. rewrite Hi. cbn [default]. f_equal.
    apply IH. }
  rewrite Hmap, Hperm, <- list_fmap_compose.
  replace ((((fun i => default "" (index_names !! Z.to_nat i)) ∘ Z.of_nat)
            <$> seq 0 (length index_names))) with index_names; [reflexivity|].
  apply list_eq. intros k. rewrite list_lookup_fmap.
  destruct (index_names !! k) as [name|] eqn:Ek.
  - rewrite (lookup_seq_lt _ _ _ (lookup_lt_Some _ _ _ Ek)).
    cbn [fmap option_fmap option_map compose Nat.add]. rewrite Nat2Z.id, Ek. reflexivity.
  - rewrite lookup_seq_ge by (apply lookup_ge_None; exact Ek). reflexivity.
Qed.

Lemma ranked_Permutation (index_names : list string) (d : list Q)
    (row : list string) :
  Inference.ranked index_names d row -> row ≡ₚ index_names.
Proof.
  intros (indices & Hperm & Hrow & _).
  apply (names_along_permutation _ _ indices); assumption.
Qed.

Section ExampleSorts.
Import Inference Examples.

#[local] Instance Qleb_at_trans (d : list Q) : Transitive (Qleb_at d).
Proof.
  intros i j k. unfold Qleb_at. rewrite !Qle_bool_iff. apply Qle_trans.
Qed.

#[local] Instance Qleb_at_total (d : list Q) : Total (Qleb_at d).
Proof.
  intros i j. unfold Qleb_at. rewrite !Qle_bool_iff.
  destruct (Qlt_le_dec (value_at d j) (value_at d i)) as [Hlt|Hle].
  - right. apply Qlt_le_weak, Hlt.
  - left. exact Hle.
Qed.

Lemma StronglySorted_weaken {A : Type} (R1 R2 : relation A) (l : list A) :
  (forall x y, R1 x y -> R2 x y) -> StronglySorted R1 l -> StronglySorted R2 l.
Proof.
  intros Himp. induction 1 as [|x l _ IH Hx]; constructor; [exact IH|].
  eapply Forall_impl; [exact Hx|]. intros y. apply Himp.
Qed.

Lemma argsort_first_sorts : sorts argsort_first.
Proof.
  intros d. unfold argsort_first. split.
  - apply merge_sort_Permutation.
  - eapply StronglySorted_weaken; [|apply (StronglySorted_merge_sort (Qleb_at d))].
    intros i j. unfold Qleb_at. apply Qle_bool_iff.
Qed.

Lemma by_exchange_spec (d : list Q) (i j : Z) :
  by_exchange d i j
  <-> (value_at d i < value_at d j)%Q
      \/ ((value_at d i == value_at d j)%Q
          /\ (tie_rank (length d) i <= tie_rank (length d) j)%nat).
Proof.
  unfold by_exchange.
  rewrite orb_true_iff, andb_true_iff, Qltb_lt, Qeq_bool_iff, Nat.leb_le.
  reflexivity.
Qed.

#[local] Instance by_exchange_trans (d : list Q) : Transitive (by_exchange d).
Proof.
  intros i j k. rewrite !by_exchange_spec.
  intros [Hij|[Hij Hji]] [Hjk|[Hjk Hkj]].
  - left. lra.
  - left. lra.
  - left. lra.
  - right. split; [lra | lia].
Qed.

#[local] Instance by_exchange_total (d : list Q) : Total (by_exchange d).
Proof.
  intros i j. rewrite !by_exchange_spec.
  destruct (Q_dec (value_at d i) (value_at d j)) as [[Hlt|Hgt]|Heq].
  - left. left. exact Hlt.
  - right. left. exact Hgt.
  - destruct (Nat.le_ge_cases (tie_rank (length d) i) (tie_rank (length d) j)).
    + left. right. split; assumption.
    + right. right. split; [symmetry; exact Heq | assumption].
Qed.

Lemma argsort_unstable_sorts : sorts argsort_unstable.
Proof.
  intros d. unfold argsort_unstable. split.
  - apply merge_sort_Permutation.
  - eapply StronglySorted_weaken; [|apply (StronglySorted_merge_sort (by_exchange d))].
    intros i j. rewrite by_exchange_spec. intros [Hlt|[Heq _]]; lra.
Qed.

(** On up to 16 equal values the sort keeps the positions in order; on 17
    it returns them as one partition step of an introsort leaves them. *)
Example argsort_unstable_on_ties :
  argsort_unstable (replicate 16 0%Q) = Z.of_nat <$> seq 0 16
  /\ argsort_unstable (replicate 17 0%Q)
     = [8; 16; 15; 14; 13; 12; 11; 10; 9; 0; 7; 6; 5; 4; 3; 2; 1].
Proof. split; vm_compute; reflexivity. Qed.

End ExampleSorts.
(** C1, as the code has it: once the query embedding is computed, and when
    its width is the gallery's and there is one name per gallery row,
    [get_predictions] returns for every query row the gallery names read
    along a rearrangement of all gallery positions on which the distance
    never decreases.  The distance is the float32 number the code computes,
    [1 - (q @ normalize(g).T)], with the product as [torch.matmul] returns
    it; two items whose exact distances differ by less than the rounding are
    tied.  [torch.argsort] is called without [stable=True], so nothing more
    is known about equal distances than what [sorts] says. *)
Theorem C1_ranking_sorted (F_normalize : list Q -> list Q)
    (matmul : list (list Q) -> list (list Q) -> nat -> nat -> Q)
    (argsort : list Q -> list Z)
    (preprocess : Transforms.image -> result Datasets.tensor)
    (w : Datasets.world) (image_query text_query : string)
    (clip_model : Inference.CLIP) (index_features : Inference.matrix)
    (index_names : list string)
    (combining_function : Inference.matrix -> Inference.matrix -> Inference.matrix)
    (predicted_features : Inference.matrix) (st st1 : interp) :
  Inference.sorts argsort ->
  Inference.predictions preprocess w image_query text_query clip_model
    combining_function st = (Ok predicted_features, st1) ->
  Inference.ncols predicted_features = Inference.ncols index_features ->
  length index_names = length (Inference.mrows index_features) ->
  exists sorted_index_names,
    Inference.get_predictions F_normalize matmul argsort preprocess w image_query
      text_query clip_model index_features index_names combining_function st
    = (Ok sorted_index_names,
       Interp (stdout st1 ++ ["Compute CIRR validation metrics"]) (rng st1) (rng_pos st1))
    /\ Forall2 (Inference.ranked index_names)
         (map (Inference.distances F_normalize matmul
                 (Inference.mrows predicted_features)
                 (Inference.mrows index_features))
            (seq 0 (length (Inference.mrows predicted_features))))
         sorted_index_names.
Proof.
  intros Hsorts Hpred Hcols Hlen.
  destruct (rank_sorted F_normalize matmul argsort Hsorts predicted_features
              index_features index_names Hcols Hlen) as (out & Hout & Hranked).
  exists out. split; [|exact Hranked].
  unfold Inference.get_predictions.
  rewrite bind_py, Hpred, bind_py. cbn [print]. cbn beta iota.
  unfold lift. rewrite Hout. reflexivity.
Qed.

(** The theorem on the example gallery, with the merge sort. *)
Lemma C1_ranking_sorted_witness :
  exists sorted_index_names,
    Inference.get_predictions Examples.normalize_unit Examples.matmul32
      Examples.argsort_first
      Examples.to_tensor Examples.disk "data/images/B001.png" "is red"
      Examples.toy_clip Examples.gallery Examples.gallery_names
      Examples.element_wise_sum Examples.st0
    = (Ok sorted_index_names,
       Interp (stdout (Interp ["Compute CIRR validation predictions for a single query"]
                         (fun _ => 0) 0)
               ++ ["Compute CIRR validation metrics"]) (fun _ => 0) 0)
    /\ Forall2 (Inference.ranked Examples.gallery_names)
         (map (Inference.distances Examples.normalize_unit Examples.matmul32
                 [[10; 1]%Q] (Inference.mrows Examples.gallery))
            (seq 0 1))
         sorted_index_names.
Proof.
  apply (C1_ranking_sorted Examples.normalize_unit Examples.matmul32
           Examples.argsort_first
           Examples.to_tensor Examples.disk "data/images/B001.png" "is red"
           Examples.toy_clip Examples.gallery Examples.gallery_names
           Examples.element_wise_sum (Inference.Matrix 2 [[10; 1]%Q]) Examples.st0
           (Interp ["Compute CIRR validation predictions for a single query"]
              (fun _ => 0) 0)).
  - exact argsort_first_sorts.
  - reflexivity.
  - reflexivity.
  - reflexivity.
Defined.

(** On three items of which the first two are at the same distance, both
    example sorts return the gallery order. *)
Example ranking_of_the_query :
  Inference.rank Examples.normalize_unit Examples.matmul32 Examples.argsort_first
    Examples.query Examples.gallery Examples.gallery_names = Ok [["a"; "b"; "c"]]
  /\ Inference.rank Examples.normalize_unit Examples.matmul32
       Examples.argsort_unstable Examples.query Examples.gallery
       Examples.gallery_names = Ok [["a"; "b"; "c"]].
Proof. split; vm_compute; reflexivity. Qed.

(** A gallery of the two unit vectors and the query (7/8, 1/8): item 0 is
    nearer. *)
Example two_item_gallery :
  Inference.rank Examples.normalize_unit Examples.matmul32 Examples.argsort_first
    Examples.query (Inference.Matrix 2 [[1; 0]; [0; 1]]%Q) ["item0"; "item1"]
  = Ok [["item0"; "item1"]].
Proof. vm_compute. reflexivity. Qed.

(** Float32 makes ties of distances that differ as rationals.  For the
    query (2^-31, 2^-30) the products with the two unit vectors are 2^-31
    and 2^-30; both differences from 1 round to 1.0, and the ranking lists
    item 0 first although item 1 is the nearer one in exact arithmetic. *)
Example float32_distances_tie :
  Inference.distances Examples.normalize_unit Examples.matmul32
    [[1 # 2 ^ 31; 1 # 2 ^ 30]%Q] [[1; 0]; [0; 1]]%Q 0 = [1%Q; 1%Q]
  /\ Inference.rank Examples.normalize_unit Examples.matmul32 Examples.argsort_unstable
       (Inference.Matrix 2 [[1 # 2 ^ 31; 1 # 2 ^ 30]%Q])
       (Inference.Matrix 2 [[1; 0]; [0; 1]]%Q) ["item0"; "item1"]
     = Ok [["item0"; "item1"]].
Proof. split; vm_compute; reflexivity. Qed.

(** A query of another width than the gallery is rejected by the product. *)
Example width_mismatch :
  Inference.rank Examples.normalize_unit Examples.matmul32 Examples.argsort_first
    (Inference.Matrix 3 [[1; 0; 0]]%Q) Examples.gallery Examples.gallery_names
  = Raise Inference.shape_mismatch.
Proof. reflexivity. Qed.

(** C1, as stated, fails on the tie-breaking.  Seventeen gallery items with
    the same embedding are all at distance 0 from the query; an unstable
    sort, which meets the contract of [torch.argsort], exchanges equal
    values in a row of that length, and the ranking is no longer the
    gallery order. *)
Lemma C1_ties_not_in_gallery_order :
  Inference.sorts Examples.argsort_unstable
  /\ Inference.distances Examples.normalize_unit Examples.matmul32
       [[1; 0]%Q] (Inference.mrows Examples.gallery17) 0 = replicate 17 0%Q
  /\ exists row,
       Inference.rank Examples.normalize_unit Examples.matmul32
         Examples.argsort_unstable (Inference.Matrix 2 [[1; 0]%Q])
         Examples.gallery17 Examples.names17 = Ok [row]
       /\ row ≡ₚ Examples.names17
       /\ row <> Examples.names17.
Proof.
  split; [exact argsort_unstable_sorts|].
  split; [vm_compute; reflexivity|].
  destruct (rank_sorted Examples.normalize_unit Examples.matmul32
              Examples.argsort_unstable argsort_unstable_sorts
              (Inference.Matrix 2 [[1; 0]%Q]) Examples.gallery17 Examples.names17
              eq_refl eq_refl) as (out & Hout & Hranked).
  assert (Hrun : Inference.rank Examples.normalize_unit Examples.matmul32
                   Examples.argsort_unstable (Inference.Matrix 2 [[1; 0]%Q])
                   Examples.gallery17 Examples.names17
                 = Ok [["item8"; "item16"; "item15"; "item14"; "item13"; "item12";
                        "item11"; "item10"; "item9"; "item0"; "item7"; "item6";
                        "item5"; "item4"; "item3"; "item2"; "item1"]])
    by (vm_compute; reflexivity).
  rewrite Hrun in Hout. injection Hout as <-.
  eexists. split; [exact Hrun|]. split.
  - cbn [Inference.mrows length seq map] in Hranked.
    apply Forall2_cons in Hranked as [(indices & Hperm & Hnames & _) _].
    apply (names_along_permutation _ _ indices); assumption.
  - vm_compute. discriminate.
Qed.

(** C8, as the code has it: no check is made on the number of gallery rows.
    Against a gallery without rows, of the width of the query embedding,
    [get_predictions] raises nothing and returns an empty ranking for every
    query row. *)
Theorem C8_empty_gallery_returns (F_normalize : list Q -> list Q)
    (matmul : list (list Q) -> list (list Q) -> nat -> nat -> Q)
    (argsort : list Q -> list Z)
    (preprocess : Transforms.image -> result Datasets.tensor)
    (w : Datasets.world) (image_query text_query : string)
    (clip_model : Inference.CLIP) (index_names : list string)
    (combining_function : Inference.matrix -> Inference.matrix -> Inference.matrix)
    (predicted_features : Inference.matrix) (st st1 : interp) :
  Inference.sorts argsort ->
  Inference.predictions preprocess w image_query text_query clip_model
    combining_function st = (Ok predicted_features, st1) ->
  Inference.get_predictions F_normalize matmul argsort preprocess w image_query
    text_query clip_model
    (Inference.torch_empty (Inference.ncols predicted_features)) index_names
    combining_function st
  = (Ok (map (fun _ => []) (Inference.mrows predicted_features)),
     Interp (stdout st1 ++ ["Compute CIRR validation metrics"]) (rng st1) (rng_pos st1)).
Proof.
  intros Hsorts Hpred.
  unfold Inference.get_predictions.
  rewrite bind_py, Hpred, bind_py. cbn [print]. cbn beta iota.
  unfold lift.
  rewrite (rank_empty_gallery F_normalize matmul argsort Hsorts predicted_features
             (Inference.ncols predicted_features) index_names eq_refl).
  reflexivity.
Qed.

(** The theorem on the example disk. *)
Lemma C8_empty_gallery_returns_witness :
  Inference.get_predictions Examples.normalize_unit Examples.matmul32
    Examples.argsort_first
    Examples.to_tensor Examples.disk "data/images/B001.png" "is red"
    Examples.toy_clip (Inference.torch_empty 2) [] Examples.element_wise_sum
    Examples.st0
  = (Ok [[]],
     Interp ["Compute CIRR validation predictions for a single query";
             "Compute CIRR validation metrics"] (fun _ => 0) 0).
Proof.
  apply (C8_empty_gallery_returns Examples.normalize_unit Examples.matmul32
           Examples.argsort_first
           Examples.to_tensor Examples.disk "data/images/B001.png" "is red"
           Examples.toy_clip [] Examples.element_wise_sum
           (Inference.Matrix 2 [[10; 1]%Q]) Examples.st0
           (Interp ["Compute CIRR validation predictions for a single query"]
              (fun _ => 0) 0)).
  - exact argsort_first_sorts.
  - reflexivity.
Defined.

(** C8, as stated, fails: ranking against [torch.empty((0, 2))] with no names
    ends normally with one empty ranking, and so does the whole of
    [inference] on a Wikiart manifest without entries. *)
Lemma C8_no_error_on_empty_gallery :
  fst (Inference.get_predictions Examples.normalize_unit Examples.matmul32
         Examples.argsort_first
         Examples.to_tensor Examples.disk "data/images/B001.png" "is red"
         Examples.toy_clip (Inference.torch_empty 2) [] Examples.element_wise_sum
         Examples.st0)
  = Ok [[]]
  /\ fst (Inference.extract_index_features Examples.collate_pairs Examples.disk
            Examples.wikiart_none Examples.toy_clip Examples.st0)
     = Ok (Inference.torch_empty 2, []).
Proof. split; vm_compute; reflexivity. Qed.

(** * Further properties of the code *)

(** ** The padding transforms *)

Section PadExtras.
Import Transforms.

Lemma quot2_rem_small (n : Z) : 0 <= n -> Z.quot (n - 2 * Z.quot n 2) 2 = 0.
Proof.
  intros Hn. pose proof (Z.quot_rem' n 2). pose proof (Z.rem_bound_pos n 2).
  replace (n - 2 * Z.quot n 2) with (Z.rem n 2) by lia.
  apply Z.quot_small. lia.
Qed.

(** Outside its canvas the padded image reads as the fill value. *)
Lemma SquarePad_outside (self : SquarePad) (im : image) (x y : Z) :
  ~ (0 <= x < size_w (SquarePad_call self im)
     /\ 0 <= y < size_h (SquarePad_call self im)) ->
  getpixel (SquarePad_call self im) x y = 0.
Proof.
  destruct (SquarePad_size self im) as [Hw Hh]. rewrite Hw, Hh.
  set (w := size_w im). set (h := size_h im).
  assert (Hhp : 0 <= Z.quot (Z.max w h - w) 2) by (apply Z.quot_pos; lia).
  assert (Hvp : 0 <= Z.quot (Z.max w h - h) 2) by (apply Z.quot_pos; lia).
  unfold SquarePad_call, F_pad. cbn [getpixel]. rewrite !int_half. fold w h.
  intros Hout.
  destruct (Z.leb_spec (Z.quot (Z.max w h - w) 2) x);
    destruct (Z.ltb_spec x (Z.quot (Z.max w h - w) 2 + w));
    destruct (Z.leb_spec (Z.quot (Z.max w h - h) 2) y);
    destruct (Z.ltb_spec y (Z.quot (Z.max w h - h) 2 + h));
    cbn [andb]; try reflexivity.
  exfalso. apply Hout. lia.
Qed.

End PadExtras.

(** X1: [SquarePad] neither crops nor alters the picture.  Each side grows
    by twice a non-negative amount and stays within [max(w, h)]; every source
    pixel is found again, shifted by the padding, and every other pixel of
    the new canvas is zero. *)
Theorem SquarePad_keeps_content (self : Transforms.SquarePad) (im : Transforms.image) :
  exists hp vp,
    0 <= hp /\ 0 <= vp
    /\ Transforms.size_w (Transforms.SquarePad_call self im) = Transforms.size_w im + 2 * hp
    /\ Transforms.size_h (Transforms.SquarePad_call self im) = Transforms.size_h im + 2 * vp
    /\ Transforms.size_w (Transforms.SquarePad_call self im)
       <= Z.max (Transforms.size_w im) (Transforms.size_h im)
    /\ Transforms.size_h (Transforms.SquarePad_call self im)
       <= Z.max (Transforms.size_w im) (Transforms.size_h im)
    /\ (forall x y, 0 <= x < Transforms.size_w im -> 0 <= y < Transforms.size_h im ->
          Transforms.getpixel (Transforms.SquarePad_call self im) (x + hp) (y + vp)
          = Transforms.getpixel im x y)
    /\ (forall x y,
          ~ (hp <= x < hp + Transforms.size_w im /\ vp <= y < vp + Transforms.size_h im) ->
          Transforms.getpixel (Transforms.SquarePad_call self im) x y = 0).
Proof.
  set (w := Transforms.size_w im). set (h := Transforms.size_h im).
  exists (Z.quot (Z.max w h - w) 2), (Z.quot (Z.max w h - h) 2).
  assert (Hhp : 0 <= Z.quot (Z.max w h - w) 2) by (apply Z.quot_pos; lia).
  assert (Hvp : 0 <= Z.quot (Z.max w h - h) 2) by (apply Z.quot_pos; lia).
  pose proof (Z.quot_rem' (Z.max w h - w) 2) as Hqw.
  pose proof (Z.rem_bound_pos (Z.max w h - w) 2) as Hrw.
  pose proof (Z.quot_rem' (Z.max w h - h) 2) as Hqh.
  pose proof (Z.rem_bound_pos (Z.max w h - h) 2) as Hrh.
  unfold Transforms.SquarePad_call, Transforms.F_pad.
  cbn [Transforms.size_w Transforms.size_h Transforms.getpixel].
  rewrite !int_half. fold w h.
  repeat split; try lia.
  - intros x y Hx Hy.
    destruct (Z.leb_spec (Z.quot (Z.max w h - w) 2) (x + Z.quot (Z.max w h - w) 2)); [|lia].
    destruct (Z.ltb_spec (x + Z.quot (Z.max w h - w) 2) (Z.quot (Z.max w h - w) 2 + w)); [|lia].
    destruct (Z.leb_spec (Z.quot (Z.max w h - h) 2) (y + Z.quot (Z.max w h - h) 2)); [|lia].
    destruct (Z.ltb_spec (y + Z.quot (Z.max w h - h) 2) (Z.quot (Z.max w h - h) 2 + h)); [|lia].
    cbn [andb]. f_equal; lia.
  - intros x y Hout.
    destruct (Z.leb_spec (Z.quot (Z.max w h - w) 2) x);
      destruct (Z.ltb_spec x (Z.quot (Z.max w h - w) 2 + w));
      destruct (Z.leb_spec (Z.quot (Z.max w h - h) 2) y);
      destruct (Z.ltb_spec y (Z.quot (Z.max w h - h) 2 + h));
      cbn [andb]; try reflexivity.
    exfalso. apply Hout. lia.
Qed.

(** The theorem on the 3x4 example, at its pixel (2, 3) and outside. *)
Lemma SquarePad_keeps_content_witness :
  exists hp vp,
    Transforms.getpixel (Transforms.SquarePad_call Examples.square_pad Examples.im3x4)
      (2 + hp) (3 + vp) = 255
    /\ Transforms.getpixel (Transforms.SquarePad_call Examples.square_pad Examples.im3x4)
         (hp + 3) vp = 0.
Proof.
  destruct (SquarePad_keeps_content Examples.square_pad Examples.im3x4)
    as (hp & vp & Hhp & Hvp & _ & _ & _ & _ & Hin & Hout).
  exists hp, vp. split.
  - rewrite (Hin 2 3); [reflexivity | cbn; lia | cbn; lia].
  - apply Hout. cbn. lia.
Defined.

(** X2: applying [SquarePad] to its own output changes neither the size nor
    any pixel: the sides then differ by one pixel at most, and half of that
    is truncated to zero. *)
Theorem SquarePad_idempotent (self self' : Transforms.SquarePad) (im : Transforms.image) :
  let once := Transforms.SquarePad_call self im in
  let twice := Transforms.SquarePad_call self' once in
  Transforms.size_w twice = Transforms.size_w once
  /\ Transforms.size_h twice = Transforms.size_h once
  /\ forall x y, Transforms.getpixel twice x y = Transforms.getpixel once x y.
Proof.
  intros once twice.
  assert (Hmax : Z.max (Transforms.size_w once) (Transforms.size_h once)
                 = Z.max (Transforms.size_w im) (Transforms.size_h im))
    by apply SquarePad_long_side.
  destruct (SquarePad_size self im) as [Hw Hh]. fold once in Hw, Hh.
  set (w := Transforms.size_w im) in *. set (h := Transforms.size_h im) in *.
  assert (Hqw : Z.quot (Z.max (Transforms.size_w once) (Transforms.size_h once)
                        - Transforms.size_w once) 2 = 0).
  { rewrite Hmax, Hw.
    replace (Z.max w h - (w + 2 * Z.quot (Z.max w h - w) 2))
      with ((Z.max w h - w) - 2 * Z.quot (Z.max w h - w) 2) by lia.
    apply quot2_rem_small. lia. }
  assert (Hqh : Z.quot (Z.max (Transforms.size_w once) (Transforms.size_h once)
                        - Transforms.size_h once) 2 = 0).
  { rewrite Hmax, Hh.
    replace (Z.max w h - (h + 2 * Z.quot (Z.max w h - h) 2))
      with ((Z.max w h - h) - 2 * Z.quot (Z.max w h - h) 2) by lia.
    apply quot2_rem_small. lia. }
  destruct (SquarePad_size self' once) as [Hw2 Hh2]. fold twice in Hw2, Hh2.
  rewrite Hqw in Hw2. rewrite Hqh in Hh2.
  split; [lia|]. split; [lia|].
  intros x y. subst twice.
  unfold Transforms.SquarePad_call at 1. rewrite !int_half, Hqw, Hqh.
  unfold Transforms.F_pad. cbn [Transforms.getpixel].
  rewrite !Z.add_0_l, !Z.sub_0_r.
  destruct (Z.leb_spec 0 x); destruct (Z.ltb_spec x (Transforms.size_w once));
    destruct (Z.leb_spec 0 y); destruct (Z.ltb_spec y (Transforms.size_h once));
    cbn [andb]; try reflexivity.
  all: symmetry; apply SquarePad_outside; fold once; lia.
Qed.
Section TargetPadExtras.
Import Transforms.

Lemma truediv_zero (a b : Q) : (b == 0)%Q -> truediv a b = Raise ZeroDivisionError.
Proof.
  intros Hb. unfold truediv.
  destruct (Qeq_bool b 0) eqn:E; [reflexivity|].
  apply Qeq_bool_neq in E. contradiction.
Qed.

Lemma ratio_at_least_one (w h : Z) :
  0 < w -> 0 < h -> (1 <= inject_Z (Z.max w h) / inject_Z (Z.min w h))%Q.
Proof.
  intros Hw Hh.
  assert (Hm : (0 < inject_Z (Z.min w h))%Q) by (apply inject_Z_pos; lia).
  apply Qle_shift_div_l; [exact Hm|].
  rewrite Qmult_1_l, <- Zle_Qle. lia.
Qed.

(** The float quotient of the sides is at least 1 as well. *)
Lemma ratio_float_at_least_one (w h : Z) :
  0 < w -> 0 < h ->
  (1 <= round64 (inject_Z (Z.max w h) / inject_Z (Z.min w h)))%Q.
Proof.
  intros Hw Hh. apply (round64_ge_Z 1), ratio_at_least_one; assumption.
Qed.

(** A number that is an integer is kept by the rounding. *)
Lemma round64_Z (n : Z) (x : Q) : (x == inject_Z n)%Q -> (round64 x == inject_Z n)%Q.
Proof.
  intros Hx. apply Qle_antisym.
  - apply round64_le_Z. rewrite Hx. apply Qle_refl.
  - apply round64_ge_Z. rewrite Hx. apply Qle_refl.
Qed.

Lemma round64_half (n : Z) (x : Q) :
  (x == inject_Z n / 2)%Q -> (round64 x == inject_Z n / 2)%Q.
Proof.
  intros Hx. apply Qle_antisym.
  - apply round64_le_half. rewrite Hx. apply Qle_refl.
  - apply round64_ge_half. rewrite Hx. apply Qle_refl.
Qed.

(** With a ratio of 1 every step of the padding arithmetic is exact. *)
Lemma side_padding_one (M s : Z) (t : Q) :
  (t == 1)%Q -> s <= M -> side_padding M t s = Z.quot (M - s) 2.
Proof.
  intros Ht Hs. unfold side_padding, fsub.
  assert (H1 : (round64 (inject_Z M / t) == inject_Z M)%Q).
  { apply round64_Z. rewrite Ht. field. }
  assert (H2 : (round64 (round64 (inject_Z M / t) - inject_Z s) == inject_Z (M - s))%Q).
  { apply round64_Z. rewrite H1. unfold Z.sub.
    rewrite inject_Z_plus, inject_Z_opp. reflexivity. }
  assert (H3 : (round64 (round64 (round64 (inject_Z M / t) - inject_Z s) / 2)
                == inject_Z (M - s) / 2)%Q).
  { apply round64_half. rewrite H2. reflexivity. }
  rewrite (int_proper _ _ H3), int_half.
  apply Z.max_l, Z.quot_pos; lia.
Qed.

End TargetPadExtras.

(** X3: with a target ratio of 1, [TargetPad] pads every image with positive
    sides exactly as [SquarePad] does. *)
Theorem TargetPad_ratio_one_is_SquarePad (self : Transforms.TargetPad)
    (square : Transforms.SquarePad) (im : Transforms.image) :
  0 < Transforms.size_w im -> 0 < Transforms.size_h im ->
  (Transforms.target_ratio self == 1)%Q ->
  Transforms.TargetPad_call self im = Ok (Transforms.SquarePad_call square im).
Proof.
  intros Hw Hh Ht.
  pose proof (ratio_float_at_least_one _ _ Hw Hh) as Hratio.
  assert (Ht' : (round64 (Transforms.target_ratio self) == 1)%Q).
  { apply (round64_Z 1). exact Ht. }
  rewrite TargetPad_pads; [|assumption|assumption| |].
  - unfold Transforms.SquarePad_call. rewrite !int_half.
    rewrite !(side_padding_one _ _ _ Ht') by lia. reflexivity.
  - rewrite Ht'. discriminate.
  - apply Qltb_ge. rewrite Ht'. exact Hratio.
Qed.

Lemma TargetPad_ratio_one_is_SquarePad_witness :
  Transforms.TargetPad_call {| Transforms.target_ratio := 1; Transforms.tp_size := 224 |}
    Examples.im400x100
  = Ok (Transforms.SquarePad_call Examples.square_pad Examples.im400x100).
Proof.
  apply TargetPad_ratio_one_is_SquarePad; [reflexivity | reflexivity | reflexivity].
Defined.

(** X4: [TargetPad] divides by the shorter side and by the target ratio, so
    an image with an empty side, or a target ratio of zero, ends in
    [ZeroDivisionError]. *)
Theorem TargetPad_zero_division (self : Transforms.TargetPad) (im : Transforms.image) :
  (0 <= Transforms.size_w im -> 0 <= Transforms.size_h im ->
   Transforms.size_w im = 0 \/ Transforms.size_h im = 0 ->
   Transforms.TargetPad_call self im = Raise ZeroDivisionError)
  /\ (0 < Transforms.size_w im -> 0 < Transforms.size_h im ->
      (Transforms.target_ratio self == 0)%Q ->
      Transforms.TargetPad_call self im = Raise ZeroDivisionError).
Proof.
  split.
  - intros Hw Hh Hzero. unfold Transforms.TargetPad_call.
    replace (Z.min (Transforms.size_w im) (Transforms.size_h im)) with 0 by lia.
    rewrite (truediv_zero _ (inject_Z 0)) by reflexivity. reflexivity.
  - intros Hw Hh Ht.
    pose proof (ratio_float_at_least_one _ _ Hw Hh) as Hratio.
    assert (Ht' : (round64 (Transforms.target_ratio self) == 0)%Q).
    { apply (round64_Z 0). exact Ht. }
    unfold Transforms.TargetPad_call.
    rewrite truediv_sizes by lia. cbn [mbind result_bind].
    assert (Hnot : Qltb (round64 (inject_Z (Z.max (Transforms.size_w im)
                                              (Transforms.size_h im))
                                  / inject_Z (Z.min (Transforms.size_w im)
                                                (Transforms.size_h im))))
                     (round64 (Transforms.target_ratio self)) = false).
    { apply Qltb_ge. rewrite Ht'. lra. }
    rewrite Hnot, (truediv_zero _ _ Ht'). reflexivity.
Qed.

Lemma TargetPad_zero_division_witness :
  Transforms.TargetPad_call Examples.target_pad (Transforms.Image 0 7 (fun _ _ => 0))
    = Raise ZeroDivisionError
  /\ Transforms.TargetPad_call {| Transforms.target_ratio := 0; Transforms.tp_size := 224 |}
       Examples.im3x4 = Raise ZeroDivisionError.
Proof.
  split.
  - apply (proj1 (TargetPad_zero_division Examples.target_pad
                    (Transforms.Image 0 7 (fun _ _ => 0)))); cbn; lia.
  - apply (proj2 (TargetPad_zero_division
                    {| Transforms.target_ratio := 0; Transforms.tp_size := 224 |}
                    Examples.im3x4)); reflexivity.
Defined.

(** X5: whatever the target ratio, when [TargetPad] returns it has neither
    cropped nor altered the picture: each side grew by twice a non-negative
    amount, every source pixel is found again shifted by the padding, and
    the rest of the canvas is zero or, when nothing was padded, untouched. *)
Theorem TargetPad_keeps_content (self : Transforms.TargetPad)
    (im out : Transforms.image) :
  Transforms.TargetPad_call self im = Ok out ->
  exists hp vp,
    0 <= hp /\ 0 <= vp
    /\ Transforms.size_w out = Transforms.size_w im + 2 * hp
    /\ Transforms.size_h out = Transforms.size_h im + 2 * vp
    /\ (forall x y, 0 <= x < Transforms.size_w im -> 0 <= y < Transforms.size_h im ->
          Transforms.getpixel out (x + hp) (y + vp) = Transforms.getpixel im x y)
    /\ (out = im
        \/ forall x y,
             ~ (hp <= x < hp + Transforms.size_w im /\ vp <= y < vp + Transforms.size_h im) ->
             Transforms.getpixel out x y = 0).
Proof.
  unfold Transforms.TargetPad_call, mbind, result_bind, mret, result_ret.
  destruct (truediv _ _) as [ratio|e]; [|discriminate].
  destruct (Qltb ratio _).
  - intros [= <-]. exists 0, 0. repeat split; try lia.
    + intros x y _ _. rewrite !Z.add_0_r. reflexivity.
    + left. reflexivity.
  - destruct (truediv _ _) as [scaled|e]; [|discriminate].
    destruct (truediv _ 2) as [hp_float|e]; [|discriminate].
    destruct (truediv _ 2) as [vp_float|e]; [|discriminate].
    intros [= <-].
    set (hp := Z.max (int hp_float) 0).
    set (vp := Z.max (int vp_float) 0).
    exists hp, vp.
    assert (Hhp : 0 <= hp) by (unfold hp; lia).
    assert (Hvp : 0 <= vp) by (unfold vp; lia).
    unfold Transforms.F_pad.
    cbn [Transforms.size_w Transforms.size_h Transforms.getpixel].
    repeat split; try lia.
    + intros x y Hx Hy.
      destruct (Z.leb_spec hp (x + hp)); [|lia].
      destruct (Z.ltb_spec (x + hp) (hp + Transforms.size_w im)); [|lia].
      destruct (Z.leb_spec vp (y + vp)); [|lia].
      destruct (Z.ltb_spec (y + vp) (vp + Transforms.size_h im)); [|lia].
      cbn [andb]. f_equal; lia.
    + right. intros x y Hout.
      destruct (Z.leb_spec hp x); destruct (Z.ltb_spec x (hp + Transforms.size_w im));
        destruct (Z.leb_spec vp y); destruct (Z.ltb_spec y (vp + Transforms.size_h im));
        cbn [andb]; try reflexivity.
      exfalso. apply Hout. lia.
Qed.

Lemma TargetPad_keeps_content_witness :
  exists hp vp,
    0 <= hp /\ 0 <= vp
    /\ 400 = 400 + 2 * hp /\ 320 = 100 + 2 * vp.
Proof.
  destruct (TargetPad_keeps_content Examples.target_pad Examples.im400x100
              (Transforms.F_pad Examples.im400x100 (0, 110, 0, 110) 0))
    as (hp & vp & Hhp & Hvp & Hw & Hh & _).
  - vm_compute. reflexivity.
  - exists hp, vp. repeat split; assumption.
Defined.

(** ** Caption composition *)

(** X6: every call of [generate_randomized_fiq_caption] draws exactly one
    random number and prints nothing, also when a selector overrides the
    draw and also when the call ends in [IndexError]. *)
Theorem generate_draws_once (captions : list string) (type : Z) (st : interp) :
  snd (Caption.generate_randomized_fiq_caption captions type st) = advance st.
Proof.
  unfold Caption.generate_randomized_fiq_caption, random_random.
  rewrite bind_py.
  match goal with
  | |- context [Qltb ?r (1 # 4)] => generalize r
  end.
  intros r.
  unfold mbind, py_bind, lift, mret, py_ret.
  destruct (Qltb r (1 # 4)); [|destruct (Qltb (1 # 4) r && Qltb r (1 # 2));
    [|destruct (Qltb (1 # 2) r && Qltb r (3 # 4))]];
    destruct (getitem captions 0); destruct (getitem captions 1); reflexivity.
Qed.

(** X7: only the first two captions are ever read: further captions of a
    triplet have no influence on the composed caption. *)
Theorem generate_reads_two (A B : string) (rest : list string) (type : Z)
    (st : interp) :
  Caption.generate_randomized_fiq_caption (A :: B :: rest) type st
  = Caption.generate_randomized_fiq_caption [A; B] type st.
Proof.
  unfold Caption.generate_randomized_fiq_caption.
  rewrite !getitem_head, !getitem_second. reflexivity.
Qed.

(** X8: for two captions, whatever the selector (also outside 0..3) and
    whatever the draw, the result is one of the four compositions
    "A and B", "B and A", "A", "B" of the stripped fragments. *)
Theorem generate_four_outcomes (A B : string) (rest : list string) (type : Z)
    (st : interp) :
  exists caption,
    fst (Caption.generate_randomized_fiq_caption (A :: B :: rest) type st) = Ok caption
    /\ caption ∈ [Caption.strip Caption.punct A +:+ " and " +:+ Caption.strip Caption.punct B;
                  Caption.strip Caption.punct B +:+ " and " +:+ Caption.strip Caption.punct A;
                  Caption.strip Caption.punct A;
                  Caption.strip Caption.punct B].
Proof.
  unfold Caption.generate_randomized_fiq_caption, random_random.
  rewrite bind_py, !getitem_head, !getitem_second.
  match goal with
  | |- context [Qltb ?r (1 # 4)] => generalize r
  end.
  intros r.
  destruct (Qltb r (1 # 4)); [|destruct (Qltb (1 # 4) r && Qltb r (1 # 2));
    [|destruct (Qltb (1 # 2) r && Qltb r (3 # 4))]];
    rewrite !bind_lift_ok; eexists; (split; [reflexivity|]).
  - apply list_elem_of_here.
  - apply list_elem_of_further, list_elem_of_here.
  - do 2 apply list_elem_of_further. apply list_elem_of_here.
  - do 3 apply list_elem_of_further. apply list_elem_of_here.
Qed.

(** X9: on a single caption the selector decides alone: selector 2 returns
    the stripped caption, selectors 0, 1 and 3 raise [IndexError], for every
    state of the generator. *)
Theorem generate_single_override (A : string) (st : interp) :
  fst (Caption.generate_randomized_fiq_caption [A] 2 st) = Ok (Caption.strip Caption.punct A)
  /\ fst (Caption.generate_randomized_fiq_caption [A] 0 st) = Raise IndexError
  /\ fst (Caption.generate_randomized_fiq_caption [A] 1 st) = Raise IndexError
  /\ fst (Caption.generate_randomized_fiq_caption [A] 3 st) = Raise IndexError.
Proof.
  unfold Caption.generate_randomized_fiq_caption, random_random.
  rewrite !bind_py. cbn [Z.eqb].
  rewrite !getitem_head, !(getitem_beyond [A] 1) by (cbn; lia).
  repeat split.
Qed.

(** X10: [strip] only cuts at the two ends and only characters of the given
    set: the text is [pre ++ strip chars s ++ post] with [pre] and [post]
    made of such characters, and what is left neither starts nor ends with
    one.  Characters inside the text are never removed. *)
Theorem strip_cuts_the_ends (chars s : string) :
  (exists pre post,
     s = pre +:+ Caption.strip chars s +:+ post
     /\ (forall c, In c (String.list_ascii_of_string pre) -> Caption.in_chars chars c = true)
     /\ (forall c, In c (String.list_ascii_of_string post) -> Caption.in_chars chars c = true))
  /\ (forall c rest, Caption.strip chars s = String c rest -> Caption.in_chars chars c = false)
  /\ (forall c front, Caption.strip chars s = front +:+ String c EmptyString ->
        Caption.in_chars chars c = false).
Proof.
  split; [|split].
  - destruct (lstrip_split chars s) as (pre & Hpre & Hpre_chars).
    destruct (rstrip_split chars (Caption.lstrip chars s)) as (post & Hpost & Hpost_chars).
    exists pre, post. split; [|split; assumption].
    unfold Caption.strip. rewrite <- Hpost. exact Hpre.
  - intros c rest Hstrip. unfold Caption.strip in Hstrip.
    destruct (rstrip_split chars (Caption.lstrip chars s)) as (post & Hpost & _).
    rewrite Hstrip, append_cons in Hpost.
    apply (lstrip_head chars s c _ Hpost).
  - intros c front Hstrip. unfold Caption.strip in Hstrip.
    apply (rstrip_last chars _ c front Hstrip).
Qed.

Lemma strip_cuts_the_ends_witness :
  Caption.in_chars Caption.punct "h" = false
  /\ Caption.in_chars Caption.punct "s" = false.
Proof.
  destruct (strip_cuts_the_ends Caption.punct " has long sleeves?") as (_ & Hhead & Hlast).
  split.
  - apply (Hhead "h"%char "as long sleeves"). reflexivity.
  - apply (Hlast "s"%char "has long sleeve"). reflexivity.
Defined.

(** ** The guarded adapters *)

Section GuardedExtras.
Import Datasets.

Lemma getitem_outside {A : Type} (l : list A) (i : Z) :
  Z.of_nat (length l) <= i \/ i < - Z.of_nat (length l) ->
  getitem l i = Raise IndexError.
Proof.
  intros [Hi|Hi]; [apply getitem_beyond, Hi|].
  unfold getitem.
  destruct (Z.ltb_spec i 0) as [_|]; [|lia].
  destruct (Z.ltb_spec (i + Z.of_nat (length l)) 0) as [_|]; [|lia].
  reflexivity.
Qed.

Lemma swallowed (body : py value) (e : exn) (st : interp) :
  body st = (Raise e, st) ->
  try_except body swallow st
  = (Ok VNone, Interp (stdout st ++ ["Exception: " +:+ str_exn e]) (rng st) (rng_pos st)).
Proof. intros Hbody. unfold try_except. rewrite Hbody. reflexivity. Qed.

End GuardedExtras.

(** X11: in the guarded adapters an index outside the data is no
    [IndexError] for the caller: [__getitem__] prints
    "Exception: list index out of range" and returns [None], in both modes of
    [FashionIQDataset] and [CIRRDataset] and in [WikiartDataset]. *)
Theorem guarded_index_out_of_range :
  (forall (w : Datasets.world) (self : Datasets.WikiartDataset) (index : Z) (st : interp),
     Z.of_nat (length (Datasets.wk_dataset self)) <= index
     \/ index < - Z.of_nat (length (Datasets.wk_dataset self)) ->
     Datasets.WikiartDataset_getitem w self index st
     = (Ok Datasets.VNone,
        Interp (stdout st ++ ["Exception: list index out of range"]) (rng st) (rng_pos st)))
  /\ (forall (w : Datasets.world) (self : Datasets.FashionIQDataset) (index : Z) (st : interp),
     (Datasets.fq_mode self = "relative"
      /\ (Z.of_nat (length (Datasets.fq_triplets self)) <= index
          \/ index < - Z.of_nat (length (Datasets.fq_triplets self))))
     \/ (Datasets.fq_mode self = "classic"
         /\ (Z.of_nat (length (Datasets.fq_image_names self)) <= index
             \/ index < - Z.of_nat (length (Datasets.fq_image_names self)))) ->
     Datasets.FashionIQDataset_getitem w self index st
     = (Ok Datasets.VNone,
        Interp (stdout st ++ ["Exception: list index out of range"]) (rng st) (rng_pos st)))
  /\ (forall (w : Datasets.world) (self : Datasets.CIRRDataset) (index : Z) (st : interp),
     (Datasets.cr_mode self = "relative"
      /\ (Z.of_nat (length (Datasets.cr_triplets self)) <= index
          \/ index < - Z.of_nat (length (Datasets.cr_triplets self))))
     \/ (Datasets.cr_mode self = "classic"
         /\ (Z.of_nat (length (Datasets.cr_name_to_relpath self)) <= index
             \/ index < - Z.of_nat (length (Datasets.cr_name_to_relpath self)))) ->
     Datasets.CIRRDataset_getitem w self index st
     = (Ok Datasets.VNone,
        Interp (stdout st ++ ["Exception: list index out of range"]) (rng st) (rng_pos st))).
Proof.
  split; [|split].
  - intros w self index st Hout.
    apply (swallowed _ IndexError).
    unfold Datasets.WikiartDataset_getitem_body.
    rewrite (getitem_outside _ _ Hout). reflexivity.
  - intros w self index st [[Hmode Hout]|[Hmode Hout]];
      apply (swallowed _ IndexError);
      unfold Datasets.FashionIQDataset_getitem_body; rewrite Hmode;
      cbn [String.eqb Ascii.eqb Bool.eqb];
      rewrite (getitem_outside _ _ Hout); reflexivity.
  - intros w self index st [[Hmode Hout]|[Hmode Hout]];
      apply (swallowed _ IndexError);
      unfold Datasets.CIRRDataset_getitem_body; rewrite Hmode;
      cbn [String.eqb Ascii.eqb Bool.eqb].
    + rewrite (getitem_outside _ _ Hout). reflexivity.
    + rewrite getitem_outside by (rewrite length_fmap; exact Hout). reflexivity.
Qed.

Lemma guarded_index_out_of_range_witness :
  Datasets.WikiartDataset_getitem Examples.disk Examples.wikiart 2 Examples.st0
  = (Ok Datasets.VNone,
     Interp (stdout Examples.st0 ++ ["Exception: list index out of range"])
       (rng Examples.st0) (rng_pos Examples.st0))
  /\ Datasets.WikiartDataset_getitem Examples.disk Examples.wikiart (-3) Examples.st0
     = (Ok Datasets.VNone,
        Interp (stdout Examples.st0 ++ ["Exception: list index out of range"])
          (rng Examples.st0) (rng_pos Examples.st0)).
Proof.
  destruct guarded_index_out_of_range as (Hwiki & _ & _).
  split; apply Hwiki; cbn; lia.
Defined.

(** X12: in relative mode the validation split of [FashionIQDataset] and the
    validation and test splits of [CIRRDataset] hand back names and captions
    only: no image file is opened, whatever the disk holds the item is the
    triplet's fields and nothing is printed.  A CIRR validation triplet
    without ["target_hard"] yields [None] and the message of the swallowed
    [KeyError]. *)
Theorem relative_validation_reads_no_image :
  (forall (w : Datasets.world) (self : Datasets.FashionIQDataset) (index : Z)
      (triplet : Datasets.fiq_triplet) (st : interp),
     Datasets.fq_mode self = "relative" -> Datasets.fq_split self = "val" ->
     getitem (Datasets.fq_triplets self) index = Ok triplet ->
     Datasets.FashionIQDataset_getitem w self index st
     = (Ok (Datasets.VTuple [Datasets.VStr (Datasets.fiq_candidate triplet);
                             Datasets.VStr (Datasets.fiq_target triplet);
                             Datasets.VStrs (Datasets.fiq_captions triplet)]), st))
  /\ (forall (w : Datasets.world) (self : Datasets.CIRRDataset) (index : Z)
      (triplet : Datasets.cirr_triplet) (caption : string) (st : interp),
     Datasets.cr_mode self = "relative" -> Datasets.cr_split self = "val" ->
     getitem (Datasets.cr_triplets self) index = Ok triplet ->
     Datasets.cirr_caption triplet = inl caption ->
     Datasets.CIRRDataset_getitem w self index st
     = match Datasets.cirr_target_hard triplet with
       | Some target_hard_name =>
           (Ok (Datasets.VTuple [Datasets.VStr (Datasets.cirr_reference triplet);
                                 Datasets.VStr target_hard_name;
                                 Datasets.VStr caption;
                                 Datasets.VStrs (Datasets.cirr_members triplet)]), st)
       | None =>
           (Ok Datasets.VNone,
            Interp (stdout st ++ ["Exception: 'target_hard'"]) (rng st) (rng_pos st))
       end)
  /\ (forall (w : Datasets.world) (self : Datasets.CIRRDataset) (index : Z)
      (triplet : Datasets.cirr_triplet) (caption : string) (st : interp),
     Datasets.cr_mode self = "relative" -> Datasets.cr_split self = "test1" ->
     getitem (Datasets.cr_triplets self) index = Ok triplet ->
     Datasets.cirr_caption triplet = inl caption ->
     Datasets.CIRRDataset_getitem w self index st
     = (Ok (Datasets.VTuple [Datasets.VInt (Datasets.cirr_pairid triplet);
                             Datasets.VStr (Datasets.cirr_reference triplet);
                             Datasets.VStr caption;
                             Datasets.VStrs (Datasets.cirr_members triplet)]), st)).
Proof.
  split; [|split].
  - intros w self index triplet st Hmode Hsplit Htriplet.
    unfold Datasets.FashionIQDataset_getitem, try_except,
      Datasets.FashionIQDataset_getitem_body.
    rewrite Hmode, Hsplit, Htriplet. reflexivity.
  - intros w self index triplet caption st Hmode Hsplit Htriplet Hcaption.
    unfold Datasets.CIRRDataset_getitem, try_except,
      Datasets.CIRRDataset_getitem_body.
    rewrite Hmode, Hsplit, Htriplet. cbn [String.eqb Ascii.eqb Bool.eqb].
    rewrite bind_lift_ok, Hcaption.
    destruct (Datasets.cirr_target_hard triplet); reflexivity.
  - intros w self index triplet caption st Hmode Hsplit Htriplet Hcaption.
    unfold Datasets.CIRRDataset_getitem, try_except,
      Datasets.CIRRDataset_getitem_body.
    rewrite Hmode, Hsplit, Htriplet. cbn [String.eqb Ascii.eqb Bool.eqb].
    rewrite bind_lift_ok, Hcaption. reflexivity.
Qed.

(** ** The identifier tables of [CIRDataset] *)

Section TableFacts.
Import Datasets Tables.

Lemma add_new_NoDup (l : list string) (x : string) : NoDup l -> NoDup (add_new l x).
Proof.
  intros Hl. unfold add_new. destruct (decide (x ∈ l)) as [|Hx]; [exact Hl|].
  apply NoDup_app. split; [exact Hl|]. split.
  - intros y Hy Hyx. apply list_elem_of_singleton in Hyx. subst y. contradiction.
  - apply NoDup_singleton.
Qed.

Lemma first_seen_snoc (l : list string) (x : string) :
  first_seen (l ++ [x]) = add_new (first_seen l) x.
Proof. unfold first_seen. rewrite foldl_app. reflexivity. Qed.

Lemma first_seen_NoDup (l : list string) : NoDup (first_seen l).
Proof.
  induction l as [|x l IH] using rev_ind; [apply NoDup_nil_2|].
  rewrite first_seen_snoc. apply add_new_NoDup, IH.
Qed.

Lemma add_new_elem (l : list string) (x y : string) :
  y ∈ add_new l x <-> y ∈ l \/ y = x.
Proof.
  unfold add_new. destruct (decide (x ∈ l)) as [Hx|Hx].
  - split; [auto|]. intros [Hy| ->]; assumption.
  - rewrite elem_of_app, list_elem_of_singleton. reflexivity.
Qed.

Lemma first_seen_elem (l : list string) (y : string) : y ∈ first_seen l <-> y ∈ l.
Proof.
  induction l as [|x l IH] using rev_ind; [reflexivity|].
  rewrite first_seen_snoc, add_new_elem, IH, elem_of_app, list_elem_of_singleton.
  reflexivity.
Qed.

Lemma dense_index_empty : dense_index ∅ [].
Proof.
  intros name i. rewrite lookup_empty. split; [discriminate|].
  intros (k & _ & Hk). discriminate Hk.
Qed.

Lemma dense_index_None (ids : gmap string Z) (names : list string) (x : string) :
  dense_index ids names -> (ids !! x = None <-> x ∉ names).
Proof.
  intros Hd. split.
  - intros Hnone Hin. apply list_elem_of_lookup in Hin as [k Hk].
    assert (ids !! x = Some (Z.of_nat k)) as Hsome by (apply Hd; eauto).
    congruence.
  - intros Hnot. destruct (ids !! x) as [i|] eqn:E; [|reflexivity].
    apply Hd in E as (k & _ & Hk). exfalso. apply Hnot.
    apply list_elem_of_lookup. eauto.
Qed.

Lemma dense_index_snoc (ids : gmap string Z) (names : list string) (x : string) :
  dense_index ids names -> x ∉ names ->
  dense_index (<[x := Z.of_nat (length names)]> ids) (names ++ [x]).
Proof.
  intros Hd Hx name i. split.
  - intros Hlook. destruct (decide (x = name)) as [->|Hne].
    + rewrite lookup_insert_eq in Hlook. injection Hlook as <-.
      exists (length names). split; [reflexivity|]. apply list_lookup_middle. reflexivity.
    + rewrite lookup_insert_ne in Hlook by exact Hne.
      apply Hd in Hlook as (k & -> & Hk). exists k. split; [reflexivity|].
      apply lookup_app_l_Some, Hk.
  - intros (k & -> & Hk).
    destruct (lookup_app_Some names [x] k name) as [Hcases _].
    destruct (Hcases Hk) as [Hleft|[Hlen Hright]].
    + assert (name ∈ names) by (apply list_elem_of_lookup; eauto).
      rewrite lookup_insert_ne by (intros ->; contradiction).
      apply Hd. eauto.
    + destruct (k - length names)%nat as [|k'] eqn:Ek; [|destruct k'; discriminate].
      injection Hright as <-.
      replace k with (length names) by lia. apply lookup_insert_eq.
Qed.

(** One more name seen: the table and the list grow together. *)
Lemma dense_index_add (ids : gmap string Z) (names : list string) (x : string) :
  dense_index ids names ->
  dense_index
    (match ids !! x with
     | None => <[x := Z.of_nat (length names)]> ids
     | Some _ => ids
     end) (add_new names x)
  /\ (match ids !! x with None => length names + 1 | Some _ => length names end)%nat
     = length (add_new names x).
Proof.
  intros Hd. unfold add_new.
  destruct (ids !! x) as [i|] eqn:E.
  - assert (x ∈ names) as Hin.
    { apply Hd in E as (k & _ & Hk). apply list_elem_of_lookup. eauto. }
    rewrite decide_True by exact Hin. split; [exact Hd | reflexivity].
  - assert (x ∉ names) as Hnot by (apply (dense_index_None ids names x Hd), E).
    rewrite decide_False by exact Hnot. split.
    + apply dense_index_snoc; assumption.
    + rewrite length_app. reflexivity.
Qed.

Lemma first_seen_two (l : list string) (x y : string) :
  first_seen (l ++ [x; y]) = add_new (add_new (first_seen l) x) y.
Proof. unfold first_seen. rewrite foldl_app. reflexivity. Qed.

(** One lookup-or-insert of the loop, on a table that numbers [names]. *)
Lemma table_step (ids : gmap string Z) (names : list string) (n : Z)
    (x : string) :
  dense_index ids names -> n = Z.of_nat (length names) ->
  match ids !! x with
  | None => dense_index (<[x := n]> ids) (names ++ [x])
            /\ n + 1 = Z.of_nat (length (names ++ [x]))
            /\ add_new names x = names ++ [x]
  | Some _ => add_new names x = names
  end.
Proof.
  intros Hd ->. unfold add_new.
  destruct (ids !! x) as [i|] eqn:E.
  - apply decide_True. apply Hd in E as (k & _ & Hk).
    apply list_elem_of_lookup. eauto.
  - assert (x ∉ names) as Hnot by (apply (dense_index_None ids names x Hd), E).
    split; [apply dense_index_snoc; assumption|].
    split; [rewrite length_app; cbn; lia|].
    apply decide_False, Hnot.
Qed.

(** One turn of the loop keeps the tables in step with the triplets seen. *)
Lemma index_triplet_step (done : list cir_triplet) (acc : indexed)
    (t : cir_triplet) :
  indexed_after done acc -> indexed_after (done ++ [t]) (index_triplet acc t).
Proof.
  intros (Hnames & Hd & Hid & Hdt & Htid).
  unfold indexed_after.
  rewrite flat_map_app, map_app. cbn [flat_map map app].
  rewrite first_seen_two, first_seen_snoc, <- Hnames.
  unfold index_triplet.
  pose proof (table_step _ _ _ (target_name t) Hdt Htid) as Ht.
  pose proof (table_step _ _ _ (reference_name t) Hd Hid) as Hr.
  destruct (ix_targetname2id acc !! target_name t) eqn:Et;
    destruct (ix_imagename2id acc !! reference_name t) eqn:Er;
    cbn beta iota zeta.
  - pose proof (table_step _ _ _ (target_name t) Hd Hid) as Hg.
    destruct (ix_imagename2id acc !! target_name t) eqn:Eg; cbn beta iota zeta;
      cbn [ix_imagenames ix_imagename2id ix_image_id ix_targetname2id ix_target_id];
      rewrite Ht, Hr.
    + rewrite Hg. split; [reflexivity|]. split; [exact Hd|]. split; [exact Hid|].
      split; [exact Hdt | exact Htid].
    + destruct Hg as (Hd2 & Hid2 & ->).
      split; [reflexivity|]. split; [exact Hd2|]. split; [exact Hid2|].
      split; [exact Hdt | exact Htid].
  - destruct Hr as (Hd1 & Hid1 & Hn1).
    pose proof (table_step _ _ _ (target_name t) Hd1 Hid1) as Hg.
    destruct (<[reference_name t := ix_image_id acc]> (ix_imagename2id acc)
                !! target_name t) eqn:Eg; cbn beta iota zeta;
      cbn [ix_imagenames ix_imagename2id ix_image_id ix_targetname2id ix_target_id];
      rewrite Ht, Hn1.
    + rewrite Hg. split; [reflexivity|]. split; [exact Hd1|].
      split; [exact Hid1|]. split; [exact Hdt | exact Htid].
    + destruct Hg as (Hd2 & Hid2 & ->).
      split; [reflexivity|]. split; [exact Hd2|]. split; [exact Hid2|].
      split; [exact Hdt | exact Htid].
  - destruct Ht as (Hdt1 & Htid1 & Htn1).
    pose proof (table_step _ _ _ (target_name t) Hd Hid) as Hg.
    destruct (ix_imagename2id acc !! target_name t) eqn:Eg; cbn beta iota zeta;
      cbn [ix_imagenames ix_imagename2id ix_image_id ix_targetname2id ix_target_id];
      rewrite Htn1, Hr.
    + rewrite Hg. split; [reflexivity|]. split; [exact Hd|]. split; [exact Hid|].
      split; [exact Hdt1 | exact Htid1].
    + destruct Hg as (Hd2 & Hid2 & ->).
      split; [reflexivity|]. split; [exact Hd2|]. split; [exact Hid2|].
      split; [exact Hdt1 | exact Htid1].
  - destruct Ht as (Hdt1 & Htid1 & Htn1).
    destruct Hr as (Hd1 & Hid1 & Hn1).
    pose proof (table_step _ _ _ (target_name t) Hd1 Hid1) as Hg.
    destruct (<[reference_name t := ix_image_id acc]> (ix_imagename2id acc)
                !! target_name t) eqn:Eg; cbn beta iota zeta;
      cbn [ix_imagenames ix_imagename2id ix_image_id ix_targetname2id ix_target_id];
      rewrite Htn1, Hn1.
    + rewrite Hg. split; [reflexivity|]. split; [exact Hd1|].
      split; [exact Hid1|]. split; [exact Hdt1 | exact Htid1].
    + destruct Hg as (Hd2 & Hid2 & ->).
      split; [reflexivity|]. split; [exact Hd2|]. split; [exact Hid2|].
      split; [exact Hdt1 | exact Htid1].
Qed.

Lemma index_triplets_fold (l done : list cir_triplet) (acc : indexed) :
  indexed_after done acc -> indexed_after (done ++ l) (foldl index_triplet acc l).
Proof.
  revert done acc. induction l as [|t l IH]; intros done acc Hacc.
  - rewrite app_nil_r. exact Hacc.
  - cbn [foldl]. replace (done ++ t :: l) with ((done ++ [t]) ++ l)
      by (rewrite <- app_assoc; reflexivity).
    apply IH, index_triplet_step, Hacc.
Qed.

End TableFacts.

Section MonadInversion.

Lemma bind_ok_inv {A B : Type} (m : py A) (f : A -> py B) (st st' : interp) (b : B) :
  (m ≫= f) st = (Ok b, st') ->
  exists a st1, m st = (Ok a, st1) /\ f a st1 = (Ok b, st').
Proof.
  rewrite bind_py. destruct (m st) as [[a|e] st1]; [|discriminate].
  intros H. exists a, st1. split; [reflexivity | exact H].
Qed.

Lemma mapM_py_length {A B : Type} (f : A -> py B) (l : list A) :
  forall (ys : list B) (st st' : interp),
    mapM f l st = (Ok ys, st') -> length ys = length l.
Proof.
  induction l as [|x l IH]; intros ys st st' H.
  - injection H as <- _. reflexivity.
  - cbn [mapM] in H.
    apply bind_ok_inv in H as (y & st1 & _ & H).
    apply bind_ok_inv in H as (k & st2 & Hk & H).
    injection H as <- _. cbn [length]. f_equal. apply (IH _ _ _ Hk).
Qed.

End MonadInversion.

(** The tables of the train split: after [CIRDataset(..., split='train', ...)] has returned, and when
    no [optimized_images.json] is present, the identifier tables agree with
    the triplets: [imagenames] lists the reference and target names of the
    triplets once each, in the order they are first seen; [imagename2id]
    maps exactly these names to their position and [image_id] is their
    number; [targetname2id] numbers the distinct target names in first-seen
    order and [target_id] is their number; there is one image path per image
    name. *)
Lemma train_tables_invariant (w : Datasets.world) (data_name mode : string)
    (preprocess : Transforms.image -> result Datasets.tensor) (data_path : string)
    (dress_types : option (list string)) (val_ret_train : bool) (fiq_val_type : Z)
    (plus llmcap : bool) (st st' : interp) (self : Datasets.CIRDataset) :
  Datasets.CIRDataset_init w data_name "train" mode preprocess data_path dress_types
    val_ret_train fiq_val_type plus llmcap st = (Ok self, st') ->
  Datasets.optimized_files w (os_path_join data_path "optimized_images.json") = None ->
  Datasets.imagenames self
    = Tables.first_seen
        (flat_map (fun t => [Datasets.reference_name t; Datasets.target_name t])
           (Datasets.triplets self))
  /\ Tables.dense_index (Datasets.imagename2id self) (Datasets.imagenames self)
  /\ Datasets.image_id self = Some (Z.of_nat (length (Datasets.imagenames self)))
  /\ Tables.dense_index (Datasets.targetname2id self)
       (Tables.first_seen (map Datasets.target_name (Datasets.triplets self)))
  /\ Datasets.target_id self
     = Some (Z.of_nat (length (Tables.first_seen
                                 (map Datasets.target_name (Datasets.triplets self)))))
  /\ length (Datasets.imagepaths self) = length (Datasets.imagenames self).
Proof.
  intros Hinit Hopt.
  unfold Datasets.CIRDataset_init in Hinit.
  apply bind_ok_inv in Hinit as (dts & st1 & _ & Hinit).
  apply bind_ok_inv in Hinit as (ld & st2 & _ & Hinit).
  cbn [String.eqb Ascii.eqb Bool.eqb] in Hinit. cbn zeta in Hinit.
  apply bind_ok_inv in Hinit as ([[ix paths] ids] & st3 & Htrain & Hinit).
  apply bind_ok_inv in Htrain as (paths0 & st4 & Hmap & Htrain).
  rewrite Hopt in Htrain.
  apply bind_ok_inv in Htrain as (u1 & st5 & _ & Htrain).
  apply bind_ok_inv in Htrain as (u2 & st6 & _ & Htrain).
  injection Htrain as <- <- <- _.
  apply bind_ok_inv in Hinit as (u3 & st7 & _ & Hinit).
  injection Hinit as <- _.
  cbn [Datasets.imagenames Datasets.imagename2id Datasets.image_id
       Datasets.targetname2id Datasets.target_id Datasets.imagepaths
       Datasets.triplets fmap option_fmap option_map fst snd].
  destruct (index_triplets_fold (Datasets.ld_triplets ld) []
              {| Datasets.ix_targetname2id := ∅; Datasets.ix_target_id := 0;
                 Datasets.ix_imagename2id := ∅; Datasets.ix_image_id := 0;
                 Datasets.ix_imagenames := [] |})
    as (Hnames & Hd & Hid & Hdt & Htid).
  { split; [reflexivity|]. split; [exact dense_index_empty|].
    split; [reflexivity|]. split; [exact dense_index_empty | reflexivity]. }
  cbn [app] in *.
  split; [exact Hnames|]. split; [exact Hd|]. split; [rewrite Hid; reflexivity|].
  split; [exact Hdt|]. split; [rewrite Htid; reflexivity|].
  apply (mapM_py_length _ _ _ _ _ Hmap).
Qed.

(** X13: after [CIRDataset(..., split='train', ...)] has returned, and when
    no [optimized_images.json] is present, the identifier tables agree with
    the triplets: [imagenames] lists the reference and target names of the
    triplets once each, in the order they are first seen; [imagename2id]
    maps exactly these names to their position and [image_id] is their
    number; [targetname2id] numbers the distinct target names in first-seen
    order and [target_id] is their number; there is one image path per image
    name. *)
Theorem CIRDataset_train_tables (w : Datasets.world) (data_name mode : string)
    (preprocess : Transforms.image -> result Datasets.tensor) (data_path : string)
    (dress_types : option (list string)) (val_ret_train : bool) (fiq_val_type : Z)
    (plus llmcap : bool) (st st' : interp) (self : Datasets.CIRDataset) :
  Datasets.CIRDataset_init w data_name "train" mode preprocess data_path dress_types
    val_ret_train fiq_val_type plus llmcap st = (Ok self, st') ->
  Datasets.optimized_files w (os_path_join data_path "optimized_images.json") = None ->
  Datasets.imagenames self
    = Tables.first_seen
        (flat_map (fun t => [Datasets.reference_name t; Datasets.target_name t])
           (Datasets.triplets self))
  /\ Tables.dense_index (Datasets.imagename2id self) (Datasets.imagenames self)
  /\ Datasets.image_id self = Some (Z.of_nat (length (Datasets.imagenames self)))
  /\ Tables.dense_index (Datasets.targetname2id self)
       (Tables.first_seen (map Datasets.target_name (Datasets.triplets self)))
  /\ Datasets.target_id self
     = Some (Z.of_nat (length (Tables.first_seen
                                 (map Datasets.target_name (Datasets.triplets self)))))
  /\ length (Datasets.imagepaths self) = length (Datasets.imagenames self).
Proof.
  apply train_tables_invariant.
Qed.

Section CIRDatasetFacts.
Import Datasets Tables.

Lemma getitem_elem {A : Type} (l : list A) (i : Z) (x : A) :
  getitem l i = Ok x -> x ∈ l.
Proof.
  unfold getitem.
  destruct ((_ <? 0) || (_ <=? _)); [discriminate|].
  destruct (l !! _) as [y|] eqn:E; [|discriminate].
  intros [= <-]. apply list_elem_of_lookup. eauto.
Qed.

(** What the constructor stores as it was given. *)
Lemma CIRDataset_init_fields (w : world) (data_name split mode : string)
    (preprocess : Transforms.image -> result tensor) (data_path : string)
    (dress_types : option (list string)) (val_ret_train : bool) (fiq_val_type : Z)
    (plus llmcap : bool) (st st' : interp) (self : CIRDataset) :
  CIRDataset_init w data_name split mode preprocess data_path dress_types
    val_ret_train fiq_val_type plus llmcap st = (Ok self, st') ->
  Datasets.data_name self = data_name /\ Datasets.split self = split
  /\ Datasets.mode self = mode /\ Datasets.preprocess self = preprocess
  /\ Datasets.use_bank self = false /\ Datasets.val_ret_train self = val_ret_train
  /\ Datasets.fiq_val_type self = fiq_val_type.
Proof.
  intros Hinit. unfold CIRDataset_init in Hinit.
  apply bind_ok_inv in Hinit as (dts & st1 & _ & Hinit).
  apply bind_ok_inv in Hinit as (ld & st2 & _ & Hinit).
  cbn zeta in Hinit.
  apply bind_ok_inv in Hinit as ([[ix paths] ids] & st3 & _ & Hinit).
  apply bind_ok_inv in Hinit as (u & st4 & _ & Hinit).
  injection Hinit as <- _. repeat split.
Qed.

Lemma dense_index_getkey (ids : gmap string Z) (names : list string) (x : string) :
  dense_index ids names -> x ∈ names ->
  exists k : nat, names !! k = Some x /\ getkey ids x = Ok (Z.of_nat k).
Proof.
  intros Hd Hx. apply list_elem_of_lookup in Hx as [k Hk].
  exists k. split; [exact Hk|]. unfold getkey.
  replace (ids !! x) with (Some (Z.of_nat k)); [reflexivity|].
  symmetry. apply Hd. eauto.
Qed.

End CIRDatasetFacts.

(** X14: on a [CIRDataset] built for the train split in relative mode (no
    [optimized_images.json]), fetching any triplet never fails on the
    identifier tables: the three lookups succeed, and the indices put in the
    returned tuple are the positions of the triplet's target and reference
    names in the first-seen lists.  What is left of [__getitem__] is the
    caption choice and the loading of the two images. *)
Theorem CIRDataset_train_getitem_ids (w : Datasets.world) (data_name : string)
    (preprocess : Transforms.image -> result Datasets.tensor) (data_path : string)
    (dress_types : option (list string)) (val_ret_train : bool) (fiq_val_type : Z)
    (plus llmcap : bool) (st st' : interp) (self : Datasets.CIRDataset)
    (index : Z) (triplet : Datasets.cir_triplet) :
  Datasets.CIRDataset_init w data_name "train" "relative" preprocess data_path
    dress_types val_ret_train fiq_val_type plus llmcap st = (Ok self, st') ->
  Datasets.optimized_files w (os_path_join data_path "optimized_images.json") = None ->
  getitem (Datasets.triplets self) index = Ok triplet ->
  exists target_k reference_k target_all_k : nat,
    Tables.first_seen (map Datasets.target_name (Datasets.triplets self)) !! target_k
      = Some (Datasets.target_name triplet)
    /\ Datasets.imagenames self !! reference_k = Some (Datasets.reference_name triplet)
    /\ Datasets.imagenames self !! target_all_k = Some (Datasets.target_name triplet)
    /\ forall (w' : Datasets.world) (st2 : interp),
         Datasets.CIRDataset_getitem w' self index st2
         = (caption ← Datasets.train_caption self index (Datasets.captions triplet);
            reference_image ← Datasets.load_image w' preprocess (Datasets.reference triplet);
            target_image ← Datasets.load_image w' preprocess (Datasets.target triplet);
            mret (Datasets.VTuple
                    [Datasets.VTensor reference_image; Datasets.VStr caption;
                     Datasets.VTensor target_image; Datasets.VInt index;
                     Datasets.VInt (Z.of_nat target_k);
                     Datasets.VInt (Z.of_nat reference_k);
                     Datasets.VInt (Z.of_nat target_all_k)])) st2.
Proof.
  intros Hinit Hopt Htriplet.
  destruct (train_tables_invariant _ _ _ _ _ _ _ _ _ _ _ _ _ Hinit Hopt)
    as (Hnames & Hd & _ & Hdt & _ & _).
  destruct (CIRDataset_init_fields _ _ _ _ _ _ _ _ _ _ _ _ _ _ Hinit)
    as (_ & Hsplit & Hmode & Hpre & Hbank & _ & _).
  pose proof (getitem_elem _ _ _ Htriplet) as Hin.
  destruct (dense_index_getkey _ _ (Datasets.target_name triplet) Hdt) as (kt & Hkt & Hgt).
  { apply first_seen_elem, list_elem_of_fmap. eauto. }
  destruct (dense_index_getkey _ _ (Datasets.reference_name triplet) Hd) as (kr & Hkr & Hgr).
  { rewrite Hnames. apply first_seen_elem, list_elem_of_In, in_flat_map.
    exists triplet. split; [apply list_elem_of_In, Hin | left; reflexivity]. }
  destruct (dense_index_getkey _ _ (Datasets.target_name triplet) Hd) as (ka & Hka & Hga).
  { rewrite Hnames. apply first_seen_elem, list_elem_of_In, in_flat_map.
    exists triplet. split; [apply list_elem_of_In, Hin | right; left; reflexivity]. }
  exists kt, kr, ka. split; [exact Hkt|]. split; [exact Hkr|]. split; [exact Hka|].
  intros w' st2. unfold Datasets.CIRDataset_getitem.
  rewrite Hmode. cbn [String.eqb Ascii.eqb Bool.eqb].
  rewrite Htriplet, bind_lift_ok. cbn zeta.
  rewrite Hsplit. cbn [String.eqb Ascii.eqb Bool.eqb].
  rewrite Hgt, bind_lift_ok, Hgr, bind_lift_ok, Hga, bind_lift_ok.
  rewrite !(bind_py (Datasets.train_caption self index (Datasets.captions triplet))).
  destruct (Datasets.train_caption self index (Datasets.captions triplet) st2)
    as [[caption|e] st3]; [|reflexivity].
  rewrite Hbank, Hpre. reflexivity.
Qed.

(** X15: when [optimized_images.json] is present, the train-split
    constructor takes the image names, the image paths and the name-to-id
    table from it as they are, sets [image_id] to the number of names, and
    keeps the target table it computed from the triplets. *)
Theorem CIRDataset_train_snapshot (w : Datasets.world) (data_name mode : string)
    (preprocess : Transforms.image -> result Datasets.tensor) (data_path : string)
    (dress_types : option (list string)) (val_ret_train : bool) (fiq_val_type : Z)
    (plus llmcap : bool) (st st' : interp) (self : Datasets.CIRDataset)
    (names paths : list string) (name2id : gmap string Z) :
  Datasets.CIRDataset_init w data_name "train" mode preprocess data_path dress_types
    val_ret_train fiq_val_type plus llmcap st = (Ok self, st') ->
  Datasets.optimized_files w (os_path_join data_path "optimized_images.json")
    = Some (names, paths, name2id) ->
  Datasets.imagenames self = names
  /\ Datasets.imagepaths self = paths
  /\ Datasets.imagename2id self = name2id
  /\ Datasets.image_id self = Some (Z.of_nat (length names))
  /\ Tables.dense_index (Datasets.targetname2id self)
       (Tables.first_seen (map Datasets.target_name (Datasets.triplets self)))
  /\ Datasets.target_id self
     = Some (Z.of_nat (length (Tables.first_seen
                                 (map Datasets.target_name (Datasets.triplets self))))).
Proof.
  intros Hinit Hopt.
  unfold Datasets.CIRDataset_init in Hinit.
  apply bind_ok_inv in Hinit as (dts & st1 & _ & Hinit).
  apply bind_ok_inv in Hinit as (ld & st2 & _ & Hinit).
  cbn [String.eqb Ascii.eqb Bool.eqb] in Hinit. cbn zeta in Hinit.
  apply bind_ok_inv in Hinit as ([[ix paths1] ids] & st3 & Htrain & Hinit).
  apply bind_ok_inv in Htrain as (paths0 & st4 & Hmap & Htrain).
  rewrite Hopt in Htrain.
  apply bind_ok_inv in Htrain as (u1 & st5 & _ & Htrain).
  apply bind_ok_inv in Htrain as (u2 & st6 & _ & Htrain).
  injection Htrain as <- <- <- _.
  apply bind_ok_inv in Hinit as (u3 & st7 & _ & Hinit).
  injection Hinit as <- _.
  cbn [Datasets.imagenames Datasets.imagename2id Datasets.image_id
       Datasets.targetname2id Datasets.target_id Datasets.imagepaths
       Datasets.triplets fmap option_fmap option_map fst snd
       Datasets.ix_imagenames Datasets.ix_imagename2id Datasets.ix_image_id
       Datasets.ix_targetname2id Datasets.ix_target_id].
  destruct (index_triplets_fold (Datasets.ld_triplets ld) []
              {| Datasets.ix_targetname2id := ∅; Datasets.ix_target_id := 0;
                 Datasets.ix_imagename2id := ∅; Datasets.ix_image_id := 0;
                 Datasets.ix_imagenames := [] |})
    as (_ & _ & _ & Hdt & Htid).
  { split; [reflexivity|]. split; [exact dense_index_empty|].
    split; [reflexivity|]. split; [exact dense_index_empty | reflexivity]. }
  cbn [app] in *.
  repeat (split; [reflexivity|]).
  split; [exact Hdt | rewrite Htid; reflexivity].
Qed.

(** X16: which captions of a train item are composed.  With two captions
    or more, [CIRDataset.__getitem__] composes them with
    [generate_randomized_fiq_caption] exactly when the data name is 'fiq'
    and [index < N], the test being made on the index as it is passed (a
    negative index passes it, whatever triplet it addresses); for any other
    data name, and for a FashionIQ index from [N] on, it returns one of the
    captions unchanged, and prints nothing. *)
Theorem train_caption_verbatim (self : Datasets.CIRDataset) (index : Z)
    (captions : list string) (st : interp) :
  (2 <= length captions)%nat ->
  (forall n, Datasets.data_name self = "fiq" -> Datasets.N self = Some n ->
     index < n ->
     Datasets.train_caption self index captions st
     = Caption.generate_randomized_fiq_caption captions (-1) st)
  /\ (Datasets.data_name self <> "fiq"
      \/ (exists n, Datasets.N self = Some n /\ n <= index) ->
      exists caption st',
        Datasets.train_caption self index captions st = (Ok caption, st')
        /\ caption ∈ captions
        /\ stdout st' = stdout st).
Proof.
  intros Hlen.
  destruct captions as [|A [|B rest]]; cbn in Hlen; try lia.
  split.
  - intros n Hname HN Hn.
    unfold Datasets.train_caption. rewrite long_enough, bind_py.
    rewrite Hname, HN. cbn [String.eqb Ascii.eqb Bool.eqb getattr].
    rewrite bind_lift_ok.
    replace (index <? n) with true by (symmetry; apply Z.ltb_lt; exact Hn).
    reflexivity.
  - intros Hcase.
    assert (Hchoice : exists caption st',
               random_choice (A :: B :: rest) st = (Ok caption, st')
               /\ caption ∈ A :: B :: rest /\ stdout st' = stdout st).
    { destruct (random_choice_returns A (B :: rest) st) as [c Hc].
      exists c, (advance st). split; [exact Hc|]. split; [|reflexivity].
      unfold random_choice in Hc. injection Hc as Hc.
      apply (getitem_elem _ _ _ Hc). }
    unfold Datasets.train_caption. rewrite long_enough, bind_py.
    destruct Hcase as [Hname|(n & HN & Hn)].
    + apply String.eqb_neq in Hname. rewrite Hname. exact Hchoice.
    + destruct (String.eqb (Datasets.data_name self) "fiq"); [|exact Hchoice].
      rewrite HN. cbn [getattr]. rewrite bind_lift_ok.
      replace (index <? n) with false by (symmetry; apply Z.ltb_ge; exact Hn).
      exact Hchoice.
Qed.

(** ** Reading the manifests *)

Section ManifestFacts.
Import Datasets.

Lemma mapM_loads {A : Type} (files : string -> option A) (path : string -> string)
    (content : string -> A) (keys : list string) (st : interp) :
  (forall key, key ∈ keys -> files (path key) = Some (content key)) ->
  mapM (fun key => lift (json_load files (path key))) keys st
  = (Ok (map content keys), st).
Proof.
  induction keys as [|key keys IH]; intros Hall; [reflexivity|].
  cbn [mapM map]. rewrite bind_py. unfold lift at 1, json_load at 1.
  rewrite (Hall key) by apply list_elem_of_here.
  rewrite bind_py, IH; [reflexivity|].
  intros k Hk. apply Hall, list_elem_of_further, Hk.
Qed.

Lemma mapM_loads_missing {A : Type} (files : string -> option A)
    (path : string -> string) (before after : list string) (missing : string)
    (st : interp) :
  (forall key, key ∈ before -> is_Some (files (path key))) ->
  files (path missing) = None ->
  mapM (fun key => lift (json_load files (path key))) (before ++ missing :: after) st
  = (Raise (FileNotFoundError (path missing)), st).
Proof.
  intros Hbefore Hmissing.
  induction before as [|key before IH]; cbn [app mapM]; rewrite bind_py.
  - unfold lift at 1, json_load at 1. rewrite Hmissing. reflexivity.
  - unfold lift at 1, json_load at 1.
    destruct (Hbefore key (list_elem_of_here _ _)) as [a ->].
    rewrite bind_py, IH; [reflexivity|].
    intros k Hk. apply Hbefore, list_elem_of_further, Hk.
Qed.

Lemma dress_type_loop_passes (dress_types : list string) (st : interp) :
  Forall (fun dress_type => dress_type ∈ ["dress"; "shirt"; "toptee"]) dress_types ->
  exists units,
    mapM (fun dress_type =>
            if negb (in_list dress_type ["dress"; "shirt"; "toptee"]) then
              raise (ValueError "dress_type should be in ['dress', 'shirt', 'toptee']")
            else mret tt) dress_types st
    = (Ok units, st).
Proof.
  induction 1 as [|d ds Hd _ [units IH]].
  - exists []. reflexivity.
  - exists (tt :: units). cbn [mapM]. rewrite bind_py.
    rewrite (in_list_true _ _ Hd). cbn [negb].
    change ((mret tt : py unit) st) with (Ok tt, st). cbn beta iota.
    rewrite bind_py, IH. reflexivity.
Qed.

Lemma lookup_item_at {V : Type} (d : list (string * V)) (k : nat) (key : string)
    (v : V) :
  NoDup (fst <$> d) -> d !! k = Some (key, v) -> lookup_item d key = Ok v.
Proof.
  revert k. induction d as [|[key0 v0] d IH]; intros k Hnodup Hk; [discriminate|].
  cbn [fmap list_fmap fst] in Hnodup. apply NoDup_cons in Hnodup as [Hfresh Hnodup].
  cbn [lookup_item]. destruct k as [|k].
  - injection Hk as -> ->. rewrite String.eqb_refl. reflexivity.
  - cbn in Hk. destruct (String.eqb_spec key0 key) as [->|_].
    + exfalso. apply Hfresh. apply list_elem_of_fmap. exists (key, v).
      split; [reflexivity|]. apply list_elem_of_lookup. eauto.
    + apply (IH k Hnodup Hk).
Qed.

End ManifestFacts.

(** X17: with a valid mode, split and dress types, and when the caption and
    the image-split manifest of every dress type are on the disk,
    [FashionIQDataset.__init__] returns an object whose triplets and image
    names are the contents of the manifests put end to end in the order of
    [dress_types], and prints one line. *)
Theorem FashionIQDataset_init_loads (w : Datasets.world) (split : string)
    (dress_types : list string) (mode : string)
    (preprocess : Transforms.image -> result Datasets.tensor)
    (caps : string -> list Datasets.fiq_triplet) (names : string -> list string)
    (st : interp) :
  mode ∈ ["relative"; "classic"] -> split ∈ ["test"; "train"; "val"] ->
  Forall (fun dress_type => dress_type ∈ ["dress"; "shirt"; "toptee"]) dress_types ->
  (forall dress_type, dress_type ∈ dress_types ->
     Datasets.fiq_caption_files w
       (os_path_join (os_path_join (os_path_join (Datasets.base_path w)
          "fashionIQ_dataset") "captions")
          ("cap." +:+ dress_type +:+ "." +:+ split +:+ ".json"))
     = Some (caps dress_type)) ->
  (forall dress_type, dress_type ∈ dress_types ->
     Datasets.split_files w
       (os_path_join (os_path_join (os_path_join (Datasets.base_path w)
          "fashionIQ_dataset") "image_splits")
          ("split." +:+ dress_type +:+ "." +:+ split +:+ ".json"))
     = Some (names dress_type)) ->
  Datasets.FashionIQDataset_init w split dress_types mode preprocess st
  = (Ok {| Datasets.fq_mode := mode; Datasets.fq_dress_types := dress_types;
           Datasets.fq_split := split; Datasets.fq_preprocess := preprocess;
           Datasets.fq_triplets := concat (map caps dress_types);
           Datasets.fq_image_names := concat (map names dress_types) |},
     Interp (stdout st ++ ["FashionIQ " +:+ split +:+ " - " +:+ repr_list dress_types
                           +:+ " dataset in " +:+ mode +:+ " mode initialized"])
       (rng st) (rng_pos st)).
Proof.
  intros Hmode Hsplit Htypes Hcaps Hnames.
  unfold Datasets.FashionIQDataset_init.
  rewrite (in_list_true _ _ Hmode), (in_list_true _ _ Hsplit). cbn [negb].
  destruct (dress_type_loop_passes dress_types st Htypes) as [units Hloop].
  rewrite bind_py, Hloop.
  rewrite bind_py, (mapM_loads _ _ caps _ _ Hcaps).
  rewrite bind_py, (mapM_loads _ _ names _ _ Hnames).
  reflexivity.
Qed.

(** X18: a missing manifest fails the constructor with [FileNotFoundError]
    for that file, before anything is printed: in [FashionIQDataset] for the
    first dress type whose caption manifest is absent, in [CIRRDataset] for
    the caption manifest of the split, in [WikiartDataset] for
    [landscape.json]. *)
Theorem missing_manifest_fails_construction :
  (forall (w : Datasets.world) (split : string) (before after : list string)
      (missing mode : string) (preprocess : Transforms.image -> result Datasets.tensor)
      (st : interp),
     mode ∈ ["relative"; "classic"] -> split ∈ ["test"; "train"; "val"] ->
     Forall (fun dress_type => dress_type ∈ ["dress"; "shirt"; "toptee"])
       (before ++ missing :: after) ->
     (forall dress_type, dress_type ∈ before ->
        is_Some (Datasets.fiq_caption_files w
          (os_path_join (os_path_join (os_path_join (Datasets.base_path w)
             "fashionIQ_dataset") "captions")
             ("cap." +:+ dress_type +:+ "." +:+ split +:+ ".json")))) ->
     Datasets.fiq_caption_files w
       (os_path_join (os_path_join (os_path_join (Datasets.base_path w)
          "fashionIQ_dataset") "captions")
          ("cap." +:+ missing +:+ "." +:+ split +:+ ".json")) = None ->
     Datasets.FashionIQDataset_init w split (before ++ missing :: after) mode preprocess st
     = (Raise (FileNotFoundError
                 (os_path_join (os_path_join (os_path_join (Datasets.base_path w)
                    "fashionIQ_dataset") "captions")
                    ("cap." +:+ missing +:+ "." +:+ split +:+ ".json"))), st))
  /\ (forall (w : Datasets.world) (split mode : string)
      (preprocess : Transforms.image -> result Datasets.tensor) (st : interp),
     split ∈ ["test1"; "train"; "val"] -> mode ∈ ["relative"; "classic"] ->
     Datasets.cirr_caption_files w
       (os_path_join (os_path_join (os_path_join (os_path_join (Datasets.base_path w)
          "cirr_dataset") "cirr") "captions") ("cap.rc2." +:+ split +:+ ".json")) = None ->
     Datasets.CIRRDataset_init w split mode preprocess st
     = (Raise (FileNotFoundError
                 (os_path_join (os_path_join (os_path_join (os_path_join
                    (Datasets.base_path w) "cirr_dataset") "cirr") "captions")
                    ("cap.rc2." +:+ split +:+ ".json"))), st))
  /\ (forall (w : Datasets.world) (base_path : string)
      (preprocess : Transforms.image -> result Datasets.tensor) (st : interp),
     Datasets.wikiart_files w (os_path_join base_path "landscape.json") = None ->
     Datasets.WikiartDataset_init w base_path preprocess st
     = (Raise (FileNotFoundError (os_path_join base_path "landscape.json")), st)).
Proof.
  split; [|split].
  - intros w split before after missing mode preprocess st Hmode Hsplit Htypes
      Hbefore Hmissing.
    unfold Datasets.FashionIQDataset_init.
    rewrite (in_list_true _ _ Hmode), (in_list_true _ _ Hsplit). cbn [negb].
    destruct (dress_type_loop_passes _ st Htypes) as [units Hloop].
    rewrite bind_py, Hloop.
    rewrite bind_py.
    rewrite (mapM_loads_missing (Datasets.fiq_caption_files w)
               (fun dress_type =>
                  os_path_join (os_path_join (os_path_join (Datasets.base_path w)
                    "fashionIQ_dataset") "captions")
                    ("cap." +:+ dress_type +:+ "." +:+ split +:+ ".json"))
               before after missing st Hbefore Hmissing).
    reflexivity.
  - intros w split mode preprocess st Hsplit Hmode Hmissing.
    unfold Datasets.CIRRDataset_init.
    rewrite (in_list_true _ _ Hsplit), (in_list_true _ _ Hmode). cbn [negb].
    rewrite bind_py. unfold lift at 1, Datasets.json_load at 1.
    rewrite Hmissing. reflexivity.
  - intros w base_path preprocess st Hmissing.
    unfold Datasets.WikiartDataset_init.
    rewrite bind_py. unfold lift at 1, Datasets.json_load at 1.
    rewrite Hmissing. reflexivity.
Qed.

(** X19: in classic mode [CIRRDataset] and [CIRDataset] (data name 'cirr')
    take the name at position [index] of the name-to-path table and look its
    path up again; with distinct names this is the path stored at that very
    position, so item [index] is the name and the image of entry [index]. *)
Theorem cirr_classic_entry :
  (forall (w : Datasets.world) (self : Datasets.CIRRDataset) (k : nat)
      (name relpath : string) (st : interp),
     Datasets.cr_mode self = "classic" ->
     NoDup (fst <$> Datasets.cr_name_to_relpath self) ->
     Datasets.cr_name_to_relpath self !! k = Some (name, relpath) ->
     Datasets.CIRRDataset_getitem w self (Z.of_nat k) st
     = try_except
         (image ← Datasets.load_image w (Datasets.cr_preprocess self)
                    (Datasets.cirr_image_file w relpath);
          mret (Datasets.VTuple [Datasets.VStr name; Datasets.VTensor image]))
         Datasets.swallow st)
  /\ (forall (w : Datasets.world) (self : Datasets.CIRDataset) (k : nat)
      (table : list (string * string)) (name relpath : string) (st : interp),
     Datasets.mode self = "classic" -> Datasets.data_name self = "cirr" ->
     Datasets.name_to_relpath self = Some table ->
     NoDup (fst <$> table) ->
     table !! k = Some (name, relpath) ->
     Datasets.CIRDataset_getitem w self (Z.of_nat k) st
     = (image ← Datasets.load_image w (Datasets.preprocess self)
                  (Datasets.cirr_image_file w relpath);
        mret (Datasets.VTuple [Datasets.VStr name; Datasets.VTensor image])) st).
Proof.
  split.
  - intros w self k name relpath st Hmode Hnodup Hk.
    unfold Datasets.CIRRDataset_getitem, Datasets.CIRRDataset_getitem_body.
    rewrite Hmode. cbn [String.eqb Ascii.eqb Bool.eqb].
    rewrite (getitem_lookup (fst <$> Datasets.cr_name_to_relpath self) k name)
      by (rewrite list_lookup_fmap, Hk; reflexivity).
    unfold try_except. rewrite bind_lift_ok.
    rewrite (lookup_item_at _ k name relpath Hnodup Hk), bind_lift_ok.
    reflexivity.
  - intros w self k table name relpath st Hmode Hname Htable Hnodup Hk.
    unfold Datasets.CIRDataset_getitem.
    rewrite Hmode, Hname, Htable. cbn [String.eqb Ascii.eqb Bool.eqb getattr].
    rewrite bind_lift_ok.
    rewrite (getitem_lookup (fst <$> table) k name)
      by (rewrite list_lookup_fmap, Hk; reflexivity).
    rewrite bind_lift_ok, (lookup_item_at _ k name relpath Hnodup Hk), bind_lift_ok.
    reflexivity.
Qed.
(** ** More on the ranker *)

Section RankExtras.
Import Datasets Inference.

Variable F_normalize : list Q -> list Q.
Variable matmul : list (list Q) -> list (list Q) -> nat -> nat -> Q.
Variable argsort : list Q -> list Z.
Hypothesis argsort_sorts : sorts argsort.

(** The value of a distance row at a gallery position. *)
Lemma value_at_distance (queries gallery : list (list Q)) (i j : nat) :
  (j < length gallery)%nat ->
  value_at (distances F_normalize matmul queries gallery i) (Z.of_nat j)
  = distance F_normalize matmul queries gallery i j.
Proof.
  intros Hj. unfold value_at, distances. rewrite Nat2Z.id.
  apply nth_lookup_Some. rewrite list_lookup_fmap, lookup_seq_lt by exact Hj.
  reflexivity.
Qed.

Lemma getitem_only_IndexError {A : Type} (l : list A) (i : Z) (e : exn) :
  getitem l i = Raise e -> e = IndexError.
Proof.
  unfold getitem.
  destruct ((_ <? 0) || (_ <=? _)); [intros [= <-]; reflexivity|].
  destruct (l !! _); [discriminate | intros [= <-]; reflexivity].
Qed.

(** Reading names at a list of indices of which one is beyond the names. *)
Lemma names_missing (index_names : list string) (indices : list Z) (i : Z) :
  i ∈ indices -> Z.of_nat (length index_names) <= i ->
  mapM (getitem index_names) indices = Raise IndexError.
Proof.
  intros Hin Hi. induction indices as [|j indices IH]; [inversion Hin|].
  cbn [mapM]. destruct (getitem index_names j) as [name|e] eqn:Ej.
  - cbn [mbind result_bind].
    apply elem_of_cons in Hin as [->|Hin].
    + rewrite (getitem_beyond _ _ Hi) in Ej. discriminate Ej.
    + rewrite (IH Hin). reflexivity.
  - rewrite (getitem_only_IndexError _ _ _ Ej). reflexivity.
Qed.

Lemma mapM_result_ext {A B : Type} (f g : A -> result B) (l : list A) :
  (forall x, x ∈ l -> f x = g x) -> mapM f l = mapM g l.
Proof.
  induction l as [|x l IH]; intros Hext; [reflexivity|].
  cbn [mapM]. rewrite (Hext x) by apply list_elem_of_here.
  rewrite IH; [reflexivity|]. intros y Hy. apply Hext, list_elem_of_further, Hy.
Qed.

Lemma getitem_take {A : Type} (l : list A) (n : nat) (i : Z) :
  0 <= i < Z.of_nat n -> (n <= length l)%nat ->
  getitem (take n l) i = getitem l i.
Proof.
  intros Hi Hn.
  destruct (lookup_lt_is_Some_2 l (Z.to_nat i)) as [x Hx]; [lia|].
  rewrite <- (Z2Nat.id i) by lia.
  rewrite (getitem_lookup l _ x Hx).
  apply getitem_lookup. rewrite lookup_take_lt by lia. exact Hx.
Qed.

(** The first name of a ranking sits at a position of minimal distance. *)
Lemma ranked_head (index_names : list string) (d : list Q) (first : string)
    (others : list string) :
  ranked index_names d (first :: others) ->
  exists position : nat,
    index_names !! position = Some first
    /\ forall j : nat, (j < length index_names)%nat ->
         (value_at d (Z.of_nat position) <= value_at d (Z.of_nat j))%Q.
Proof.
  intros (indices & Hperm & Hnames & Hsorted).
  destruct indices as [|i0 indices]; [inversion Hnames|].
  apply Forall2_cons in Hnames as [Hfirst _].
  assert (Hi0 : i0 ∈ (Z.of_nat <$> seq 0 (length index_names))).
  { rewrite <- Hperm. apply list_elem_of_here. }
  apply list_elem_of_fmap in Hi0 as (p & -> & Hp). apply elem_of_seq in Hp.
  rewrite Nat2Z.id in Hfirst.
  exists p. split; [exact Hfirst|].
  intros j Hj.
  assert (Hin : Z.of_nat j ∈ Z.of_nat p :: indices).
  { rewrite Hperm. apply list_elem_of_fmap. exists j. split; [reflexivity|].
    apply elem_of_seq. lia. }
  apply StronglySorted_inv in Hsorted as [_ Hall].
  apply elem_of_cons in Hin as [Heq|Hin].
  - rewrite Heq. apply Qle_refl.
  - apply (proj1 (Forall_forall _ _) Hall _ Hin).
Qed.

End RankExtras.

(** X20: with one name per gallery row and a query of the gallery's width,
    every ranking returned is a rearrangement of the whole name list: no
    gallery item is dropped and none is listed twice (there is no top-K cut
    and no exclusion in [get_predictions]); there is one ranking per query
    row. *)
Theorem rank_lists_every_name (F_normalize : list Q -> list Q)
    (matmul : list (list Q) -> list (list Q) -> nat -> nat -> Q)
    (argsort : list Q -> list Z)
    (predicted_features index_features : Inference.matrix)
    (index_names : list string) :
  Inference.sorts argsort ->
  Inference.ncols predicted_features = Inference.ncols index_features ->
  length index_names = length (Inference.mrows index_features) ->
  exists sorted_index_names,
    Inference.rank F_normalize matmul argsort predicted_features index_features
      index_names
    = Ok sorted_index_names
    /\ length sorted_index_names = length (Inference.mrows predicted_features)
    /\ Forall (fun row => row ≡ₚ index_names) sorted_index_names.
Proof.
  intros Hsorts Hcols Hlen.
  destruct (rank_sorted F_normalize matmul argsort Hsorts predicted_features
              index_features index_names Hcols Hlen) as (out & Hout & Hranked).
  exists out. split; [exact Hout|]. split.
  - rewrite <- (Forall2_length _ _ _ Hranked), length_map, length_seq. reflexivity.
  - apply Forall_forall. intros row Hrow.
    apply list_elem_of_lookup in Hrow as [k Hk].
    destruct (Forall2_lookup_r _ _ _ _ _ Hranked Hk) as (d & _ & Hd).
    apply (ranked_Permutation _ _ _ Hd).
Qed.

Lemma rank_lists_every_name_witness :
  exists sorted_index_names,
    Inference.rank Examples.normalize_unit Examples.matmul32
      Examples.argsort_unstable Examples.query
      Examples.gallery Examples.gallery_names = Ok sorted_index_names
    /\ length sorted_index_names = 1%nat
    /\ Forall (fun row => row ≡ₚ Examples.gallery_names) sorted_index_names.
Proof.
  apply (rank_lists_every_name Examples.normalize_unit Examples.matmul32
           Examples.argsort_unstable
           Examples.query Examples.gallery Examples.gallery_names
           argsort_unstable_sorts eq_refl eq_refl).
Defined.

(** X21: the first name of a ranking belongs to a gallery row at minimal
    distance from the query, the distance being the float32 number the code
    computes: no gallery row has a smaller one. *)
Theorem rank_head_is_nearest (F_normalize : list Q -> list Q)
    (matmul : list (list Q) -> list (list Q) -> nat -> nat -> Q)
    (argsort : list Q -> list Z)
    (predicted_features index_features : Inference.matrix)
    (index_names : list string) (sorted_index_names : list (list string))
    (k : nat) (first : string) (others : list string) :
  Inference.sorts argsort ->
  Inference.ncols predicted_features = Inference.ncols index_features ->
  length index_names = length (Inference.mrows index_features) ->
  Inference.rank F_normalize matmul argsort predicted_features index_features
    index_names = Ok sorted_index_names ->
  sorted_index_names !! k = Some (first :: others) ->
  exists position : nat,
    index_names !! position = Some first
    /\ (position < length (Inference.mrows index_features))%nat
    /\ forall j : nat,
         (j < length (Inference.mrows index_features))%nat ->
         (Inference.distance F_normalize matmul
            (Inference.mrows predicted_features) (Inference.mrows index_features)
            k position
          <= Inference.distance F_normalize matmul
               (Inference.mrows predicted_features) (Inference.mrows index_features)
               k j)%Q.
Proof.
  intros Hsorts Hcols Hlen Hrank Hrow.
  destruct (rank_sorted F_normalize matmul argsort Hsorts predicted_features
              index_features index_names Hcols Hlen) as (out & Hout & Hranked).
  rewrite Hrank in Hout. injection Hout as <-.
  destruct (Forall2_lookup_r _ _ _ _ _ Hranked Hrow) as (d & Hd & Hrk).
  rewrite list_lookup_fmap in Hd.
  destruct (seq 0 (length (Inference.mrows predicted_features)) !! k) as [k'|] eqn:Ek;
    [|discriminate Hd].
  apply lookup_seq in Ek as [-> _]. cbn in Hd. injection Hd as <-.
  destruct (ranked_head _ _ _ _ Hrk) as (position & Hfirst & Hmin).
  pose proof (lookup_lt_Some _ _ _ Hfirst) as Hpos. rewrite Hlen in Hpos.
  exists position. split; [exact Hfirst|]. split; [exact Hpos|].
  intros j Hj.
  rewrite <- !(value_at_distance F_normalize matmul) by assumption.
  apply Hmin. rewrite Hlen. exact Hj.
Qed.

Lemma rank_head_is_nearest_witness :
  exists position : nat,
    Examples.gallery_names !! position = Some "a"
    /\ (position < 3)%nat
    /\ forall j : nat,
         (j < 3)%nat ->
         (Inference.distance Examples.normalize_unit Examples.matmul32
            [[7 # 8; 1 # 8]%Q] (Inference.mrows Examples.gallery) 0 position
          <= Inference.distance Examples.normalize_unit Examples.matmul32
               [[7 # 8; 1 # 8]%Q] (Inference.mrows Examples.gallery) 0 j)%Q.
Proof.
  apply (rank_head_is_nearest Examples.normalize_unit Examples.matmul32
           Examples.argsort_unstable Examples.query Examples.gallery
           Examples.gallery_names [["a"; "b"; "c"]] 0 "a" ["b"; "c"]
           argsort_unstable_sorts eq_refl eq_refl).
  - vm_compute. reflexivity.
  - reflexivity.
Defined.

(** X22: with fewer names than gallery rows, ranking any query ends in
    [IndexError]: every position of the gallery is among the sorted indices,
    so one of them is beyond the names. *)
Theorem rank_too_few_names (F_normalize : list Q -> list Q)
    (matmul : list (list Q) -> list (list Q) -> nat -> nat -> Q)
    (argsort : list Q -> list Z)
    (predicted_features index_features : Inference.matrix)
    (index_names : list string) :
  Inference.sorts argsort ->
  Inference.ncols predicted_features = Inference.ncols index_features ->
  (length index_names < length (Inference.mrows index_features))%nat ->
  Inference.mrows predicted_features <> [] ->
  Inference.rank F_normalize matmul argsort predicted_features index_features
    index_names
  = Raise IndexError.
Proof.
  intros Hsorts Hcols Hfew Hquery.
  rewrite (rank_unfold F_normalize matmul argsort _ _ _ Hcols).
  destruct (Inference.mrows predicted_features) as [|q qs] eqn:Eq; [congruence|].
  cbn [length seq map mapM].
  rewrite (names_missing index_names _ (Z.of_nat (length index_names))).
  - reflexivity.
  - destruct (Hsorts (Inference.distances F_normalize matmul (q :: qs)
                        (Inference.mrows index_features) 0)) as [Hperm _].
    rewrite Hperm. apply list_elem_of_fmap. exists (length index_names).
    split; [reflexivity|]. apply elem_of_seq.
    rewrite distances_length. lia.
  - lia.
Qed.

Lemma rank_too_few_names_witness :
  Inference.rank Examples.normalize_unit Examples.matmul32 Examples.argsort_first
    Examples.query Examples.gallery ["a"; "b"] = Raise IndexError.
Proof.
  apply (rank_too_few_names Examples.normalize_unit Examples.matmul32
           Examples.argsort_first
           Examples.query Examples.gallery ["a"; "b"] argsort_first_sorts eq_refl).
  - cbn. lia.
  - discriminate.
Defined.

(** X23: names beyond the number of gallery rows are never returned: the
    ranking is the one computed with the name list cut to the gallery's
    length. *)
Theorem rank_ignores_surplus_names (F_normalize : list Q -> list Q)
    (matmul : list (list Q) -> list (list Q) -> nat -> nat -> Q)
    (argsort : list Q -> list Z)
    (predicted_features index_features : Inference.matrix)
    (index_names : list string) :
  Inference.sorts argsort ->
  (length (Inference.mrows index_features) <= length index_names)%nat ->
  Inference.rank F_normalize matmul argsort predicted_features index_features
    index_names
  = Inference.rank F_normalize matmul argsort predicted_features index_features
      (take (length (Inference.mrows index_features)) index_names).
Proof.
  intros Hsorts Hlen.
  destruct (Nat.eqb_spec (Inference.ncols predicted_features)
              (Inference.ncols index_features)) as [Hcols|Hcols].
  - rewrite !(rank_unfold F_normalize matmul argsort _ _ _ Hcols).
    apply mapM_result_ext. intros indices Hin.
    apply list_elem_of_fmap in Hin as (q & -> & _).
    apply mapM_result_ext. intros i Hi. symmetry.
    apply getitem_take; [|exact Hlen].
    pose proof (sorts_in_range argsort Hsorts _ _ Hi) as Hrange.
    rewrite distances_length in Hrange. exact Hrange.
  - unfold Inference.rank, Inference.matmul_T. cbn [Inference.ncols Inference.mrows].
    apply Nat.eqb_neq in Hcols. rewrite Hcols. reflexivity.
Qed.

Lemma rank_ignores_surplus_names_witness :
  Inference.rank Examples.normalize_unit Examples.matmul32 Examples.argsort_first
    Examples.query Examples.gallery ["a"; "b"; "c"; "d"; "e"]
  = Inference.rank Examples.normalize_unit Examples.matmul32 Examples.argsort_first
      Examples.query Examples.gallery (take 3 ["a"; "b"; "c"; "d"; "e"]).
Proof.
  apply (rank_ignores_surplus_names Examples.normalize_unit Examples.matmul32
           Examples.argsort_first
           Examples.query Examples.gallery ["a"; "b"; "c"; "d"; "e"]
           argsort_first_sorts).
  cbn. lia.
Defined.

(** ** The index builder and the whole of [inference] *)

Section PipelineFacts.
Import Datasets Inference.

Lemma for_each_app {A S : Type} (xs ys : list A) (body : S -> A -> py S)
    (acc : S) (st : interp) :
  for_each (xs ++ ys) body acc st
  = (acc' ← for_each xs body acc; for_each ys body acc') st.
Proof.
  revert acc st. induction xs as [|x xs IH]; intros acc st; [reflexivity|].
  cbn [app for_each]. rewrite !bind_py.
  destruct (body acc x st) as [[acc1|e] st1]; [|reflexivity].
  rewrite IH, bind_py. reflexivity.
Qed.

Context {D : Type} `{Dataset D}.
Variable collate_fn : list value -> result (list string * list tensor).
Variable w : world.
Variable dataset : D.
Variable clip_model : CLIP.

Hypothesis collate_one : forall name image,
  collate_fn [VTuple [VStr name; VTensor image]] = Ok ([name], [image]).
Hypothesis encode_one : forall image,
  exists row, encode_image clip_model [image] = Matrix (output_dim clip_model) [row].

(** The build over items that all load. *)
Lemma extract_loaded (items : list (string * tensor)) (st : interp) :
  dataset_len dataset = Ok (Z.of_nat (length items)) ->
  (forall i name image st1, items !! i = Some (name, image) ->
     exists st2, dataset_getitem w dataset (Z.of_nat i) st1
                 = (Ok (VTuple [VStr name; VTensor image]), st2)) ->
  exists st',
    extract_index_features collate_fn w dataset clip_model st
    = (Ok (Matrix (output_dim clip_model)
             (flat_map (fun item => mrows (encode_image clip_model [item.2])) items),
           map fst items), st').
Proof.
  intros Hlen Hget.
  destruct (index_loop collate_fn w dataset clip_model collate_one encode_one items 0%nat
              (torch_empty (output_dim clip_model)) [] st eq_refl) as [st' Hloop].
  { intros i name image st1 Hi. apply (Hget i name image st1 Hi). }
  exists st'. unfold extract_index_features.
  rewrite bind_py, Hlen. cbn [lift]. rewrite Nat2Z.id. exact Hloop.
Qed.

(** The build stopped by an item that comes back as [None]. *)
Lemma extract_stopped (loaded : list (string * tensor)) (n : Z) (e : exn)
    (st : interp) :
  dataset_len dataset = Ok n -> Z.of_nat (length loaded) < n ->
  (forall i name image st1, loaded !! i = Some (name, image) ->
     exists st2, dataset_getitem w dataset (Z.of_nat i) st1
                 = (Ok (VTuple [VStr name; VTensor image]), st2)) ->
  (forall st1, exists st2,
     dataset_getitem w dataset (Z.of_nat (length loaded)) st1 = (Ok VNone, st2)) ->
  collate_fn [VNone] = Raise e ->
  exists st', extract_index_features collate_fn w dataset clip_model st = (Raise e, st').
Proof.
  intros Hlen Hn Hget Hnone Hcollate.
  destruct (index_loop collate_fn w dataset clip_model collate_one encode_one loaded 0%nat
              (torch_empty (output_dim clip_model)) [] st eq_refl) as [st1 Hloop].
  { intros i name image st2 Hi. apply (Hget i name image st2 Hi). }
  destruct (Hnone st1) as [st2 Hitem].
  exists st2. unfold extract_index_features.
  rewrite Hlen, bind_lift_ok. cbn zeta.
  replace (Z.to_nat n)
    with (length loaded + S (Z.to_nat n - S (length loaded)))%nat by lia.
  rewrite seq_app, for_each_app, bind_py.
  lazymatch goal with
  | |- context [for_each (seq 0 (length loaded)) ?body ?acc ?s] =>
      rewrite (Hloop : for_each (seq 0 (length loaded)) body acc s = _)
  end.
  cbn [seq for_each Nat.add]. rewrite bind_py. cbn beta iota.
  rewrite bind_py, Hitem, bind_py, Hcollate. reflexivity.
Qed.

End PipelineFacts.

(** X24: one item that comes back as [None] (a guarded adapter that could not
    read it) stops the whole index build when the collation rejects the
    batch [[None]]: [extract_index_features] ends in the collation's
    exception and returns nothing for the items read before. *)
Theorem index_build_stops_at_None {D : Type} `{Datasets.Dataset D}
    (collate_fn : list Datasets.value -> result (list string * list Datasets.tensor))
    (w : Datasets.world) (dataset : D) (clip_model : Inference.CLIP)
    (loaded : list (string * Datasets.tensor)) (n : Z) (e : exn) (st : interp) :
  (forall name image,
     collate_fn [Datasets.VTuple [Datasets.VStr name; Datasets.VTensor image]]
     = Ok ([name], [image])) ->
  (forall image, exists row,
     Inference.encode_image clip_model [image]
     = Inference.Matrix (Inference.output_dim clip_model) [row]) ->
  Datasets.dataset_len dataset = Ok n -> Z.of_nat (length loaded) < n ->
  (forall i name image st1, loaded !! i = Some (name, image) ->
     exists st2, Datasets.dataset_getitem w dataset (Z.of_nat i) st1
                 = (Ok (Datasets.VTuple [Datasets.VStr name; Datasets.VTensor image]), st2)) ->
  (forall st1, exists st2,
     Datasets.dataset_getitem w dataset (Z.of_nat (length loaded)) st1
     = (Ok Datasets.VNone, st2)) ->
  collate_fn [Datasets.VNone] = Raise e ->
  exists st',
    Inference.extract_index_features collate_fn w dataset clip_model st = (Raise e, st').
Proof.
  intros Hcollate Hencode. apply extract_stopped; assumption.
Qed.

Lemma index_build_stops_at_None_witness :
  exists st',
    Inference.extract_index_features Examples.collate_pairs Examples.disk
      Examples.wikiart_gap Examples.toy_clip Examples.st0
    = (Raise (TypeError "default_collate: unexpected batch element"), st').
Proof.
  apply (index_build_stops_at_None Examples.collate_pairs Examples.disk
           Examples.wikiart_gap Examples.toy_clip [("monet.jpg", [[[30%Q]]])] 3).
  - intros name image. reflexivity.
  - intros image. eexists. reflexivity.
  - reflexivity.
  - cbn. lia.
  - intros [|i] name image st1 Hi; [|discriminate Hi].
    injection Hi as <- <-. eexists. reflexivity.
  - intros st1. eexists. reflexivity.
  - reflexivity.
Defined.

(** X25: [inference] end to end.  When the Wikiart manifest is on the disk,
    every image it lists loads, the query image loads and the query embedding
    has the encoder's width, [inference] returns one ranking per query row
    and each ranking is a rearrangement of the manifest's image paths: every
    gallery image is ranked, once. *)
Theorem inference_ranks_whole_gallery (F_normalize : list Q -> list Q)
    (matmul : list (list Q) -> list (list Q) -> nat -> nat -> Q)
    (argsort : list Q -> list Z)
    (collate_fn : list Datasets.value -> result (list string * list Datasets.tensor))
    (preprocess : Transforms.image -> result Datasets.tensor)
    (w : Datasets.world)
    (combining_function : Inference.matrix -> Inference.matrix -> Inference.matrix)
    (clip_model : Inference.CLIP)
    (dataset_preprocess : Transforms.image -> result Datasets.tensor)
    (image_query text_query : string)
    (entries : list Datasets.wikiart_entry) (tensor_of : string -> Datasets.tensor)
    (query_image : Transforms.image) (query_tensor : Datasets.tensor)
    (tokens : list (list Z)) (st : interp) :
  Inference.sorts argsort ->
  (forall name image,
     collate_fn [Datasets.VTuple [Datasets.VStr name; Datasets.VTensor image]]
     = Ok ([name], [image])) ->
  (forall image, exists row,
     Inference.encode_image clip_model [image]
     = Inference.Matrix (Inference.output_dim clip_model) [row]) ->
  Datasets.wikiart_files w (os_path_join "wikiart-landscape" "landscape.json")
    = Some entries ->
  (forall entry st1, entry ∈ entries ->
     Datasets.load_image w dataset_preprocess
       (os_path_join (os_path_join "wikiart-landscape" "images")
          (Datasets.wikiart_image_path entry)) st1
     = (Ok (tensor_of (Datasets.wikiart_image_path entry)), st1)) ->
  Datasets.Image_open w image_query = Ok query_image ->
  preprocess query_image = Ok query_tensor ->
  Inference.tokenize clip_model [text_query] = Ok tokens ->
  Inference.ncols (combining_function (Inference.encode_image clip_model [query_tensor])
                     (Inference.encode_text clip_model tokens))
  = Inference.output_dim clip_model ->
  exists sorted_index_names st',
    Inference.inference F_normalize matmul argsort collate_fn preprocess w
      combining_function
      clip_model dataset_preprocess image_query text_query st
    = (Ok sorted_index_names, st')
    /\ length sorted_index_names
       = length (Inference.mrows
                   (combining_function (Inference.encode_image clip_model [query_tensor])
                      (Inference.encode_text clip_model tokens)))
    /\ Forall (fun row => row ≡ₚ (Datasets.wikiart_image_path <$> entries))
         sorted_index_names.
Proof.
  intros Hsorts Hcollate Hencode Hmanifest Hload Hopen Hpre Htok Hwidth.
  set (items := map (fun entry => (Datasets.wikiart_image_path entry,
                                   tensor_of (Datasets.wikiart_image_path entry))) entries).
  set (ds := {| Datasets.wk_preprocess := dataset_preprocess;
                Datasets.wk_base_path := "wikiart-landscape";
                Datasets.wk_dataset := entries |}).
  set (st1 := Interp (stdout st ++ ["Wikiart dataset initialized"]) (rng st) (rng_pos st)).
  assert (Hinit : Datasets.WikiartDataset_init w "wikiart-landscape" dataset_preprocess st
                  = (Ok ds, st1)).
  { unfold Datasets.WikiartDataset_init. rewrite bind_py.
    unfold lift at 1, Datasets.json_load at 1. rewrite Hmanifest. reflexivity. }
  destruct (extract_loaded collate_fn w ds clip_model Hcollate Hencode items st1)
    as [st2 Hextract].
  { cbn. unfold Datasets.WikiartDataset_len. cbn [Datasets.wk_dataset ds].
    unfold items. rewrite length_map. reflexivity. }
  { intros i name image st3 Hi. exists st3.
    unfold items in Hi. rewrite list_lookup_fmap in Hi.
    destruct (entries !! i) as [entry|] eqn:Eentry; [|discriminate Hi].
    injection Hi as <- <-.
    cbn [Datasets.dataset_getitem Datasets.WikiartDataset_Dataset].
    unfold Datasets.WikiartDataset_getitem, try_except,
      Datasets.WikiartDataset_getitem_body.
    cbn [Datasets.wk_dataset Datasets.wk_base_path Datasets.wk_preprocess ds].
    rewrite (getitem_lookup entries i entry Eentry), bind_lift_ok. cbn zeta.
    rewrite bind_py, Hload by (apply list_elem_of_lookup; eauto).
    reflexivity. }
  set (feats := Inference.Matrix (Inference.output_dim clip_model)
                  (flat_map (fun item => Inference.mrows
                                           (Inference.encode_image clip_model [item.2]))
                     items)) in *.
  set (P := combining_function (Inference.encode_image clip_model [query_tensor])
              (Inference.encode_text clip_model tokens)) in *.
  destruct (rank_sorted F_normalize matmul argsort Hsorts P feats (map fst items))
    as (out & Hout & Hranked).
  { exact Hwidth. }
  { unfold feats. cbn [Inference.mrows].
    rewrite (singleton_rows_length clip_model Hencode items), length_map.
    reflexivity. }
  eexists out, _. split; [|split].
  - unfold Inference.inference.
    rewrite bind_py, Hinit, bind_py, Hextract. cbn beta iota.
    unfold Inference.get_predictions, Inference.predictions.
    rewrite !bind_py. cbn [print]. cbn beta iota.
    rewrite !bind_py. unfold lift at 1. rewrite Hopen.
    rewrite !bind_py. unfold lift at 1. rewrite Hpre.
    rewrite !bind_py. unfold lift at 1. rewrite Htok.
    cbn beta iota zeta. fold P.
    change ((mret P : py Inference.matrix)) with (fun s : interp => (Ok P, s)).
    cbn beta iota. unfold lift. rewrite Hout. reflexivity.
  - rewrite <- (Forall2_length _ _ _ Hranked), length_map, length_seq. reflexivity.
  - apply Forall_forall. intros row Hrow.
    apply list_elem_of_lookup in Hrow as [k Hk].
    destruct (Forall2_lookup_r _ _ _ _ _ Hranked Hk) as (q & _ & Hq).
    pose proof (ranked_Permutation _ _ _ Hq) as Hperm.
    rewrite Hperm. unfold items. rewrite map_map. cbn [fst]. reflexivity.
Qed.

(** ** The statements above at concrete inputs *)

Lemma relative_validation_reads_no_image_witness :
  Datasets.FashionIQDataset_getitem Examples.disk MoreExamples.fiq_val 1 Examples.st0
  = (Ok (Datasets.VTuple [Datasets.VStr "B002"; Datasets.VStr "B003";
                          Datasets.VStrs ["is shorter"]]), Examples.st0).
Proof.
  destruct relative_validation_reads_no_image as (Hfiq & _ & _).
  apply (Hfiq Examples.disk MoreExamples.fiq_val 1
           (Datasets.FiqTriplet "B002" "B003" ["is shorter"] None) Examples.st0);
    reflexivity.
Defined.

Lemma CIRDataset_train_tables_witness :
  Datasets.imagenames (MoreExamples.train_self MoreExamples.fashion)
    = Tables.first_seen ["B001"; "B002"; "B002"; "B003"; "B001"; "B003"]
  /\ Datasets.image_id (MoreExamples.train_self MoreExamples.fashion) = Some 3
  /\ Datasets.target_id (MoreExamples.train_self MoreExamples.fashion) = Some 2.
Proof.
  destruct (CIRDataset_train_tables MoreExamples.fashion "fiq" "relative"
              Examples.to_tensor "data" (Some ["dress"]) false 0 false false
              Examples.st0 (MoreExamples.train_run MoreExamples.fashion).2
              (MoreExamples.train_self MoreExamples.fashion))
    as (Hnames & _ & Hid & _ & Htid & _).
  - vm_compute. reflexivity.
  - reflexivity.
  - split; [exact Hnames|]. split; [exact Hid | exact Htid].
Defined.

Lemma CIRDataset_train_getitem_ids_witness :
  exists target_k reference_k target_all_k : nat,
    Tables.first_seen (map Datasets.target_name
                         (Datasets.triplets (MoreExamples.train_self MoreExamples.fashion)))
      !! target_k = Some "B003"
    /\ Datasets.imagenames (MoreExamples.train_self MoreExamples.fashion) !! reference_k
       = Some "B002"
    /\ Datasets.imagenames (MoreExamples.train_self MoreExamples.fashion) !! target_all_k
       = Some "B003"
    /\ forall (w' : Datasets.world) (st2 : interp),
         Datasets.CIRDataset_getitem w' (MoreExamples.train_self MoreExamples.fashion) 1 st2
         = (caption ← Datasets.train_caption
                        (MoreExamples.train_self MoreExamples.fashion) 1 ["is shorter"];
            reference_image ← Datasets.load_image w' Examples.to_tensor
                                "data/images/B002.png";
            target_image ← Datasets.load_image w' Examples.to_tensor
                             "data/images/B003.png";
            mret (Datasets.VTuple
                    [Datasets.VTensor reference_image; Datasets.VStr caption;
                     Datasets.VTensor target_image; Datasets.VInt 1;
                     Datasets.VInt (Z.of_nat target_k);
                     Datasets.VInt (Z.of_nat reference_k);
                     Datasets.VInt (Z.of_nat target_all_k)])) st2.
Proof.
  apply (CIRDataset_train_getitem_ids MoreExamples.fashion "fiq" Examples.to_tensor
           "data" (Some ["dress"]) false 0 false false Examples.st0
           (MoreExamples.train_run MoreExamples.fashion).2
           (MoreExamples.train_self MoreExamples.fashion) 1
           {| Datasets.reference := "data/images/B002.png";
              Datasets.reference_name := "B002";
              Datasets.target := "data/images/B003.png";
              Datasets.target_name := "B003";
              Datasets.captions := ["is shorter"];
              Datasets.pairid := None; Datasets.group_members := None |}).
  - vm_compute. reflexivity.
  - reflexivity.
  - vm_compute. reflexivity.
Defined.

Lemma CIRDataset_train_snapshot_witness :
  Datasets.imagenames (MoreExamples.train_self MoreExamples.fashion_snapshot)
    = ["B001"; "B002"]
  /\ Datasets.image_id (MoreExamples.train_self MoreExamples.fashion_snapshot) = Some 2
  /\ Datasets.target_id (MoreExamples.train_self MoreExamples.fashion_snapshot) = Some 2.
Proof.
  destruct (CIRDataset_train_snapshot MoreExamples.fashion_snapshot "fiq" "relative"
              Examples.to_tensor "data" (Some ["dress"]) false 0 false false
              Examples.st0 (MoreExamples.train_run MoreExamples.fashion_snapshot).2
              (MoreExamples.train_self MoreExamples.fashion_snapshot)
              ["B001"; "B002"] ["data/images/B001.png"; "data/images/B002.png"]
              (<["B001" := 0]> (<["B002" := 1]> ∅)))
    as (Hnames & _ & _ & Hid & _ & Htid).
  - vm_compute. reflexivity.
  - reflexivity.
  - split; [exact Hnames|]. split; [exact Hid | exact Htid].
Defined.

Lemma train_caption_verbatim_witness :
  Datasets.train_caption (MoreExamples.train_self MoreExamples.fashion) (-1)
    Examples.two_captions Examples.st0
  = Caption.generate_randomized_fiq_caption Examples.two_captions (-1) Examples.st0
  /\ exists caption st',
       Datasets.train_caption (MoreExamples.train_self MoreExamples.fashion) 3
         Examples.two_captions Examples.st0
       = (Ok caption, st')
       /\ caption ∈ Examples.two_captions
       /\ stdout st' = stdout Examples.st0.
Proof.
  split.
  - apply (proj1 (train_caption_verbatim
                    (MoreExamples.train_self MoreExamples.fashion) (-1)
                    Examples.two_captions Examples.st0 (le_n 2)) 3);
      [reflexivity | reflexivity | lia].
  - apply (proj2 (train_caption_verbatim
                    (MoreExamples.train_self MoreExamples.fashion) 3
                    Examples.two_captions Examples.st0 (le_n 2))).
    right. exists 3. split; [reflexivity | lia].
Defined.

Lemma FashionIQDataset_init_loads_witness :
  Datasets.FashionIQDataset_init MoreExamples.fashion "val" ["dress"] "relative"
    Examples.to_tensor Examples.st0
  = (Ok MoreExamples.fiq_val,
     Interp ["FashionIQ val - ['dress'] dataset in relative mode initialized"]
       (rng Examples.st0) (rng_pos Examples.st0)).
Proof.
  apply (FashionIQDataset_init_loads MoreExamples.fashion "val" ["dress"] "relative"
           Examples.to_tensor (fun _ => MoreExamples.dress_triplets)
           (fun _ => MoreExamples.dress_names) Examples.st0).
  - repeat constructor.
  - repeat constructor.
  - repeat constructor.
  - intros dress_type Hin. apply list_elem_of_singleton in Hin as ->. reflexivity.
  - intros dress_type Hin. apply list_elem_of_singleton in Hin as ->. reflexivity.
Defined.

Lemma missing_manifest_fails_construction_witness :
  Datasets.FashionIQDataset_init MoreExamples.fashion "val" ["dress"; "shirt"; "toptee"]
    "classic" Examples.to_tensor Examples.st0
  = (Raise (FileNotFoundError "/repo/fashionIQ_dataset/captions/cap.shirt.val.json"),
     Examples.st0).
Proof.
  destruct missing_manifest_fails_construction as (Hfiq & _ & _).
  apply (Hfiq MoreExamples.fashion "val" ["dress"] ["toptee"] "shirt" "classic"
           Examples.to_tensor Examples.st0).
  - repeat constructor.
  - repeat constructor.
  - repeat constructor.
  - intros dress_type Hin. apply list_elem_of_singleton in Hin as ->.
    eexists. reflexivity.
  - reflexivity.
Defined.

Lemma cirr_classic_entry_witness :
  Datasets.CIRRDataset_getitem Examples.disk MoreExamples.cirr_classic 1 Examples.st0
  = try_except
      (image ← Datasets.load_image Examples.disk Examples.to_tensor
                 "/repo/cirr_dataset/dev/dev-2-img1.png";
       mret (Datasets.VTuple [Datasets.VStr "dev-2-img1"; Datasets.VTensor image]))
      Datasets.swallow Examples.st0.
Proof.
  destruct cirr_classic_entry as (Hcirr & _).
  apply (Hcirr Examples.disk MoreExamples.cirr_classic 1%nat "dev-2-img1"
           "./dev/dev-2-img1.png" Examples.st0).
  - reflexivity.
  - cbn. apply NoDup_cons. split; [|apply NoDup_singleton].
    intros Hin. apply list_elem_of_singleton in Hin. discriminate Hin.
  - reflexivity.
Defined.

Lemma inference_ranks_whole_gallery_witness :
  exists sorted_index_names st',
    Inference.inference Examples.normalize_unit Examples.matmul32
      Examples.argsort_first Examples.collate_pairs Examples.to_tensor Examples.disk Examples.element_wise_sum
      Examples.toy_clip Examples.to_tensor "data/images/B001.png" "at dusk" Examples.st0
    = (Ok sorted_index_names, st')
    /\ length sorted_index_names = 1%nat
    /\ Forall (fun row => row ≡ₚ ["monet.jpg"; "corot.jpg"]) sorted_index_names.
Proof.
  apply (inference_ranks_whole_gallery Examples.normalize_unit Examples.matmul32
           Examples.argsort_first Examples.collate_pairs Examples.to_tensor Examples.disk
           Examples.element_wise_sum Examples.toy_clip Examples.to_tensor
           "data/images/B001.png" "at dusk"
           [Datasets.WikiartEntry "monet.jpg"; Datasets.WikiartEntry "corot.jpg"]
           MoreExamples.painting (Examples.gray 10) [[[10%Q]]] [[49406; 49407]]
           Examples.st0).
  - exact argsort_first_sorts.
  - intros name image. reflexivity.
  - intros image. eexists. reflexivity.
  - reflexivity.
  - intros entry st1 Hin.
    apply elem_of_cons in Hin as [->|Hin]; [reflexivity|].
    apply list_elem_of_singleton in Hin as ->. reflexivity.
  - reflexivity.
  - reflexivity.
  - reflexivity.
  - reflexivity.
Defined.
